(** * Brutalist UI MCP server: registry client, query layer and
      documentation extractor

    A shallow embedding of the TypeScript sources

    - [src/schemas/registry.ts]  (zod schemas of the registry documents),
    - [src/utils/api.ts]         (cache, registry client, query layer),
    - [src/utils/docs.ts]        (documentation extractor, two revisions),
    - [src/index.ts]             (command line and environment set-up),

    followed by the properties of the specification, each stated against
    these definitions.

    Conventions.  JavaScript strings are modelled as [string] (sequences of
    8-bit characters); the case mappings and [trim] act on the ASCII range,
    which is where the catalogue, the special-case table and every fixture
    live.  A plain JavaScript object used as a dictionary is a [gmap] of its
    own properties, read through [js_get], which also sees the properties
    inherited from [Object.prototype].  A call that can throw returns an
    [Outcome]. *)

From Stdlib Require Import ZArith Ascii String List Bool Lia.
From stdpp Require Import base option list gmap fin_maps strings.

Open Scope string_scope.
#[local] Set Warnings "-clear-no-such-hyp".

(* ===================================================================== *)
(** ** JavaScript primitives                                              *)
(* ===================================================================== *)

Module Js.

(** A [string] of the model stands for a JavaScript string of 7-bit
    characters, U+0000 to U+007F; [plain] says that a string is one.  On
    these strings the case mappings and the trimming below are those of
    JavaScript.  Outside that range JavaScript folds further characters,
    may change the length of the string ("ß" is upper-cased to "SS") and
    trims further spaces (U+00A0, U+FEFF, ...): the statements about
    case-insensitive matching and about blank queries assume [plain]. *)
Definition plain_char (c : ascii) : bool := (nat_of_ascii c <? 128)%nat.

Fixpoint plain (s : string) : bool :=
  match s with
  | EmptyString => true
  | String c s' => plain_char c && plain s'
  end.

(** [String.prototype.toLowerCase] / [toUpperCase] on [plain] strings:
    A-Z is mapped to a-z (a-z to A-Z), every other character is kept. *)
Definition lower_char (c : ascii) : ascii :=
  let n := nat_of_ascii c in
  if (65 <=? n)%nat && (n <=? 90)%nat then ascii_of_nat (n + 32) else c.

Definition upper_char (c : ascii) : ascii :=
  let n := nat_of_ascii c in
  if (97 <=? n)%nat && (n <=? 122)%nat then ascii_of_nat (n - 32) else c.

Fixpoint toLowerCase (s : string) : string :=
  match s with
  | EmptyString => EmptyString
  | String c s' => String (lower_char c) (toLowerCase s')
  end.

Fixpoint toUpperCase (s : string) : string :=
  match s with
  | EmptyString => EmptyString
  | String c s' => String (upper_char c) (toUpperCase s')
  end.

(** White space removed by [String.prototype.trim] from a [plain] string:
    TAB, LF, VT, FF, CR and SPACE. *)
Definition is_whitespace (c : ascii) : bool :=
  let n := nat_of_ascii c in
  ((9 <=? n)%nat && (n <=? 13)%nat) || (n =? 32)%nat.

Fixpoint trimStart (s : string) : string :=
  match s with
  | EmptyString => EmptyString
  | String c s' => if is_whitespace c then trimStart s' else s
  end.

Definition trimEnd (s : string) : string :=
  String.rev (trimStart (String.rev s)).

Definition trim (s : string) : string := trimEnd (trimStart s).

(** [s.includes(sub)]: [sub] occurs in [s] as a contiguous substring. *)
Fixpoint includes (s sub : string) : bool :=
  String.prefix sub s ||
  match s with
  | EmptyString => false
  | String _ s' => includes s' sub
  end.

(** [s.charAt(0)] and [s.slice(1)]. *)
Definition charAt0 (s : string) : string :=
  match s with
  | EmptyString => EmptyString
  | String c _ => String c EmptyString
  end.

Definition slice1 (s : string) : string :=
  match s with
  | EmptyString => EmptyString
  | String _ s' => s'
  end.

(** Truthiness of a string: only the empty string is falsy. *)
Definition truthy (s : string) : bool :=
  match s with
  | EmptyString => false
  | String _ _ => true
  end.

(** [a.includes(x)] on an array of strings. *)
Definition array_includes (a : list string) (x : string) : bool :=
  bool_decide (x ∈ a).

(** *** Plain objects used as dictionaries

    The names every object literal inherits from [Object.prototype].  A
    property read [o[k]] that finds no own property [k] falls back to
    these. *)
Definition objectPrototypeKeys : list string :=
  [ "constructor"; "__proto__"; "hasOwnProperty"; "isPrototypeOf";
    "propertyIsEnumerable"; "toLocaleString"; "toString"; "valueOf";
    "__defineGetter__"; "__defineSetter__"; "__lookupGetter__";
    "__lookupSetter__" ].

Inductive Property (V : Type) : Type :=
| Own (v : V)              (* an own property of the object *)
| Inherited (k : string)   (* the built-in [Object.prototype[k]] *)
| Undefined.
Arguments Own {V} v.
Arguments Inherited {V} k.
Arguments Undefined {V}.

(** [o[k]] *)
Definition js_get {V : Type} (o : gmap string V) (k : string) : Property V :=
  match o !! k with
  | Some v => Own v
  | None => if bool_decide (k ∈ objectPrototypeKeys) then Inherited k
            else Undefined
  end.

(** [o[k] = v] on an ordinary object: the name [__proto__] reaches the
    prototype accessor and creates no own property. *)
Definition js_set {V : Type} (o : gmap string V) (k : string) (v : V)
  : gmap string V :=
  if bool_decide (k = "__proto__") then o else <[k := v]> o.

(** *** Exceptions *)
Record Error : Type := mkError { ename : string; message : string }.

Inductive Outcome (A : Type) : Type :=
| Returned (a : A)
| Thrown (e : Error).
Arguments Returned {A} a.
Arguments Thrown {A} e.

Definition bind {A B : Type} (m : Outcome A) (k : A → Outcome B)
  : Outcome B :=
  match m with
  | Returned a => k a
  | Thrown e => Thrown e
  end.

(** [`${error}`]: an [Error] prints as [name: message]; a [ZodError]
    overrides [toString] and prints its message alone. *)
Definition error_to_string (e : Error) : string :=
  if String.eqb (ename e) "ZodError" then message e
  else ename e +:+ ": " +:+ message e.

End Js.

Import Js.

#[global] Instance Outcome_ret : MRet Js.Outcome := @Js.Returned.
#[global] Instance Outcome_bind : MBind Js.Outcome :=
  fun A B k m => Js.bind m k.

#[global] Instance Error_eq_dec : EqDecision Js.Error.
Proof. solve_decision. Defined.

(* ===================================================================== *)
(** ** Decoded JSON documents                                             *)
(* ===================================================================== *)

(** What [JSON.parse] hands to the schemas.  An object is the list of its
    own properties, each name occurring once; numbers are never inspected
    by the code and are kept as integers. *)
#[local] Unset Elimination Schemes.
Inductive Json : Type :=
| JNull
| JBool (b : bool)
| JNumber (n : Z)
| JString (s : string)
| JArray (items : list Json)
| JObject (fields : list (string * Json)).
#[local] Set Elimination Schemes.

(** [data[key]] on a decoded object: [None] is [undefined]. *)
Fixpoint field (fields : list (string * Json)) (key : string) : option Json :=
  match fields with
  | [] => None
  | (k, v) :: rest => if String.eqb k key then Some v else field rest key
  end.

(* ===================================================================== *)
(** ** src/schemas/registry.ts                                            *)
(* ===================================================================== *)

Module Schema.

(** The error thrown by [schema.parse].  Its message is the JSON text of
    all the issues found; the model keeps the path and the text of the
    first issue, and no statement depends on more than the failure and
    the place of this message inside the messages built from it. *)
Definition ZodError (path msg : string) : Js.Error :=
  Js.mkError "ZodError" (path +:+ ": " +:+ msg).

Definition invalid {A : Type} (path msg : string) : Outcome A :=
  Thrown (ZodError path msg).

(** [z.string()], [z.boolean()], [z.number()] and their [.optional()]
    variants, applied to the value found under a key ([None] when the key
    is missing). *)
Definition z_string (path : string) (v : option Json) : Outcome string :=
  match v with
  | Some (JString s) => Returned s
  | None => invalid path "Required"
  | Some _ => invalid path "Expected string"
  end.

Definition z_string_optional (path : string) (v : option Json)
  : Outcome (option string) :=
  match v with
  | None => Returned None
  | Some (JString s) => Returned (Some s)
  | Some _ => invalid path "Expected string"
  end.

Definition z_boolean (path : string) (v : option Json) : Outcome bool :=
  match v with
  | Some (JBool b) => Returned b
  | None => invalid path "Required"
  | Some _ => invalid path "Expected boolean"
  end.

Definition z_boolean_optional (path : string) (v : option Json)
  : Outcome (option bool) :=
  match v with
  | None => Returned None
  | Some (JBool b) => Returned (Some b)
  | Some _ => invalid path "Expected boolean"
  end.

Definition z_number (path : string) (v : option Json) : Outcome Z :=
  match v with
  | Some (JNumber n) => Returned n
  | None => invalid path "Required"
  | Some _ => invalid path "Expected number"
  end.

(** [z.array(elem)] *)
Fixpoint z_items {A : Type} (elem : option Json → Outcome A)
  (items : list Json) : Outcome (list A) :=
  match items with
  | [] => Returned []
  | j :: rest =>
      x ← elem (Some j);
      xs ← z_items elem rest;
      Returned (x :: xs)
  end.

Definition z_array {A : Type} (path : string)
  (elem : option Json → Outcome A) (v : option Json) : Outcome (list A) :=
  match v with
  | Some (JArray items) => z_items elem items
  | None => invalid path "Required"
  | Some _ => invalid path "Expected array"
  end.

Definition z_array_optional {A : Type} (path : string)
  (elem : option Json → Outcome A) (v : option Json)
  : Outcome (option (list A)) :=
  match v with
  | None => Returned None
  | Some _ => xs ← z_array path elem v; Returned (Some xs)
  end.

(** [z.record(z.string(), elem)]: the result is a fresh object filled by
    property assignment. *)
Fixpoint z_entries {A : Type} (elem : option Json → Outcome A)
  (fields : list (string * Json)) (acc : gmap string A)
  : Outcome (gmap string A) :=
  match fields with
  | [] => Returned acc
  | (k, j) :: rest =>
      x ← elem (Some j);
      z_entries elem rest (js_set acc k x)
  end.

Definition z_record {A : Type} (path : string)
  (elem : option Json → Outcome A) (v : option Json)
  : Outcome (gmap string A) :=
  match v with
  | Some (JObject fields) => z_entries elem fields ∅
  | None => invalid path "Required"
  | Some _ => invalid path "Expected object"
  end.

(** *** ComponentFileSchema *)
Record ComponentFile : Type := mkComponentFile {
  file_path : option string;
  file_name : option string;
  file_type : option string;
  file_target : option string;
  file_language : option string;
  file_content : string
}.

(** The value of [data.path || data.name] as a condition. *)
Definition path_or_name (path name : option string) : bool :=
  match path with
  | Some p => if Js.truthy p then true else from_option Js.truthy false name
  | None => from_option Js.truthy false name
  end.

Definition ComponentFileSchema (v : option Json) : Outcome ComponentFile :=
  match v with
  | Some (JObject data) =>
      path ← z_string_optional "path" (field data "path");
      name ← z_string_optional "name" (field data "name");
      type ← z_string_optional "type" (field data "type");
      target ← z_string_optional "target" (field data "target");
      language ← z_string_optional "language" (field data "language");
      content ← z_string "content" (field data "content");
      if path_or_name path name
      then Returned (mkComponentFile path name type target language content)
      else invalid "path.name" "Either 'path' or 'name' must be provided"
  | None => invalid "files" "Required"
  | Some _ => invalid "files" "Expected object"
  end.

(** *** BrutalistFeaturesSchema *)
Inductive Theme : Type := classic | modern | experimental.

Record BrutalistFeatures : Type := mkBrutalistFeatures {
  hasThickBorders : option bool;
  hasShadows : option bool;
  hasSharpCorners : option bool;
  hasHighContrast : option bool;
  hasAnimations : option bool;
  hasGlitchEffects : option bool;
  theme : option Theme
}.

Definition z_theme_optional (v : option Json) : Outcome (option Theme) :=
  match v with
  | None => Returned None
  | Some (JString s) =>
      if String.eqb s "classic" then Returned (Some classic)
      else if String.eqb s "modern" then Returned (Some modern)
      else if String.eqb s "experimental" then Returned (Some experimental)
      else invalid "theme" "Invalid enum value"
  | Some _ => invalid "theme" "Invalid enum value"
  end.

Definition BrutalistFeaturesSchema_optional (v : option Json)
  : Outcome (option BrutalistFeatures) :=
  match v with
  | None => Returned None
  | Some (JObject data) =>
      b1 ← z_boolean_optional "hasThickBorders" (field data "hasThickBorders");
      b2 ← z_boolean_optional "hasShadows" (field data "hasShadows");
      b3 ← z_boolean_optional "hasSharpCorners" (field data "hasSharpCorners");
      b4 ← z_boolean_optional "hasHighContrast" (field data "hasHighContrast");
      b5 ← z_boolean_optional "hasAnimations" (field data "hasAnimations");
      b6 ← z_boolean_optional "hasGlitchEffects" (field data "hasGlitchEffects");
      t ← z_theme_optional (field data "theme");
      Returned (Some (mkBrutalistFeatures b1 b2 b3 b4 b5 b6 t))
  | Some _ => invalid "brutalistFeatures" "Expected object"
  end.

(** *** ComponentSchema *)

(** [z.union([z.array(z.string()), z.record(z.string())])] *)
Inductive Dependencies : Type :=
| DependencyList (names : list string)
| DependencyMap (versions : gmap string string).

Definition z_dependencies_optional (path : string) (v : option Json)
  : Outcome (option Dependencies) :=
  match v with
  | None => Returned None
  | Some (JArray _) =>
      names ← z_array path (z_string path) v;
      Returned (Some (DependencyList names))
  | Some (JObject _) =>
      versions ← z_record path (z_string path) v;
      Returned (Some (DependencyMap versions))
  | Some _ => invalid path "Invalid input"
  end.

Record Component : Type := mkComponent {
  component_schema : option string;
  component_name : string;
  component_type : option string;
  component_title : option string;
  component_description : string;
  component_author : option string;
  component_version : string;
  component_framework : option string;
  component_frameworks : option (list string);
  component_brutalistFeatures : option BrutalistFeatures;
  component_categories : option (list string);
  component_category : option string;
  component_tags : option (list string);
  component_dependencies : option Dependencies;
  component_peerDependencies : option Dependencies;
  component_files : list ComponentFile;
  component_lastUpdated : option string
}.

Definition ComponentSchema (body : Json) : Outcome Component :=
  match body with
  | JObject data =>
      schema ← z_string_optional "$schema" (field data "$schema");
      name ← z_string "name" (field data "name");
      type ← z_string_optional "type" (field data "type");
      title ← z_string_optional "title" (field data "title");
      description ← z_string "description" (field data "description");
      author ← z_string_optional "author" (field data "author");
      version ← z_string "version" (field data "version");
      framework ← z_string_optional "framework" (field data "framework");
      frameworks ← z_array_optional "frameworks" (z_string "frameworks")
                     (field data "frameworks");
      features ← BrutalistFeaturesSchema_optional
                   (field data "brutalistFeatures");
      categories ← z_array_optional "categories" (z_string "categories")
                     (field data "categories");
      category ← z_string_optional "category" (field data "category");
      tags ← z_array_optional "tags" (z_string "tags") (field data "tags");
      dependencies ← z_dependencies_optional "dependencies"
                       (field data "dependencies");
      peerDependencies ← z_dependencies_optional "peerDependencies"
                           (field data "peerDependencies");
      files ← z_array "files" ComponentFileSchema (field data "files");
      lastUpdated ← z_string_optional "lastUpdated" (field data "lastUpdated");
      Returned (mkComponent schema name type title description author version
                  framework frameworks features categories category tags
                  dependencies peerDependencies files lastUpdated)
  | _ => invalid "" "Expected object"
  end.

(** *** RegistryComponentSchema, CategorySchema, RegistryIndexSchema *)
Record RegistryComponent : Type := mkRegistryComponent {
  name : string;
  title : string;
  description : string;
  type : string;
  categories : list string;
  featured : bool;
  url : string
}.

Definition RegistryComponentSchema (v : option Json)
  : Outcome RegistryComponent :=
  match v with
  | Some (JObject data) =>
      n ← z_string "name" (field data "name");
      t ← z_string "title" (field data "title");
      d ← z_string "description" (field data "description");
      ty ← z_string "type" (field data "type");
      cs ← z_array "categories" (z_string "categories")
             (field data "categories");
      f ← z_boolean "featured" (field data "featured");
      u ← z_string "url" (field data "url");
      Returned (mkRegistryComponent n t d ty cs f u)
  | None => invalid "components" "Required"
  | Some _ => invalid "components" "Expected object"
  end.

Record Category : Type := mkCategory {
  category_title : string;
  category_description : string
}.

Definition CategorySchema (v : option Json) : Outcome Category :=
  match v with
  | Some (JObject data) =>
      t ← z_string "title" (field data "title");
      d ← z_string "description" (field data "description");
      Returned (mkCategory t d)
  | None => invalid "categories" "Required"
  | Some _ => invalid "categories" "Expected object"
  end.

Record Meta : Type := mkMeta {
  lastUpdated : string;
  totalComponents : Z;
  maintainer : string
}.

Definition MetaSchema_optional (v : option Json) : Outcome (option Meta) :=
  match v with
  | None => Returned None
  | Some (JObject data) =>
      l ← z_string "lastUpdated" (field data "lastUpdated");
      t ← z_number "totalComponents" (field data "totalComponents");
      m ← z_string "maintainer" (field data "maintainer");
      Returned (Some (mkMeta l t m))
  | Some _ => invalid "meta" "Expected object"
  end.

Record RegistryIndex : Type := mkRegistryIndex {
  index_schema : option string;
  index_name : string;
  index_description : string;
  index_version : string;
  index_framework : string;
  index_baseUrl : string;
  components : list RegistryComponent;
  index_categories : gmap string Category;
  meta : option Meta
}.

Definition RegistryIndexSchema (body : Json) : Outcome RegistryIndex :=
  match body with
  | JObject data =>
      schema ← z_string_optional "$schema" (field data "$schema");
      n ← z_string "name" (field data "name");
      d ← z_string "description" (field data "description");
      v ← z_string "version" (field data "version");
      f ← z_string "framework" (field data "framework");
      b ← z_string "baseUrl" (field data "baseUrl");
      cs ← z_array "components" RegistryComponentSchema
             (field data "components");
      cats ← z_record "categories" CategorySchema (field data "categories");
      m ← MetaSchema_optional (field data "meta");
      Returned (mkRegistryIndex schema n d v f b cs cats m)
  | _ => invalid "" "Expected object"
  end.

End Schema.

Import Schema.

(* ===================================================================== *)
(** ** src/index.ts: command line and environment                         *)
(* ===================================================================== *)

Module Index.

(** Result of [parseArgs]: [--help] and [--version] print and leave the
    process; otherwise the optional [--registry-url] value is returned. *)
Inductive Parsed : Type :=
| Exit
| Args (registryUrl : option string).

Definition includes_arg (args : list string) (a : string) : bool :=
  bool_decide (a ∈ args).

(** [args.findIndex(arg => arg === flag)] followed by [args[i + 1]]. *)
Fixpoint arg_after (args : list string) (flag : string) : option string :=
  match args with
  | [] => None
  | a :: rest => if String.eqb a flag then hd_error rest
                 else arg_after rest flag
  end.

Definition parseArgs (argv : list string) : Parsed :=
  let args := drop 2 argv in
  if includes_arg args "--help" || includes_arg args "-h" then Exit
  else if includes_arg args "--version" || includes_arg args "-v" then Exit
  else match arg_after args "--registry-url" with
       | Some u => if Js.truthy u then Args (Some u) else Args None
       | None => Args None
       end.

(** The part of [main] that runs before the server is created: it leaves
    its choice in [process.env.REGISTRY_BASE_URL].  [None] when the
    process exits in [parseArgs]. *)
Definition main (env : gmap string string) (argv : list string)
  : option (gmap string string) :=
  match parseArgs argv with
  | Exit => None
  | Args (Some registryUrl) =>
      Some (<["REGISTRY_BASE_URL" := registryUrl]> env)
  | Args None =>
      let isDev :=
        bool_decide (env !! "NODE_ENV" = Some "development")
        || bool_decide (env !! "NODE_ENV" = Some "dev")
        || includes_arg argv "--dev" in
      let baseUrl := if isDev then "http://localhost:3000"
                     else "https://brutalist.precast.dev" in
      Some (<["REGISTRY_BASE_URL" := baseUrl +:+ "/registry/react"]> env)
  end.

End Index.

(* ===================================================================== *)
(** ** src/utils/api.ts: cache and registry client                        *)
(* ===================================================================== *)

Module Api.

(** [const REGISTRY_BASE_URL = process.env.NODE_ENV === 'production' ? ... ] *)
Definition REGISTRY_BASE_URL (env : gmap string string) : string :=
  if bool_decide (env !! "NODE_ENV" = Some "production")
  then "https://brutalist.precast.dev/registry/react"
  else "http://localhost:3000/registry/react".

Definition CACHE_TTL : Z := 5 * 60 * 1000.

(** The cache stores values of type [unknown]; the two producers are the
    two schemas.  The casts [as T] of [getFromCache] are erased at run
    time, so a read returns whatever was stored. *)
Inductive CacheData : Type :=
| IndexData (registryIndex : RegistryIndex)
| ComponentData (component : Component).

Record CacheEntry : Type := mkCacheEntry {
  data : CacheData;
  timestamp : Z
}.

(** What [axios.get] does with a request: it resolves with the decoded
    body of a 2xx response, or rejects with an [AxiosError] that carries
    the response status when there was a response. *)
Inductive Response : Type :=
| Resolved (body : Json)
| Rejected (status : option Z) (message : string).

Record Reply : Type := mkReply {
  response : Response;
  elapsed : Z                 (* milliseconds spent awaiting the reply *)
}.

(** The mutable world of the module: the [cache] map, the clock read by
    [Date.now()], and the log of requests sent so far. *)
Record World : Type := mkWorld {
  cache : gmap string CacheEntry;
  now : Z;
  requests : list string
}.

Definition Client (A : Type) : Type := World → A * World.


Section Client.

(** [process.env] as the module sees it, and the remote side: the reply
    to a request may depend on the requests made before it. *)
Variable env : gmap string string.
Variable network : list string → string → Reply.

Definition getFromCache (key : string) : Client (option CacheData) :=
  fun w =>
    match cache w !! key with
    | Some cached =>
        if (now w - timestamp cached <? CACHE_TTL)%Z
        then (Some (data cached), w)
        else (None, w)
    | None => (None, w)
    end.

Definition setCache (key : string) (d : CacheData) : Client unit :=
  fun w =>
    (tt, mkWorld (<[key := mkCacheEntry d (now w)]> (cache w))
           (now w) (requests w)).

Definition axios_get (url : string) : Client Response :=
  fun w =>
    let reply := network (requests w) url in
    (response reply,
     mkWorld (cache w) (now w + elapsed reply) (requests w ++ [url])%list).

Definition fetchRegistryIndex : Client (Outcome CacheData) :=
  fun w =>
    let cacheKey := "registry-index" in
    match getFromCache cacheKey w with
    | (Some cached, w) => (Returned cached, w)
    | (None, w) =>
        match axios_get (REGISTRY_BASE_URL env +:+ "/index.json") w with
        | (Resolved body, w) =>
            match RegistryIndexSchema body with
            | Returned registryIndex =>
                let '(_, w) := setCache cacheKey (IndexData registryIndex) w in
                (Returned (IndexData registryIndex), w)
            | Thrown error =>
                (Thrown (Js.mkError "Error"
                   ("Failed to parse registry index: "
                    +:+ Js.error_to_string error)), w)
            end
        | (Rejected _ message, w) =>
            (Thrown (Js.mkError "Error"
               ("Failed to fetch registry index: " +:+ message)), w)
        end
    end.

Definition fetchComponent (componentName : string)
  : Client (Outcome CacheData) :=
  fun w =>
    let cacheKey := "component-" +:+ componentName in
    match getFromCache cacheKey w with
    | (Some cached, w) => (Returned cached, w)
    | (None, w) =>
        match axios_get (REGISTRY_BASE_URL env +:+ "/" +:+ componentName
                         +:+ ".json") w with
        | (Resolved body, w) =>
            match ComponentSchema body with
            | Returned component =>
                let '(_, w) := setCache cacheKey (ComponentData component) w in
                (Returned (ComponentData component), w)
            | Thrown error =>
                (Thrown (Js.mkError "Error"
                   ("Failed to parse component '" +:+ componentName +:+ "': "
                    +:+ Js.error_to_string error)), w)
            end
        | (Rejected status message, w) =>
            if bool_decide (status = Some 404%Z)
            then (Thrown (Js.mkError "Error"
                    ("Component '" +:+ componentName
                     +:+ "' not found in registry")), w)
            else (Thrown (Js.mkError "Error"
                    ("Failed to fetch component '" +:+ componentName +:+ "': "
                     +:+ message)), w)
        end
    end.

End Client.

(** *** Query layer

    Each operation awaits [fetchRegistryIndex] and computes on its result;
    the functions below are those computations, with the awaited index as
    the argument [registryIndex]. *)

Record SearchResult : Type := mkSearchResult {
  results : list RegistryComponent;
  search_total : nat;
  search_query : string;
  filters : option string * option bool
}.

Definition searchComponents (registryIndex : RegistryIndex)
  (query : string) (category : option string) (featured : option bool)
  : SearchResult :=
  let results := components registryIndex in
  let results :=
    match category with
    | Some c =>
        if Js.truthy c
        then filter (λ component,
               Js.array_includes (categories component) c = true) results
        else results
    | None => results
    end in
  let results :=
    match featured with
    | Some f => filter (λ component, Schema.featured component = f) results
    | None => results
    end in
  let results :=
    if Js.truthy (Js.trim query) then
      let queryLower := Js.toLowerCase query in
      filter (λ component,
        Js.includes (Js.toLowerCase (name component)) queryLower
        || Js.includes (Js.toLowerCase (title component)) queryLower
        || Js.includes (Js.toLowerCase (description component)) queryLower
        = true) results
    else results in
  mkSearchResult results (length results) query (category, featured).

(** [registryIndex.categories[category] || null] *)
Inductive CategoryInfo : Type :=
| Info (info : Category)
| PrototypeMember (k : string)   (* a built-in of [Object.prototype] *)
| null.

Record CategoryComponents : Type := mkCategoryComponents {
  cc_category : string;
  categoryInfo : CategoryInfo;
  cc_components : list RegistryComponent;
  cc_total : nat
}.

Definition getComponentsByCategory (registryIndex : RegistryIndex)
  (category : string) : CategoryComponents :=
  let components :=
    filter (λ component,
      Js.array_includes (categories component) category = true)
      (components registryIndex) in
  let categoryInfo :=
    match Js.js_get (index_categories registryIndex) category with
    | Js.Own info => Info info
    | Js.Inherited k => PrototypeMember k
    | Js.Undefined => null
    end in
  mkCategoryComponents category categoryInfo components (length components).

(** Values that end up in [categoryCounts]: a number, a built-in read
    from [Object.prototype], or the string that [+ 1] makes of a value
    that is not a number. *)
Inductive CountValue : Type :=
| Num (n : nat)
| PrototypeValue (k : string)
| Concat (v : CountValue).

(** [p || 0] *)
Definition or_zero (p : Js.Property CountValue) : CountValue :=
  match p with
  | Js.Own v => v
  | Js.Inherited k => PrototypeValue k
  | Js.Undefined => Num 0
  end.

(** [v + 1] *)
Definition plus_one (v : CountValue) : CountValue :=
  match v with
  | Num n => Num (n + 1)
  | _ => Concat v
  end.

Record CategoryCount : Type := mkCategoryCount {
  cat_title : string;
  cat_description : string;
  count : CountValue
}.

Record Categories : Type := mkCategories {
  cats : gmap string CategoryCount;
  cats_total : nat
}.

Definition count_category (counts : gmap string CountValue) (cat : string)
  : gmap string CountValue :=
  Js.js_set counts cat (plus_one (or_zero (Js.js_get counts cat))).

Definition categoryCounts (registryIndex : RegistryIndex)
  : gmap string CountValue :=
  foldl (λ counts component,
           foldl count_category counts (categories component))
    ∅ (components registryIndex).

Definition getCategories (registryIndex : RegistryIndex) : Categories :=
  let categoryCounts := categoryCounts registryIndex in
  let categories :=
    map_fold (λ key info (categories : gmap string CategoryCount),
                Js.js_set categories key
                  (mkCategoryCount (category_title info)
                     (category_description info)
                     (or_zero (Js.js_get categoryCounts key))))
      ∅ (index_categories registryIndex) in
  mkCategories categories (size categories).

Record Featured : Type := mkFeatured {
  featured_components : list RegistryComponent;
  featured_total : nat
}.

Definition getFeaturedComponents (registryIndex : RegistryIndex) : Featured :=
  let featuredComponents :=
    filter (λ component, featured component = true)
      (components registryIndex) in
  mkFeatured featuredComponents (length featuredComponents).

Record Stats : Type := mkStats {
  stats_totalComponents : nat;
  featuredComponents : nat;
  categoriesCount : nat;
  stats_lastUpdated : option string      (* [None] is [null] *)
}.

Record RegistryInfo : Type := mkRegistryInfo {
  registry : RegistryIndex;
  stats : Stats
}.

Definition getRegistryInfo (registryIndex : RegistryIndex) : RegistryInfo :=
  let featuredCount :=
    length (filter (λ c, featured c = true) (components registryIndex)) in
  mkRegistryInfo registryIndex
    (mkStats (length (components registryIndex))
       featuredCount
       (size (index_categories registryIndex))
       (match meta registryIndex with
        | Some m => if Js.truthy (lastUpdated m) then Some (lastUpdated m)
                    else None
        | None => None
        end)).

End Api.

(* ===================================================================== *)
(** ** src/utils/docs.ts: documentation extractor                         *)
(* ===================================================================== *)

Module Docs.

Definition DOCS_STRUCTURE : list (string * list string) :=
  [ ("guides",
     [ "introduction"; "installation"; "typescript"; "cli";
       "design-principles"; "colors"; "typography"; "spacing"; "animations";
       "shapes"; "accessibility"; "theming"; "changelog" ]);
    ("components",
     [ "accordion"; "alert"; "avatar"; "badge"; "bar-chart"; "line-chart";
       "pie-chart"; "area-chart"; "aspect-ratio"; "breadcrumb"; "button";
       "card"; "checkbox"; "combobox"; "command"; "container";
       "context-menu"; "dialog"; "drawer"; "dropdown"; "hover-card"; "input";
       "input-otp"; "navigation"; "pagination"; "popover"; "progress";
       "radio"; "select"; "separator"; "sidebar"; "skeleton"; "slider";
       "spinner"; "stack"; "switch"; "toggle"; "typography"; "table";
       "table-of-contents"; "tabs"; "textarea"; "toast"; "tooltip" ]);
    ("api", [ "types"; "registry" ]) ].

Record Accessibility : Type := mkAccessibility {
  keyboardSupport : list string;
  ariaAttributes : list string;
  bestPractices : list string
}.

Record ApiProp : Type := mkApiProp {
  prop_name : string;
  prop_type : string;
  prop_defaultValue : option string;
  prop_description : string;
  prop_required : option bool
}.

Record DocumentationSection : Type := mkDocumentationSection {
  doc_title : string;
  doc_description : string;
  doc_content : string;
  examples : option (list string);
  accessibility : option Accessibility;
  apiReference : option (list ApiProp)
}.

(** *** The file system seen by [fs.existsSync] and [fs.readFileSync] *)
Inductive Node : Type :=
| File (content : string)
| Unreadable (message : string).   (* a directory, a permission error, ... *)

Definition FileSystem : Type := string → option Node.

Definition existsSync (fs : FileSystem) (path : string) : bool :=
  bool_decide (is_Some (fs path)).

Definition readFileSync (fs : FileSystem) (path : string) : Outcome string :=
  match fs path with
  | Some (File content) => Returned content
  | Some (Unreadable message) => Thrown (Js.mkError "Error" message)
  | None =>
      Thrown (Js.mkError "Error"
        ("ENOENT: no such file or directory, open '" +:+ path +:+ "'"))
  end.

Definition LF : string := String (ascii_of_nat 10) EmptyString.

Definition DOCS_DIR : string :=
  "/home/sacha/repositories/brutalist-components/apps/website/src/pages/docs".

(** [componentName.charAt(0).toUpperCase() + componentName.slice(1)], for
    a name whose first character is a 7-bit character. *)
Definition capitalized (componentName : string) : string :=
  Js.toUpperCase (Js.charAt0 componentName) +:+ Js.slice1 componentName.

(** [extractAPIReference] ignores its argument and returns [undefined]. *)
Definition extractAPIReference (_content : string) : option (list ApiProp) :=
  None.

(** [searchDocumentation]; the two revisions of the file agree on it.
    Reading [DOCS_STRUCTURE[sectionName]] for a name that is not a section
    gives [undefined] or a built-in, and [items.forEach] then throws. *)
Definition search_items (searchTerm sectionName : string)
  (items : list string) (results : list string) : list string :=
  foldl (λ results item,
           if Js.includes (Js.toLowerCase item) searchTerm
           then (results ++ [sectionName +:+ "/" +:+ item])%list
           else results)
    results items.

Definition search_section (searchTerm : string) (results : list string)
  (sectionName : string) : Outcome (list string) :=
  match Js.js_get (list_to_map DOCS_STRUCTURE : gmap string (list string))
          sectionName with
  | Js.Own items => Returned (search_items searchTerm sectionName items results)
  | Js.Inherited _ =>
      Thrown (Js.mkError "TypeError" "items.forEach is not a function")
  | Js.Undefined =>
      Thrown (Js.mkError "TypeError"
        "Cannot read properties of undefined (reading 'forEach')")
  end.

Fixpoint search_sections (searchTerm : string) (sections : list string)
  (results : list string) : Outcome (list string) :=
  match sections with
  | [] => Returned results
  | sectionName :: rest =>
      results ← search_section searchTerm results sectionName;
      search_sections searchTerm rest results
  end.

Definition searchDocumentation (query : string) (section : option string)
  : Outcome (list string) :=
  let searchTerm := Js.toLowerCase query in
  let sectionsToSearch :=
    match section with
    | Some s => if Js.truthy s then [s] else DOCS_STRUCTURE.*1
    | None => DOCS_STRUCTURE.*1
    end in
  search_sections searchTerm sectionsToSearch [].

Definition getAllDocumentationSections : list (string * list string) :=
  DOCS_STRUCTURE.

(** The scraping helpers match regular expressions against the file
    content.  The extractor is parametric in them; a helper is allowed to
    throw, which only strengthens what is proved about the callers. *)
Record Extractors : Type := mkExtractors {
  extractTitle : string → Outcome string;
  extractDescription : string → Outcome string;
  extractMainContent : string → Outcome string;
  extractExamples : string → Outcome (list string);
  extractAccessibility : string → Outcome (option Accessibility)
}.

(** [a || b] on strings *)
Definition or_else (a b : string) : string :=
  if Js.truthy a then a else b.

Definition emptyAccessibility : Accessibility := mkAccessibility [] [] [].

End Docs.

(** *** Revision with fall-back records *)
Module DocsFallback.
Import Docs.

Definition potentialPaths (componentName : string) : list string :=
  [ DOCS_DIR +:+ "/components/" +:+ capitalized componentName +:+ "Page.tsx";
    DOCS_DIR +:+ "/components/" +:+ componentName +:+ ".tsx";
    DOCS_DIR +:+ "/components/BarChartPage.tsx";
    DOCS_DIR +:+ "/components/LineChartPage.tsx";
    DOCS_DIR +:+ "/components/TableOfContentsPage.tsx";
    DOCS_DIR +:+ "/ShapesPage.tsx";
    DOCS_DIR +:+ "/components/aspect-ratio.tsx";
    DOCS_DIR +:+ "/components/pagination.tsx" ].

Definition specialCases : gmap string string :=
  list_to_map
    [ ("bar-chart", DOCS_DIR +:+ "/components/BarChartPage.tsx");
      ("line-chart", DOCS_DIR +:+ "/components/LineChartPage.tsx");
      ("table-of-contents", DOCS_DIR +:+ "/components/TableOfContentsPage.tsx");
      ("shapes", DOCS_DIR +:+ "/ShapesPage.tsx");
      ("pagination", DOCS_DIR +:+ "/components/pagination.tsx");
      ("aspect-ratio", DOCS_DIR +:+ "/components/aspect-ratio.tsx") ].

(** The special-case attempt: the pair is [(content, foundPath)].  A
    failed read is swallowed; so is the [TypeError] raised when the table
    yields a built-in of [Object.prototype] instead of a path. *)
Definition trySpecialCase (fs : FileSystem) (componentName : string)
  : string * string :=
  match Js.js_get specialCases componentName with
  | Js.Own path =>
      if Js.truthy path then
        match readFileSync fs path with
        | Returned content => (content, path)
        | Thrown _ => ("", "")
        end
      else ("", "")
  | Js.Inherited _ => ("", "")
  | Js.Undefined => ("", "")
  end.

(** The loop over [potentialPaths], leaving at the first file read. *)
Fixpoint tryPaths (fs : FileSystem) (paths : list string)
  (found : string * string) : string * string :=
  match paths with
  | [] => found
  | potentialPath :: rest =>
      if existsSync fs potentialPath then
        match readFileSync fs potentialPath with
        | Returned content => (content, potentialPath)
        | Thrown _ => tryPaths fs rest found
        end
      else tryPaths fs rest found
  end.

Definition notFoundRecord (componentName : string) : DocumentationSection :=
  mkDocumentationSection
    (capitalized componentName)
    ("Documentation for " +:+ componentName +:+ " component")
    ("# " +:+ capitalized componentName +:+ " Component" +:+ LF +:+ LF
     +:+ "Documentation file not found. Please check the component's source code for implementation details.")
    (Some [])
    (Some emptyAccessibility)
    None.

Definition errorRecord (componentName : string) (error : Js.Error)
  : DocumentationSection :=
  mkDocumentationSection
    (capitalized componentName)
    ("Documentation for " +:+ componentName +:+ " component")
    ("# " +:+ capitalized componentName +:+ " Component" +:+ LF +:+ LF
     +:+ "Error loading documentation: " +:+ Js.message error)
    (Some [])
    (Some emptyAccessibility)
    None.

(** The body of the outer [try]. *)
Definition extract_body (ex : Extractors) (fs : FileSystem)
  (componentName : string) : Outcome DocumentationSection :=
  let found := trySpecialCase fs componentName in
  let found :=
    if negb (Js.truthy found.1)
    then tryPaths fs (potentialPaths componentName) found
    else found in
  let '(content, foundPath) := found in
  if negb (Js.truthy content) then Returned (notFoundRecord componentName)
  else
    t ← extractTitle ex content;
    d ← extractDescription ex content;
    c ← extractMainContent ex content;
    e ← extractExamples ex content;
    a ← extractAccessibility ex content;
    Returned (mkDocumentationSection
      (or_else t (capitalized componentName))
      (or_else d (componentName +:+ " component"))
      (or_else c ("Documentation loaded from: " +:+ foundPath))
      (Some e)
      (Some (default emptyAccessibility a))
      (extractAPIReference content)).

Definition extractComponentDocumentation (ex : Extractors) (fs : FileSystem)
  (componentName : string) : Outcome DocumentationSection :=
  match extract_body ex fs componentName with
  | Returned documentation => Returned documentation
  | Thrown error => Returned (errorRecord componentName error)
  end.

End DocsFallback.

(** *** Revision that rethrows *)
Module DocsThrowing.
Import Docs.

Definition docsPath (componentName : string) : string :=
  if String.eqb componentName "aspect-ratio"
  then DOCS_DIR +:+ "/components/aspect-ratio.tsx"
  else if String.eqb componentName "pagination"
  then DOCS_DIR +:+ "/components/pagination.tsx"
  else if String.eqb componentName "bar-chart"
  then DOCS_DIR +:+ "/components/BarChartPage.tsx"
  else if String.eqb componentName "line-chart"
  then DOCS_DIR +:+ "/components/LineChartPage.tsx"
  else if String.eqb componentName "table-of-contents"
  then DOCS_DIR +:+ "/components/TableOfContentsPage.tsx"
  else if String.eqb componentName "shapes"
  then DOCS_DIR +:+ "/ShapesPage.tsx"
  else DOCS_DIR +:+ "/components/" +:+ capitalized componentName
       +:+ "Page.tsx".

Definition extract_body (ex : Extractors) (fs : FileSystem)
  (componentName : string) : Outcome DocumentationSection :=
  content ← readFileSync fs (docsPath componentName);
  t ← extractTitle ex content;
  d ← extractDescription ex content;
  c ← extractMainContent ex content;
  e ← extractExamples ex content;
  a ← extractAccessibility ex content;
  Returned (mkDocumentationSection t d c (Some e) a
              (extractAPIReference content)).

Definition extractComponentDocumentation (ex : Extractors) (fs : FileSystem)
  (componentName : string) : Outcome DocumentationSection :=
  match extract_body ex fs componentName with
  | Returned documentation => Returned documentation
  | Thrown error =>
      Thrown (Js.mkError "Error"
        ("Failed to extract documentation for " +:+ componentName +:+ ": "
         +:+ Js.message error))
  end.

End DocsThrowing.

(* ===================================================================== *)
(** ** Vocabulary of the specification and fixtures                       *)
(* ===================================================================== *)

Module Spec.
Import Api.

Fixpoint all_whitespace (s : string) : bool :=
  match s with
  | EmptyString => true
  | String c s' => Js.is_whitespace c && all_whitespace s'
  end.

(** Case-insensitive substring match of [query] against name, title or
    description. *)
Definition text_match (query : string) (c : RegistryComponent) : bool :=
  Js.includes (Js.toLowerCase (name c)) (Js.toLowerCase query)
  || Js.includes (Js.toLowerCase (title c)) (Js.toLowerCase query)
  || Js.includes (Js.toLowerCase (description c)) (Js.toLowerCase query).

(** The three filters of [search], each the identity when it does not
    apply.  A category applies when it is given and not the empty string. *)
Definition category_stage (category : option string)
  (l : list RegistryComponent) : list RegistryComponent :=
  match category with
  | Some c => if decide (c = "") then l
              else filter (λ x, c ∈ categories x) l
  | None => l
  end.

Definition featured_stage (featured : option bool)
  (l : list RegistryComponent) : list RegistryComponent :=
  match featured with
  | Some f => filter (λ x, Schema.featured x = f) l
  | None => l
  end.

Definition text_stage (query : string) (l : list RegistryComponent)
  : list RegistryComponent :=
  if all_whitespace query then l
  else filter (λ x, text_match query x = true) l.

(** The components that list [key], and the number of times [key] is
    written in the category lists of the index. *)
Definition components_in (key : string) (l : list RegistryComponent)
  : list RegistryComponent :=
  filter (λ x, key ∈ categories x) l.

Definition occurrences (key : string) (l : list RegistryComponent) : nat :=
  length (filter (λ c, c = key) (l ≫= categories)).

(** The catalogue entries of one section that contain [query]. *)
Definition section_matches (query sectionName : string)
  (items : list string) : list string :=
  (λ item, sectionName +:+ "/" +:+ item) <$>
    filter (λ item,
      Js.includes (Js.toLowerCase item) (Js.toLowerCase query) = true) items.

Definition catalogue_matches (query : string) : list string :=
  (Docs.DOCS_STRUCTURE ≫= λ s, section_matches query s.1 s.2).

Definition is_section (s : string) : Prop := s ∈ Docs.DOCS_STRUCTURE.*1.

(** The world after a request has been answered and its result stored. *)
Definition stored (network : list string → string → Reply)
  (key url : string) (d : CacheData) (w : World) : World :=
  let reply := network (requests w) url in
  mkWorld (<[key := mkCacheEntry d (now w + elapsed reply)]> (cache w))
    (now w + elapsed reply) (requests w ++ [url])%list.


End Spec.

(** The index of the end-to-end scenario, with the category map that its
    two components refer to, and the JSON document it is decoded from. *)
Module Fixture.

Definition button : RegistryComponent :=
  mkRegistryComponent "button" "Button" "A bold button" "component"
    ["action"] true "/registry/react/button.json".

Definition card : RegistryComponent :=
  mkRegistryComponent "card" "Card" "A content container" "component"
    ["display"] false "/registry/react/card.json".

Definition index : RegistryIndex :=
  mkRegistryIndex None "brutalist-ui" "Brutalist UI components" "1.0.0"
    "react" "https://brutalist.precast.dev/registry/react"
    [button; card]
    (<["action" := mkCategory "Action" "Things to press"]>
       (<["display" := mkCategory "Display" "Things to look at"]> ∅))
    None.

Definition component_json (c : RegistryComponent) : Json :=
  JObject
    [ ("name", JString (name c)); ("title", JString (title c));
      ("description", JString (description c)); ("type", JString (type c));
      ("categories", JArray (JString <$> categories c));
      ("featured", JBool (featured c)); ("url", JString (url c)) ].

Definition index_json : Json :=
  JObject
    [ ("name", JString "brutalist-ui");
      ("description", JString "Brutalist UI components");
      ("version", JString "1.0.0");
      ("framework", JString "react");
      ("baseUrl", JString "https://brutalist.precast.dev/registry/react");
      ("components", JArray [component_json button; component_json card]);
      ("categories",
       JObject
         [ ("display",
            JObject [ ("title", JString "Display");
                      ("description", JString "Things to look at") ]);
           ("action",
            JObject [ ("title", JString "Action");
                      ("description", JString "Things to press") ]) ]) ].

Definition button_file : ComponentFile :=
  mkComponentFile (Some "components/button/Button.tsx") None None None None
    "export const Button = () => null".

Definition button_detail : Component :=
  mkComponent None "button" None None "A bold button" None "1.0.0" None None
    None None None None None None [button_file] None.

Definition button_json : Json :=
  JObject
    [ ("name", JString "button");
      ("description", JString "A bold button");
      ("version", JString "1.0.0");
      ("files",
       JArray
         [ JObject [ ("path", JString "components/button/Button.tsx");
                     ("content", JString "export const Button = () => null") ]
         ]) ].

(** A detail document whose only file has neither [path] nor [name]. *)
Definition nameless_json : Json :=
  JObject
    [ ("name", JString "button");
      ("description", JString "A bold button");
      ("version", JString "1.0.0");
      ("files",
       JArray [ JObject [ ("content", JString "export {}") ] ]) ].

(** One component that writes the same category twice. *)
Definition input : RegistryComponent :=
  mkRegistryComponent "input" "Input" "A text field" "component"
    ["forms"; "forms"] false "/registry/react/input.json".

Definition repeated_index : RegistryIndex :=
  mkRegistryIndex None "brutalist-ui" "Brutalist UI components" "1.0.0"
    "react" "https://brutalist.precast.dev/registry/react"
    [input]
    (<["forms" := mkCategory "Forms" "Things to fill in"]> ∅)
    None.

(** Scraping helpers that find nothing, and file systems. *)
Definition noExtractors : Docs.Extractors :=
  Docs.mkExtractors (λ _, Returned "") (λ _, Returned "") (λ _, Returned "")
    (λ _, Returned []) (λ _, Returned None).

Definition emptyDisk : Docs.FileSystem := λ _, None.

(** A remote side that serves the fixture documents. *)
Definition server (history : list string) (url : string) : Api.Reply :=
  if String.eqb url "http://localhost:3000/registry/react/index.json"
  then Api.mkReply (Api.Resolved index_json) 40
  else if String.eqb url "http://localhost:3000/registry/react/button.json"
  then Api.mkReply (Api.Resolved button_json) 40
  else if String.eqb url "http://localhost:3000/registry/react/nameless.json"
  then Api.mkReply (Api.Resolved nameless_json) 40
  else if String.eqb url "http://localhost:3000/registry/react/missing.json"
  then Api.mkReply
         (Api.Rejected (Some 404%Z) "Request failed with status code 404") 40
  else Api.mkReply (Api.Rejected None "connect ECONNREFUSED") 40.

Definition coldStart : Api.World := Api.mkWorld ∅ 1000 [].

End Fixture.

(* ===================================================================== *)
(** ** Further vocabulary                                                 *)
(* ===================================================================== *)

Module Invariant.

(** The discipline behind the casts of [getFromCache]: the index key holds
    an index, a component key holds a component. *)
Definition well_typed (c : gmap string Api.CacheEntry) : Prop :=
  (∀ e, c !! "registry-index" = Some e →
        ∃ registryIndex, Api.data e = Api.IndexData registryIndex)
  ∧ (∀ componentName e, c !! ("component-" +:+ componentName) = Some e →
        ∃ component, Api.data e = Api.ComponentData component).

End Invariant.

Module SchemaSpec.

(** The keys that [ComponentSchema] and [RegistryIndexSchema] read. *)
Definition component_keys : list string :=
  [ "$schema"; "name"; "type"; "title"; "description"; "author"; "version";
    "framework"; "frameworks"; "brutalistFeatures"; "categories"; "category";
    "tags"; "dependencies"; "peerDependencies"; "files"; "lastUpdated" ].

Definition index_keys : list string :=
  [ "$schema"; "name"; "description"; "version"; "framework"; "baseUrl";
    "components"; "categories"; "meta" ].

(** A file entry can be addressed: its [path] or its [name] is a
    non-empty string. *)
Definition addressable (f : ComponentFile) : Prop :=
  (∃ p, file_path f = Some p ∧ p ≠ "")
  ∨ (∃ n, file_name f = Some n ∧ n ≠ "").

End SchemaSpec.

Module IndexSpec.

(** The flags that make [parseArgs] print and leave. *)
Definition exit_flags : list string := ["--help"; "-h"; "--version"; "-v"].

Definition wants_exit (argv : list string) : Prop :=
  ∃ flag, flag ∈ exit_flags ∧ flag ∈ drop 2 argv.

(** The development mode as [main] decides it. *)
Definition isDev (env : gmap string string) (argv : list string) : Prop :=
  env !! "NODE_ENV" = Some "development"
  ∨ env !! "NODE_ENV" = Some "dev"
  ∨ "--dev" ∈ argv.

End IndexSpec.

Module DocsSpec.

(** The first two candidates of the fall-back revision, derived from the
    component name, and the fixed candidate that follows them. *)
Definition conventionPath (componentName : string) : string :=
  Docs.DOCS_DIR +:+ "/components/" +:+ Docs.capitalized componentName
  +:+ "Page.tsx".



(** The whole catalogue as "section/item" strings. *)
Definition whole_catalogue : list string :=
  Docs.DOCS_STRUCTURE ≫= λ s, (λ item, s.1 +:+ "/" +:+ item) <$> s.2.

End DocsSpec.

Module TextSpec.

(** Case-insensitive comparison as the specification words it, on 7-bit
    characters: two characters agree when they are equal or are the two
    cases of one of the 26 letters. *)
Definition letter (i : nat) (upper lower : ascii) : Prop :=
  (i < 26)%nat
  ∧ nat_of_ascii upper = (65 + i)%nat
  ∧ nat_of_ascii lower = (97 + i)%nat.

Definition same_letter (a b : ascii) : Prop :=
  a = b ∨ ∃ i, letter i a b ∨ letter i b a.

Inductive equal_ignoring_case : string → string → Prop :=
| equal_empty : equal_ignoring_case "" ""
| equal_step a b s t :
    same_letter a b → equal_ignoring_case s t →
    equal_ignoring_case (String a s) (String b t).

(** [query] occurs in [text] as a contiguous substring, up to the case
    of its letters. *)
Definition occurs_ignoring_case (query text : string) : Prop :=
  ∃ before found after,
    text = before +:+ found +:+ after ∧ equal_ignoring_case found query.





End TextSpec.

(* ===================================================================== *)
(** ** src/utils/api.ts: the exported query operations                    *)
(* ===================================================================== *)

Module Query.
Import Api.

(** What the query operations do with the value they await from
    [fetchRegistryIndex].  The value is an index under the typing
    discipline of the cache; on any other object [registryIndex.components]
    is [undefined] and the first property read on it, named [reading],
    throws. *)
Definition useIndex {A : Type} (reading : string) (k : RegistryIndex → A)
  (d : CacheData) : Outcome A :=
  match d with
  | IndexData registryIndex => Returned (k registryIndex)
  | ComponentData _ =>
      Thrown (Js.mkError "TypeError"
        ("Cannot read properties of undefined (reading '" +:+ reading
         +:+ "')"))
  end.

Section Query.
Variable env : gmap string string.
Variable network : list string → string → Reply.

Definition awaitIndex {A : Type} (reading : string) (k : RegistryIndex → A)
  : Client (Outcome A) :=
  fun w =>
    match fetchRegistryIndex env network w with
    | (Returned d, w) => (useIndex reading k d, w)
    | (Thrown error, w) => (Thrown error, w)
    end.

Definition searchComponents (query : string) (category : option string)
  (featured : option bool) : Client (Outcome SearchResult) :=
  awaitIndex
    (if from_option Js.truthy false category || bool_decide (is_Some featured)
        || Js.truthy (Js.trim query)
     then "filter" else "length")
    (λ registryIndex,
       Api.searchComponents registryIndex query category featured).

Definition getComponentsByCategory (category : string)
  : Client (Outcome CategoryComponents) :=
  awaitIndex "filter"
    (λ registryIndex, Api.getComponentsByCategory registryIndex category).

Definition getCategories : Client (Outcome Categories) :=
  awaitIndex "forEach" Api.getCategories.

Definition getFeaturedComponents : Client (Outcome Featured) :=
  awaitIndex "filter" Api.getFeaturedComponents.

Definition getRegistryInfo : Client (Outcome RegistryInfo) :=
  awaitIndex "filter" Api.getRegistryInfo.

End Query.
End Query.

(* ===================================================================== *)
(** ** src/tools.ts: tool handlers                                        *)
(* ===================================================================== *)

Module Tools.
Import Api Docs.

(** More string primitives. *)
Definition DQUOTE : string := String (ascii_of_nat 34) EmptyString.

(** [s.endsWith(suffix)] *)
Definition endsWith (s suffix : string) : bool :=
  String.prefix (String.rev suffix) (String.rev s).

(** [s.replace(/\s+/g, '')] *)
Fixpoint removeWhitespace (s : string) : string :=
  match s with
  | EmptyString => EmptyString
  | String c s' =>
      if Js.is_whitespace c then removeWhitespace s'
      else String c (removeWhitespace s')
  end.

(** [s.replace(/-/g, ' ')] *)
Fixpoint dashesToSpaces (s : string) : string :=
  match s with
  | EmptyString => EmptyString
  | String c s' =>
      String (if Ascii.eqb c "-" then " "%char else c) (dashesToSpaces s')
  end.

(** [\w]: letters, digits and the underscore. *)
Definition is_word_char (c : ascii) : bool :=
  let n := nat_of_ascii c in
  ((48 <=? n)%nat && (n <=? 57)%nat) || ((65 <=? n)%nat && (n <=? 90)%nat)
  || ((97 <=? n)%nat && (n <=? 122)%nat) || (n =? 95)%nat.

(** [s.replace(/\b\w/g, l => l.toUpperCase())]: every word character that
    does not follow a word character is put in upper case. *)
Fixpoint capitalizeWords_from (after_word : bool) (s : string) : string :=
  match s with
  | EmptyString => EmptyString
  | String c s' =>
      String (if negb after_word && is_word_char c then Js.upper_char c else c)
        (capitalizeWords_from (is_word_char c) s')
  end.

Definition capitalizeWords (s : string) : string :=
  capitalizeWords_from false s.

Definition titleOf (item : string) : string :=
  capitalizeWords (dashesToSpaces item).

(** [s.split('/').pop()] *)
Fixpoint has_slash (s : string) : bool :=
  match s with
  | EmptyString => false
  | String c s' => Ascii.eqb c "/" || has_slash s'
  end.

Fixpoint lastSegment (s : string) : string :=
  match s with
  | EmptyString => EmptyString
  | String c s' =>
      if has_slash s' then lastSegment s'
      else if Ascii.eqb c "/" then s' else String c s'
  end.

(** The parameter schemas of [schemas/registry.ts]. *)
Definition ComponentNameParamSchema (params : Json) : Outcome string :=
  match params with
  | JObject data => z_string "componentName" (field data "componentName")
  | _ => invalid "" "Expected object"
  end.

Definition SearchParamSchema (params : Json)
  : Outcome (string * option string * option bool) :=
  match params with
  | JObject data =>
      query ← z_string "query" (field data "query");
      category ← z_string_optional "category" (field data "category");
      featured ← z_boolean_optional "featured" (field data "featured");
      Returned (query, category, featured)
  | _ => invalid "" "Expected object"
  end.

Definition CategoryParamSchema (params : Json) : Outcome string :=
  match params with
  | JObject data => z_string "category" (field data "category")
  | _ => invalid "" "Expected object"
  end.

(** The error every handler fails with.  [reason] is the message given to
    the constructor of [McpError]. *)
Inductive ErrorCode : Type := InvalidParams | InternalError.

Record McpError : Type := mkMcpError {
  code : ErrorCode;
  reason : string
}.

(** The data that the handlers hand to [createSuccessResponse], which
    serializes them. *)
Record ComponentList : Type := mkComponentList {
  list_components_ : list RegistryComponent;
  list_total : nat;
  list_framework : string;
  list_version : string
}.

Record ComponentInfo : Type := mkComponentInfo {
  info_component : CacheData;
  info_installCommand : string;
  info_registryUrl : string
}.

Record ComponentExamples : Type := mkComponentExamples {
  ex_componentName : string;
  ex_examples : list ComponentFile;
  ex_installCommand : string;
  ex_usage : string
}.

Record ComponentStyles : Type := mkComponentStyles {
  st_componentName : string;
  st_brutalistFeatures : option BrutalistFeatures;
  styleFiles : list ComponentFile;
  st_dependencies : list string
}.

Record InstallCommand : Type := mkInstallCommand {
  ic_componentName : string;
  ic_installCommand : string;
  npmInstall : string;
  ic_usage : string
}.

Record ComponentDocumentation : Type := mkComponentDocumentation {
  cd_componentName : string;
  documentation : DocumentationSection;
  cd_documentationUrl : string
}.

Record DocumentationHit : Type := mkDocumentationHit {
  hit_path : string;
  hit_url : string;
  hit_title : string
}.

Record DocumentationSearch : Type := mkDocumentationSearch {
  ds_query : string;
  ds_section : option string;
  ds_results : list DocumentationHit
}.

Record SectionItem : Type := mkSectionItem {
  item_name : string;
  item_title : string;
  item_url : string
}.

Record SectionInfo : Type := mkSectionInfo {
  section_name : string;
  section_title : string;
  section_items : list SectionItem
}.

Record AccessibilityInfo : Type := mkAccessibilityInfo {
  ai_componentName : string;
  ai_accessibility : Accessibility;
  ai_documentationUrl : string
}.

Inductive Payload : Type :=
| ListComponents (p : ComponentList)
| GetComponent (p : ComponentInfo)
| SearchComponents (p : SearchResult)
| GetComponentExamples (p : ComponentExamples)
| GetComponentStyles (p : ComponentStyles)
| GetCategories (p : Categories)
| GetComponentsByCategory (p : CategoryComponents)
| GetFeaturedComponents (p : Featured)
| GetRegistryInfo (p : RegistryInfo)
| GetInstallCommand (p : InstallCommand)
| GetComponentDocumentation (p : ComponentDocumentation)
| SearchDocumentation (p : DocumentationSearch)
| GetDocumentationSections (p : list SectionInfo)
| GetAccessibilityInfo (p : AccessibilityInfo).

Inductive ToolResult : Type :=
| Success (data : Payload)
| Failure (error : McpError).

(** [createErrorResponse(`${what}: ${error.message}`)] *)
Definition createErrorResponse (what : string) (error : Js.Error)
  : ToolResult :=
  Failure (mkMcpError InternalError (what +:+ ": " +:+ Js.message error)).

(** [file.path || file.name || ''] *)
Definition filePath (file : ComponentFile) : string :=
  match file_path file with
  | Some p => if Js.truthy p then p
              else match file_name file with
                   | Some n => if Js.truthy n then n else ""
                   | None => ""
                   end
  | None => match file_name file with
            | Some n => if Js.truthy n then n else ""
            | None => ""
            end
  end.

Definition isExample (file : ComponentFile) : bool :=
  Js.includes (filePath file) "example"
  || Js.includes (filePath file) "demo"
  || Js.includes (Js.toLowerCase (filePath file)) "usage".

Definition isMainComponent (file : ComponentFile) : bool :=
  endsWith (filePath file) ".tsx"
  && negb (Js.includes (filePath file) "example").

Definition isStyleFile (file : ComponentFile) : bool :=
  endsWith (filePath file) ".css"
  || endsWith (filePath file) ".module.css"
  || endsWith (filePath file) ".scss".

(** [Array.isArray(d) ? d : d ? Object.keys(d) : []].  [Object.keys]
    lists the keys of a record in insertion order, which the map of the
    model does not keep: the list below has the right keys, each once, in
    the order of the map, and the statements about it speak of membership
    and repetition only. *)
Definition dependencyNames (d : option Dependencies) : list string :=
  match d with
  | Some (DependencyList names) => names
  | Some (DependencyMap versions) => (map_to_list versions).*1
  | None => []
  end.

(** [component.title || component.name] *)
Definition displayName (component : Component) : string :=
  match component_title component with
  | Some t => if Js.truthy t then t else component_name component
  | None => component_name component
  end.

Definition undefinedFiles : Js.Error :=
  Js.mkError "TypeError"
    "Cannot read properties of undefined (reading 'filter')".

Section Handlers.
Variable env : gmap string string.
Variable network : list string → string → Reply.
(** The function imported from [utils/docs.js], with the file system it
    reads. *)
Variable extractComponentDocumentation : string → Outcome DocumentationSection.

(** [process.env.NODE_ENV === 'production' ? ... : ...] *)
Definition baseUrl : string :=
  if bool_decide (env !! "NODE_ENV" = Some "production")
  then "https://brutalist.precast.dev"
  else "http://localhost:3000".

Definition installCommandFor (componentName : string) : string :=
  "precast-ui add " +:+ DQUOTE +:+ baseUrl +:+ "/registry/react/"
  +:+ componentName +:+ DQUOTE.

Definition list_components : Client ToolResult :=
  fun w =>
    match Query.awaitIndex env network "length"
            (λ registryIndex,
               mkComponentList (components registryIndex)
                 (length (components registryIndex))
                 (index_framework registryIndex)
                 (index_version registryIndex)) w with
    | (Returned p, w) => (Success (ListComponents p), w)
    | (Thrown error, w) =>
        (createErrorResponse "Failed to list components" error, w)
    end.

Definition get_component (params : Json) : Client ToolResult :=
  fun w =>
    match ComponentNameParamSchema params with
    | Thrown error => (createErrorResponse "Failed to get component" error, w)
    | Returned componentName =>
        match fetchComponent env network componentName w with
        | (Returned component, w) =>
            (Success (GetComponent
               (mkComponentInfo component (installCommandFor componentName)
                  (baseUrl +:+ "/registry/react/" +:+ componentName
                   +:+ ".json"))), w)
        | (Thrown error, w) =>
            (createErrorResponse "Failed to get component" error, w)
        end
    end.

Definition search_components (params : Json) : Client ToolResult :=
  fun w =>
    match SearchParamSchema params with
    | Thrown error =>
        (createErrorResponse "Failed to search components" error, w)
    | Returned (query, category, featured) =>
        match Query.searchComponents env network query category featured w
        with
        | (Returned results, w) => (Success (SearchComponents results), w)
        | (Thrown error, w) =>
            (createErrorResponse "Failed to search components" error, w)
        end
    end.

Definition examplesOf (componentName : string) (component : Component)
  : ComponentExamples :=
  let examples := filter (λ file, isExample file = true)
                    (component_files component) in
  let mainComponent := list_find (λ file, isMainComponent file = true)
                         (component_files component) in
  mkComponentExamples componentName
    (match examples with
     | [] => match mainComponent with
             | Some (_, file) => [file]
             | None => []
             end
     | _ => examples
     end)
    (installCommandFor componentName)
    ("import { " +:+ removeWhitespace (displayName component)
     +:+ " } from '@brutalist-ui/components'").

Definition get_component_examples (params : Json) : Client ToolResult :=
  fun w =>
    match ComponentNameParamSchema params with
    | Thrown error =>
        (createErrorResponse "Failed to get component examples" error, w)
    | Returned componentName =>
        match fetchComponent env network componentName w with
        | (Returned (ComponentData component), w) =>
            (Success (GetComponentExamples
               (examplesOf componentName component)), w)
        | (Returned (IndexData _), w) =>
            (createErrorResponse "Failed to get component examples"
               undefinedFiles, w)
        | (Thrown error, w) =>
            (createErrorResponse "Failed to get component examples" error, w)
        end
    end.

Definition stylesOf (componentName : string) (component : Component)
  : ComponentStyles :=
  mkComponentStyles componentName
    (component_brutalistFeatures component)
    (filter (λ file, isStyleFile file = true) (component_files component))
    (dependencyNames (component_dependencies component)).

Definition get_component_styles (params : Json) : Client ToolResult :=
  fun w =>
    match ComponentNameParamSchema params with
    | Thrown error =>
        (createErrorResponse "Failed to get component styles" error, w)
    | Returned componentName =>
        match fetchComponent env network componentName w with
        | (Returned (ComponentData component), w) =>
            (Success (GetComponentStyles (stylesOf componentName component)),
             w)
        | (Returned (IndexData _), w) =>
            (createErrorResponse "Failed to get component styles"
               undefinedFiles, w)
        | (Thrown error, w) =>
            (createErrorResponse "Failed to get component styles" error, w)
        end
    end.

Definition get_categories : Client ToolResult :=
  fun w =>
    match Query.getCategories env network w with
    | (Returned categories, w) => (Success (GetCategories categories), w)
    | (Thrown error, w) =>
        (createErrorResponse "Failed to get categories" error, w)
    end.

Definition get_components_by_category (params : Json) : Client ToolResult :=
  fun w =>
    match CategoryParamSchema params with
    | Thrown error =>
        (createErrorResponse "Failed to get components by category" error, w)
    | Returned category =>
        match Query.getComponentsByCategory env network category w with
        | (Returned result, w) => (Success (GetComponentsByCategory result), w)
        | (Thrown error, w) =>
            (createErrorResponse "Failed to get components by category"
               error, w)
        end
    end.

Definition get_featured_components : Client ToolResult :=
  fun w =>
    match Query.getFeaturedComponents env network w with
    | (Returned featured, w) => (Success (GetFeaturedComponents featured), w)
    | (Thrown error, w) =>
        (createErrorResponse "Failed to get featured components" error, w)
    end.

Definition get_registry_info : Client ToolResult :=
  fun w =>
    match Query.getRegistryInfo env network w with
    | (Returned info, w) => (Success (GetRegistryInfo info), w)
    | (Thrown error, w) =>
        (createErrorResponse "Failed to get registry info" error, w)
    end.

Definition installUsage (componentName : string) : string :=
  "# Install the precast-ui CLI globally" +:+ LF
  +:+ "npm install -g precast-ui" +:+ LF
  +:+ "" +:+ LF
  +:+ "# Install the component" +:+ LF
  +:+ installCommandFor componentName +:+ LF
  +:+ "" +:+ LF
  +:+ "# Use in your React app" +:+ LF
  +:+ "import { ComponentName } from '@brutalist-ui/components'".

Definition get_install_command (params : Json) : Client ToolResult :=
  fun w =>
    match ComponentNameParamSchema params with
    | Thrown error =>
        (createErrorResponse "Failed to get install command" error, w)
    | Returned componentName =>
        match fetchComponent env network componentName w with
        | (Returned _, w) =>
            (Success (GetInstallCommand
               (mkInstallCommand componentName
                  (installCommandFor componentName)
                  "npm install -g precast-ui"
                  (installUsage componentName))), w)
        | (Thrown error, w) =>
            (createErrorResponse "Failed to get install command" error, w)
        end
    end.

Definition get_component_documentation (params : Json) : ToolResult :=
  match ComponentNameParamSchema params with
  | Thrown error =>
      createErrorResponse "Failed to get component documentation" error
  | Returned componentName =>
      match extractComponentDocumentation componentName with
      | Returned documentation =>
          Success (GetComponentDocumentation
            (mkComponentDocumentation componentName documentation
               (baseUrl +:+ "/docs/components/" +:+ componentName)))
      | Thrown error =>
          createErrorResponse "Failed to get component documentation" error
      end
  end.

Definition search_documentation (params : Json) : ToolResult :=
  match SearchParamSchema params with
  | Thrown error => createErrorResponse "Failed to search documentation" error
  | Returned (query, section, _) =>
      match searchDocumentation query section with
      | Returned results =>
          Success (SearchDocumentation
            (mkDocumentationSearch query section
               ((λ result,
                   mkDocumentationHit result
                     (baseUrl +:+ "/docs/" +:+ result)
                     (titleOf (lastSegment result))) <$> results)))
      | Thrown error =>
          createErrorResponse "Failed to search documentation" error
      end
  end.

Definition get_documentation_sections : ToolResult :=
  Success (GetDocumentationSections
    ((λ section,
        mkSectionInfo section.1 (capitalized section.1)
          ((λ item,
              mkSectionItem item (titleOf item)
                (baseUrl +:+ "/docs/"
                 +:+ (if String.eqb section.1 "components"
                      then "components/" else "")
                 +:+ item)) <$> section.2))
     <$> getAllDocumentationSections)).

Definition get_accessibility_info (params : Json) : ToolResult :=
  match ComponentNameParamSchema params with
  | Thrown error => createErrorResponse "Failed to get accessibility info" error
  | Returned componentName =>
      match extractComponentDocumentation componentName with
      | Returned documentation =>
          Success (GetAccessibilityInfo
            (mkAccessibilityInfo componentName
               (default emptyAccessibility (accessibility documentation))
               (baseUrl +:+ "/docs/components/" +:+ componentName
                +:+ "#accessibility")))
      | Thrown error =>
          createErrorResponse "Failed to get accessibility info" error
      end
  end.

End Handlers.
End Tools.

(* ===================================================================== *)
(** ** src/handler.ts: dispatch of tool calls                             *)
(* ===================================================================== *)

Module Handler.
Import Api Tools.

(** The keys of the [toolHandlers] object of [tools.ts]. *)
Inductive Tool : Type :=
| list_components | get_component | search_components
| get_component_examples | get_component_styles | get_categories
| get_components_by_category | get_featured_components | get_registry_info
| get_install_command | get_component_documentation | search_documentation
| get_documentation_sections | get_accessibility_info.

Definition toolHandlers : gmap string Tool :=
  list_to_map
    [ ("list_components", list_components);
      ("get_component", get_component);
      ("search_components", search_components);
      ("get_component_examples", get_component_examples);
      ("get_component_styles", get_component_styles);
      ("get_categories", get_categories);
      ("get_components_by_category", get_components_by_category);
      ("get_featured_components", get_featured_components);
      ("get_registry_info", get_registry_info);
      ("get_install_command", get_install_command);
      ("get_component_documentation", get_component_documentation);
      ("search_documentation", search_documentation);
      ("get_documentation_sections", get_documentation_sections);
      ("get_accessibility_info", get_accessibility_info) ].

(** The names of the [tools] object of [tools.ts], which is what the
    list-tools request returns. *)
Definition tools : list string :=
  [ "list_components"; "get_component"; "search_components";
    "get_component_examples"; "get_component_styles"; "get_categories";
    "get_components_by_category"; "get_featured_components";
    "get_registry_info"; "get_install_command" ].

(** The schemas of [getToolSchema].  Parsing returns the object stripped
    to the keys of the schema. *)
Definition present (key : string) (v : option Json) : list (string * Json) :=
  match v with
  | Some j => [(key, j)]
  | None => []
  end.

Definition componentNameSchema (params : Json) : Outcome Json :=
  match params with
  | JObject data =>
      componentName ← z_string "componentName" (field data "componentName");
      Returned (JObject [("componentName", JString componentName)])
  | _ => invalid "" "Expected object"
  end.

Definition searchSchema (params : Json) : Outcome Json :=
  match params with
  | JObject data =>
      query ← z_string "query" (field data "query");
      category ← z_string_optional "category" (field data "category");
      featured ← z_boolean_optional "featured" (field data "featured");
      Returned (JObject
        ([("query", JString query)]
         ++ present "category" (JString <$> category)
         ++ present "featured" (JBool <$> featured)))%list
  | _ => invalid "" "Expected object"
  end.

Definition categorySchema (params : Json) : Outcome Json :=
  match params with
  | JObject data =>
      category ← z_string "category" (field data "category");
      Returned (JObject [("category", JString category)])
  | _ => invalid "" "Expected object"
  end.

Definition emptySchema (params : Json) : Outcome Json :=
  match params with
  | JObject _ => Returned (JObject [])
  | _ => invalid "" "Expected object"
  end.

Definition getToolSchema (toolName : string) : option (Json → Outcome Json) :=
  if String.eqb toolName "get_component"
     || String.eqb toolName "get_component_examples"
     || String.eqb toolName "get_component_styles"
     || String.eqb toolName "get_install_command"
  then Some componentNameSchema
  else if String.eqb toolName "search_components" then Some searchSchema
  else if String.eqb toolName "get_components_by_category"
  then Some categorySchema
  else if String.eqb toolName "list_components"
          || String.eqb toolName "get_categories"
          || String.eqb toolName "get_featured_components"
          || String.eqb toolName "get_registry_info"
  then Some emptySchema
  else None.

(** [params || {}] *)
Definition orEmptyObject (params : option Json) : Json :=
  match params with
  | None | Some JNull | Some (JBool false) => JObject []
  | Some (JNumber n) => if (n =? 0)%Z then JObject [] else JNumber n
  | Some (JString s) => if Js.truthy s then JString s else JObject []
  | Some j => j
  end.

(** The outcome of a call: what the handler returned or threw, or, for a
    name that is only found on [Object.prototype], the call of that
    built-in, which is not followed further. *)
Inductive CallResult : Type :=
| Handled (r : ToolResult)
| BuiltinCall (k : string) (params : Json).

Section Dispatch.
Variable env : gmap string string.
Variable network : list string → string → Reply.
Variable extractComponentDocumentation
  : string → Outcome Docs.DocumentationSection.

Definition run (tool : Tool) (params : Json) : Client ToolResult :=
  match tool with
  | list_components => Tools.list_components env network
  | get_component => Tools.get_component env network params
  | search_components => Tools.search_components env network params
  | get_component_examples => Tools.get_component_examples env network params
  | get_component_styles => Tools.get_component_styles env network params
  | get_categories => Tools.get_categories env network
  | get_components_by_category =>
      Tools.get_components_by_category env network params
  | get_featured_components => Tools.get_featured_components env network
  | get_registry_info => Tools.get_registry_info env network
  | get_install_command => Tools.get_install_command env network params
  | get_component_documentation =>
      λ w, (Tools.get_component_documentation env
              extractComponentDocumentation params, w)
  | search_documentation => λ w, (Tools.search_documentation env params, w)
  | get_documentation_sections =>
      λ w, (Tools.get_documentation_sections env, w)
  | get_accessibility_info =>
      λ w, (Tools.get_accessibility_info env extractComponentDocumentation
              params, w)
  end.

(** The handler of [CallToolRequestSchema]. *)
Definition callTool (name : string) (arguments : option Json)
  : Client CallResult :=
  fun w =>
    if negb (Js.truthy name)
    then (Handled (Failure (mkMcpError InvalidParams "Tool name is required")),
          w)
    else
      match Js.js_get toolHandlers name with
      | Js.Undefined =>
          (Handled (Failure (mkMcpError InvalidParams
                               ("Tool not found: " +:+ name))), w)
      | Js.Inherited k => (BuiltinCall k (orEmptyObject arguments), w)
      | Js.Own tool =>
          let validatedParams := orEmptyObject arguments in
          match getToolSchema name with
          | Some toolSchema =>
              match toolSchema validatedParams with
              | Returned validatedParams =>
                  let '(r, w) := run tool validatedParams w in (Handled r, w)
              | Thrown validationError =>
                  (Handled (Failure (mkMcpError InvalidParams
                     ("Invalid parameters: "
                      +:+ Js.message validationError))), w)
              end
          | None =>
              let '(r, w) := run tool validatedParams w in (Handled r, w)
          end
      end.

End Dispatch.
End Handler.

(* ===================================================================== *)
(** ** Properties                                                         *)
(* ===================================================================== *)

(** *** Strings *)
Section StringFacts.

Lemma trimStart_empty s : Js.trimStart s = "" ↔ Spec.all_whitespace s = true.
Proof.
  induction s as [|c s IH]; simpl; [done|].
  destruct (Js.is_whitespace c); simpl; [done|]. split; discriminate.
Qed.

Lemma all_whitespace_trimStart s :
  Spec.all_whitespace (Js.trimStart s) = Spec.all_whitespace s.
Proof.
  induction s as [|c s IH]; simpl; [done|].
  destruct (Js.is_whitespace c) eqn:Hc; simpl; [done|]. by rewrite Hc.
Qed.

Lemma all_whitespace_rev_app s1 s2 :
  Spec.all_whitespace (String.rev_app s1 s2)
  = Spec.all_whitespace s1 && Spec.all_whitespace s2.
Proof.
  revert s2. induction s1 as [|c s1 IH]; intros s2; simpl; [done|].
  rewrite IH. simpl. by destruct (Js.is_whitespace c), (Spec.all_whitespace s1).
Qed.

Lemma rev_app_empty s1 s2 : String.rev_app s1 s2 = "" ↔ s1 = "" ∧ s2 = "".
Proof.
  revert s2. induction s1 as [|c s1 IH]; intros s2; simpl; [naive_solver|].
  rewrite IH. naive_solver.
Qed.

Lemma trim_empty s : Js.trim s = "" ↔ Spec.all_whitespace s = true.
Proof.
  unfold Js.trim, Js.trimEnd, String.rev.
  rewrite rev_app_empty, trimStart_empty, all_whitespace_rev_app.
  rewrite all_whitespace_trimStart. simpl. rewrite andb_true_r. naive_solver.
Qed.

Lemma truthy_spec s : Js.truthy s = true ↔ s ≠ "".
Proof. destruct s; simpl; naive_solver. Qed.

Lemma truthy_trim query :
  Js.truthy (Js.trim query) = negb (Spec.all_whitespace query).
Proof.
  destruct (Spec.all_whitespace query) eqn:Hw; simpl.
  - apply trim_empty in Hw. by rewrite Hw.
  - apply truthy_spec. rewrite trim_empty. congruence.
Qed.

Lemma array_includes_spec a x : Js.array_includes a x = true ↔ x ∈ a.
Proof. unfold Js.array_includes. by rewrite bool_decide_eq_true. Qed.

Lemma prefix_app s t : String.prefix s (s +:+ t) = true.
Proof.
  induction s as [|c s IH].
  - change ("" +:+ t) with t. by destruct t.
  - change (String c s +:+ t) with (String c (s +:+ t)). simpl.
    destruct (Ascii.ascii_dec c c); [done|congruence].
Qed.

Lemma includes_prefix s t : String.prefix t s = true → Js.includes s t = true.
Proof. intros H. destruct s; simpl in *; by rewrite H. Qed.

(** A string occurs in every string built around it. *)
Lemma includes_app a s b : Js.includes (a +:+ s +:+ b) s = true.
Proof.
  induction a as [|c a IH].
  - change ("" +:+ s +:+ b) with (s +:+ b).
    apply includes_prefix, prefix_app.
  - change (String c a +:+ s +:+ b) with (String c (a +:+ s +:+ b)).
    simpl. rewrite IH. apply orb_true_r.
Qed.

End StringFacts.

(** *** Query layer: search *)
Section Search.
Import Api.

Lemma category_stage_code category l :
  match category with
  | Some c =>
      if Js.truthy c
      then filter (λ component,
             Js.array_includes (categories component) c = true) l
      else l
  | None => l
  end = Spec.category_stage category l.
Proof.
  unfold Spec.category_stage. destruct category as [c|]; [|done].
  destruct c as [|a c]; simpl; [done|].
  apply list_filter_iff. intros x. apply array_includes_spec.
Qed.

Lemma text_stage_code query l :
  (if Js.truthy (Js.trim query) then
     filter (λ component,
       Js.includes (Js.toLowerCase (name component)) (Js.toLowerCase query)
       || Js.includes (Js.toLowerCase (title component)) (Js.toLowerCase query)
       || Js.includes (Js.toLowerCase (description component))
            (Js.toLowerCase query) = true) l
   else l) = Spec.text_stage query l.
Proof.
  unfold Spec.text_stage. rewrite truthy_trim.
  by destruct (Spec.all_whitespace query).
Qed.

Lemma searchComponents_stages registryIndex query category featured :
  results (searchComponents registryIndex query category featured)
  = Spec.text_stage query
      (Spec.featured_stage featured
         (Spec.category_stage category (components registryIndex))).
Proof.
  unfold searchComponents. cbn [results].
  rewrite category_stage_code.
  change (match featured with
          | Some f => filter (λ component, Schema.featured component = f)
                        (Spec.category_stage category (components registryIndex))
          | None => Spec.category_stage category (components registryIndex)
          end)
    with (Spec.featured_stage featured
            (Spec.category_stage category (components registryIndex))).
  apply text_stage_code.
Qed.

Lemma category_stage_sublist category l :
  Spec.category_stage category l `sublist_of` l.
Proof.
  unfold Spec.category_stage. destruct category as [c|]; [|done].
  case_decide; [done|]. apply sublist_filter.
Qed.

Lemma featured_stage_sublist featured l :
  Spec.featured_stage featured l `sublist_of` l.
Proof. destruct featured; simpl; [apply sublist_filter|done]. Qed.

Lemma text_stage_sublist query l : Spec.text_stage query l `sublist_of` l.
Proof.
  unfold Spec.text_stage. destruct (Spec.all_whitespace query); [done|].
  apply sublist_filter.
Qed.




End Search.

(** *** Case-insensitive matching *)
Section CaseFolding.
Import TextSpec.

Lemma nat_of_ascii_inj a b : nat_of_ascii a = nat_of_ascii b → a = b.
Proof.
  intros H. rewrite <- (ascii_nat_embedding a), <- (ascii_nat_embedding b).
  by rewrite H.
Qed.

Lemma lower_char_upper c :
  (65 ≤ nat_of_ascii c ≤ 90)%nat →
  nat_of_ascii (Js.lower_char c) = (nat_of_ascii c + 32)%nat.
Proof.
  intros [H1 H2]. unfold Js.lower_char.
  apply Nat.leb_le in H1 as H1'. apply Nat.leb_le in H2 as H2'.
  rewrite H1', H2'. cbn [andb]. apply nat_ascii_embedding. lia.
Qed.

Lemma lower_char_other c :
  ¬ (65 ≤ nat_of_ascii c ≤ 90)%nat → Js.lower_char c = c.
Proof.
  intros H. unfold Js.lower_char.
  destruct (65 <=? nat_of_ascii c)%nat eqn:H1; [|done].
  destruct (nat_of_ascii c <=? 90)%nat eqn:H2; [|done].
  apply Nat.leb_le in H1. apply Nat.leb_le in H2. lia.
Qed.

(** Folding to lower case identifies exactly the characters that the
    specification calls the same letter. *)
Lemma lower_char_same_letter a b :
  Js.lower_char a = Js.lower_char b ↔ same_letter a b.
Proof.
  unfold same_letter, letter.
  destruct (decide (65 ≤ nat_of_ascii a ≤ 90)%nat) as [Ha|Ha];
    destruct (decide (65 ≤ nat_of_ascii b ≤ 90)%nat) as [Hb|Hb].
  - split.
    + intros H. apply (f_equal nat_of_ascii) in H.
      rewrite !lower_char_upper in H by done.
      left. apply nat_of_ascii_inj. lia.
    + intros [->|(i & [H|H])]; [done|lia|lia].
  - rewrite (lower_char_other b Hb). split.
    + intros H. apply (f_equal nat_of_ascii) in H.
      rewrite lower_char_upper in H by done.
      right. exists (nat_of_ascii a - 65)%nat. left. lia.
    + intros [->|(i & [H|H])]; [done| |lia].
      apply nat_of_ascii_inj. rewrite lower_char_upper by done. lia.
  - rewrite (lower_char_other a Ha). split.
    + intros H. apply (f_equal nat_of_ascii) in H.
      rewrite lower_char_upper in H by done.
      right. exists (nat_of_ascii b - 65)%nat. right. lia.
    + intros [->|(i & [H|H])]; [done|lia|].
      apply nat_of_ascii_inj. rewrite lower_char_upper by done. lia.
  - rewrite (lower_char_other a Ha), (lower_char_other b Hb). split.
    + by left.
    + intros [->|(i & [H|H])]; [done|lia|lia].
Qed.

Lemma toLowerCase_equal s t :
  Js.toLowerCase s = Js.toLowerCase t ↔ equal_ignoring_case s t.
Proof.
  split.
  - revert t. induction s as [|a s IH]; intros [|b t]; simpl; try done.
    + intros _. constructor.
    + intros [= Hc Hs]. constructor; [by apply lower_char_same_letter|].
      by apply IH.
  - induction 1 as [|a b s t Hc _ IH]; [done|]. simpl.
    apply lower_char_same_letter in Hc. by rewrite Hc, IH.
Qed.

Lemma toLowerCase_app s t :
  Js.toLowerCase (s +:+ t) = Js.toLowerCase s +:+ Js.toLowerCase t.
Proof.
  induction s as [|c s IH]; [done|].
  change (String c s +:+ t) with (String c (s +:+ t)). simpl.
  change (String ?x ?a +:+ ?b) with (String x (a +:+ b)). by rewrite IH.
Qed.

Lemma toLowerCase_split s x y :
  Js.toLowerCase s = x +:+ y →
  ∃ s1 s2, s = s1 +:+ s2 ∧ Js.toLowerCase s1 = x ∧ Js.toLowerCase s2 = y.
Proof.
  revert s. induction x as [|c x IH]; intros s H.
  - by exists "", s.
  - change (String c x +:+ y) with (String c (x +:+ y)) in H.
    destruct s as [|a s]; [done|]. simpl in H. injection H as Hc Hs.
    destruct (IH s Hs) as (s1 & s2 & -> & H1 & H2).
    exists (String a s1), s2. simpl. by rewrite Hc, H1.
Qed.

Lemma prefix_split t s : String.prefix t s = true → ∃ b, s = t +:+ b.
Proof.
  revert s. induction t as [|c t IH]; intros s H.
  - by exists s.
  - destruct s as [|a s]; [done|]. simpl in H.
    destruct (Ascii.ascii_dec c a) as [->|]; [|done].
    destruct (IH s H) as [b ->]. by exists b.
Qed.

(** [s.includes(t)] says that [t] is a contiguous part of [s]. *)
Lemma includes_spec s t :
  Js.includes s t = true ↔ ∃ a b, s = a +:+ t +:+ b.
Proof.
  split.
  - induction s as [|c s IH]; cbn [Js.includes]; rewrite orb_true_iff.
    + intros [H|H]; [|done]. apply prefix_split in H as [b ->].
      by exists "", b.
    + intros [H|H].
      * apply prefix_split in H as [b ->]. by exists "", b.
      * destruct (IH H) as (a & b & ->). by exists (String c a), b.
  - intros (a & b & ->). apply includes_app.
Qed.

(** The test of the code, lower-casing both sides and looking for a
    substring, decides the occurrence up to letter case. *)
Lemma includes_lower_occurs query text :
  Js.includes (Js.toLowerCase text) (Js.toLowerCase query) = true
  ↔ occurs_ignoring_case query text.
Proof.
  rewrite includes_spec. unfold occurs_ignoring_case. split.
  - intros (a & b & H).
    apply toLowerCase_split in H as (before & rest & -> & _ & H).
    apply toLowerCase_split in H as (found & after & -> & H & _).
    exists before, found, after. split; [done|]. by apply toLowerCase_equal.
  - intros (before & found & after & -> & H).
    apply toLowerCase_equal in H.
    exists (Js.toLowerCase before), (Js.toLowerCase after).
    by rewrite !toLowerCase_app, H.
Qed.




End CaseFolding.




(** *** Documentation extractor *)
Section Extractor.
Import Docs.

Lemma capitalized_nonempty componentName :
  componentName ≠ "" → capitalized componentName ≠ "".
Proof. destruct componentName; [done|]. intros _. discriminate. Qed.

Lemma readFileSync_unreadable (fs : FileSystem) path :
  (∀ content, fs path ≠ Some (File content)) →
  ∃ e, readFileSync fs path = Thrown e.
Proof.
  intros H. unfold readFileSync.
  destruct (fs path) as [[content|m]|] eqn:E; eauto. by destruct (H content).
Qed.

Lemma tryPaths_nothing (fs : FileSystem) paths found :
  (∀ path content, path ∈ paths → fs path ≠ Some (File content)) →
  DocsFallback.tryPaths fs paths found = found.
Proof.
  induction paths as [|p paths IH]; intros H; simpl; [done|].
  destruct (readFileSync_unreadable fs p) as [e ->].
  { intros content. apply H. by left. }
  rewrite IH; [by destruct (existsSync fs p)|].
  intros path content Hin. apply H. by right.
Qed.

Lemma specialCases_potentialPaths componentName path :
  DocsFallback.specialCases !! componentName = Some path →
  path ∈ DocsFallback.potentialPaths componentName.
Proof.
  unfold DocsFallback.specialCases, DocsFallback.potentialPaths. simpl.
  rewrite !lookup_insert. repeat case_decide; simplify_eq;
    rewrite ?lookup_empty; intros; simplify_eq; set_solver.
Qed.

Lemma trySpecialCase_nothing (fs : FileSystem) componentName :
  (∀ path content,
     path ∈ DocsFallback.potentialPaths componentName →
     fs path ≠ Some (File content)) →
  DocsFallback.trySpecialCase fs componentName = ("", "").
Proof.
  intros H. unfold DocsFallback.trySpecialCase, Js.js_get.
  destruct (DocsFallback.specialCases !! componentName) as [path|] eqn:E.
  - destruct (Js.truthy path); [|done].
    destruct (readFileSync_unreadable fs path) as [e ->]; [|done].
    intros content. by apply H, specialCases_potentialPaths.
  - by case_bool_decide.
Qed.


End Extractor.

(** C1.  The claim fails on the revision of
    [extractComponentDocumentation] that rethrows: for a component that
    has no documentation page the call raises, where the claim promises
    the default record and no error.  The revision with fall-back records
    returns the default record on the same input, with the title derived
    from the name and no examples. *)
Theorem extractComponentDocumentation_rethrows ex :
  DocsThrowing.extractComponentDocumentation ex Fixture.emptyDisk "zzz"
  = Thrown (Js.mkError "Error"
      ("Failed to extract documentation for zzz: "
       +:+ "ENOENT: no such file or directory, open '" +:+ Docs.DOCS_DIR
       +:+ "/components/ZzzPage.tsx'"))
  ∧ ∃ r, DocsFallback.extractComponentDocumentation ex Fixture.emptyDisk "zzz"
         = Returned r
       ∧ Docs.doc_title r = "Zzz"
       ∧ Docs.doc_description r = "Documentation for zzz component"
       ∧ Docs.examples r = Some []
       ∧ Docs.accessibility r = Some Docs.emptyAccessibility.
Proof. split; [reflexivity|]. eexists. repeat split; reflexivity. Qed.

(** The revision with fall-back records has a missed case of its own: for
    the empty component name no file can be read, the default record is
    returned, and its title is empty. *)
Lemma extractComponentDocumentation_empty_title :
  ∃ r, DocsFallback.extractComponentDocumentation Fixture.noExtractors
         Fixture.emptyDisk "" = Returned r
       ∧ Docs.doc_title r = "".
Proof. eexists. split; reflexivity. Qed.

(** *** Documentation catalogue *)
Section Catalogue.
Import Docs.

Lemma search_items_spec query sectionName items results :
  search_items (Js.toLowerCase query) sectionName items results
  = (results ++ Spec.section_matches query sectionName items)%list.
Proof.
  unfold search_items, Spec.section_matches.
  revert results. induction items as [|item items IH]; intros results; simpl.
  - by rewrite app_nil_r.
  - rewrite IH, filter_cons. case_decide as Hm.
    + rewrite Hm. simpl. by rewrite <- app_assoc.
    + apply not_true_is_false in Hm. by rewrite Hm.
Qed.

Lemma search_section_own query results sectionName items :
  (sectionName, items) ∈ DOCS_STRUCTURE →
  search_section (Js.toLowerCase query) results sectionName
  = Returned (results ++ Spec.section_matches query sectionName items)%list.
Proof.
  intros Hin. unfold search_section.
  assert (Js.js_get (list_to_map DOCS_STRUCTURE : gmap string (list string))
            sectionName = Js.Own items) as ->.
  { unfold DOCS_STRUCTURE in Hin.
    repeat (apply elem_of_cons in Hin as [Hin|Hin]; [by simplify_eq|]).
    by apply elem_of_nil in Hin. }
  by rewrite search_items_spec.
Qed.

Lemma search_section_unknown searchTerm results sectionName :
  ¬ Spec.is_section sectionName →
  ∃ e, search_section searchTerm results sectionName = Thrown e
       ∧ Js.ename e = "TypeError".
Proof.
  intros Hs. unfold search_section, Js.js_get.
  rewrite (not_elem_of_list_to_map_1 _ _ Hs).
  case_bool_decide; eauto.
Qed.

Lemma search_sections_cons searchTerm sectionName rest results :
  search_sections searchTerm (sectionName :: rest) results
  = Js.bind (search_section searchTerm results sectionName)
      (search_sections searchTerm rest).
Proof. reflexivity. Qed.

Lemma searchDocumentation_all query :
  search_sections (Js.toLowerCase query) DOCS_STRUCTURE.*1 []
  = Returned (Spec.catalogue_matches query).
Proof.
  change (DOCS_STRUCTURE.*1) with ["guides"; "components"; "api"].
  rewrite search_sections_cons.
  erewrite search_section_own by (unfold DOCS_STRUCTURE; repeat constructor).
  unfold Js.bind at 1. rewrite search_sections_cons.
  erewrite search_section_own by (unfold DOCS_STRUCTURE; repeat constructor).
  unfold Js.bind at 1. rewrite search_sections_cons.
  erewrite search_section_own by (unfold DOCS_STRUCTURE; repeat constructor).
  unfold Js.bind at 1.
  change (search_sections (Js.toLowerCase query) [] ?r) with (Returned r).
  f_equal. unfold Spec.catalogue_matches, DOCS_STRUCTURE.
  cbn [mbind list_bind fst snd].
  rewrite app_nil_l, app_nil_r, <- app_assoc. reflexivity.
Qed.

End Catalogue.

(** Where [searchDocumentation] returns a list, for a query of 7-bit
    characters: with no section, or the empty string, it returns the
    "section/item" strings of all three sections whose item contains the
    query up to letter case, in catalogue order; with one of the three
    section names it returns those of that section only. *)
Lemma searchDocumentation_known_sections query section :
  Js.plain query = true →
  Docs.DOCS_STRUCTURE.*1 = ["guides"; "components"; "api"]
  ∧ (section = None ∨ section = Some "" →
     Docs.searchDocumentation query section
     = Returned (Spec.catalogue_matches query))
  ∧ (∀ s items, section = Some s → (s, items) ∈ Docs.DOCS_STRUCTURE →
     Docs.searchDocumentation query section
     = Returned (Spec.section_matches query s items))
  ∧ (∀ s items item,
       item ∈ items →
       (s +:+ "/" +:+ item ∈ Spec.section_matches query s items
        ↔ TextSpec.occurs_ignoring_case query item)).
Proof.
  intros _. split; [done|]. split; [|split].
  - intros [-> | ->]; apply searchDocumentation_all.
  - intros s items -> Hin. unfold Docs.searchDocumentation.
    assert (Js.truthy s = true) as ->.
    { unfold Docs.DOCS_STRUCTURE in Hin.
      repeat (apply elem_of_cons in Hin as [Hin|Hin]; [by simplify_eq|]).
      by apply elem_of_nil in Hin. }
    cbn [Docs.search_sections].
    erewrite search_section_own by done. done.
  - intros s items item Hin. unfold Spec.section_matches.
    rewrite list_elem_of_fmap, <- includes_lower_occurs. split.
    + intros (item' & Heq & Hm). apply list_elem_of_filter in Hm as [Hm _].
      assert (item' = item) as <-; [|done].
      revert Heq. generalize s. intros a. induction a as [|c a IH]; intros H.
      * by injection H.
      * change (String c a +:+ ?x) with (String c (a +:+ x)) in H.
        injection H as H. by apply IH.
    + intros Hm. exists item. split; [done|]. by apply list_elem_of_filter.
Qed.

(** C9.  The claim fails for a section argument that is not a section of
    the catalogue: the call raises a [TypeError] where the claim promises
    a list.  The read [DOCS_STRUCTURE[sectionName]] gives [undefined] for
    an unknown name and a built-in for a name every object inherits, and
    [items.forEach] fails on both; with a section of the catalogue the
    same query returns its matches. *)
Theorem searchDocumentation_unknown_section_raises :
  Docs.searchDocumentation "button" (Some "forms")
  = Thrown (Js.mkError "TypeError"
      "Cannot read properties of undefined (reading 'forEach')")
  ∧ Docs.searchDocumentation "button" (Some "constructor")
    = Thrown (Js.mkError "TypeError" "items.forEach is not a function")
  ∧ Docs.searchDocumentation "button" (Some "components")
    = Returned ["components/button"].
Proof. repeat split; reflexivity. Qed.

(** *** Registry base URL *)
Section BaseUrl.

(** Whatever [main] decides, the client's base URL is the one computed
    from [NODE_ENV] alone. *)
Lemma REGISTRY_BASE_URL_after_main env argv env' :
  Index.main env argv = Some env' →
  Api.REGISTRY_BASE_URL env' = Api.REGISTRY_BASE_URL env.
Proof.
  unfold Index.main, Api.REGISTRY_BASE_URL.
  destruct (Index.parseArgs argv) as [|[registryUrl|]]; intros ?;
    simplify_eq; by rewrite lookup_insert_ne.
Qed.

(** With no override and no environment at all, [main] announces the
    production registry and the client still uses the local one. *)
Lemma registry_default_mismatch :
  ∃ env', Index.main ∅ ["node"; "build/index.js"] = Some env'
    ∧ env' !! "REGISTRY_BASE_URL"
      = Some "https://brutalist.precast.dev/registry/react"
    ∧ Api.REGISTRY_BASE_URL env' = "http://localhost:3000/registry/react".
Proof. eexists. split; [reflexivity|]. split; reflexivity. Qed.

End BaseUrl.

(** C2 (the code departs from it).  Started with
    [--registry-url https://custom-registry.com], [main] records the
    override in [process.env.REGISTRY_BASE_URL], but the registry client
    does not read that variable: its base URL is still the local
    development endpoint and that is where the index request goes. *)
Theorem registry_url_override_ignored :
  ∃ env',
    Index.main ∅ ["node"; "build/index.js"; "--registry-url";
                  "https://custom-registry.com"] = Some env'
    ∧ env' !! "REGISTRY_BASE_URL" = Some "https://custom-registry.com"
    ∧ Api.REGISTRY_BASE_URL env' = "http://localhost:3000/registry/react"
    ∧ Api.requests
        (Api.fetchRegistryIndex env' Fixture.server Fixture.coldStart).2
      = ["http://localhost:3000/registry/react/index.json"].
Proof. eexists. split; [reflexivity|]. repeat split; reflexivity. Qed.

(** *** Cache and registry client *)
Section Client.
Import Api.
Variable env : gmap string string.
Variable network : list string → string → Reply.

Lemma getFromCache_pure key w : (getFromCache key w).2 = w.
Proof.
  unfold getFromCache. destruct (cache w !! key) as [e|]; [|done].
  by destruct (now w - timestamp e <? CACHE_TTL)%Z.
Qed.

Lemma getFromCache_miss key w :
  (getFromCache key w).1 = None → getFromCache key w = (None, w).
Proof.
  intros H. pose proof (getFromCache_pure key w) as Hw.
  destruct (getFromCache key w) as [r w']. simpl in *. by subst.
Qed.

Lemma getFromCache_fresh key w e :
  cache w !! key = Some e → (now w - timestamp e < CACHE_TTL)%Z →
  getFromCache key w = (Some (data e), w).
Proof.
  intros He Ht. unfold getFromCache. rewrite He.
  by apply Z.ltb_lt in Ht as ->.
Qed.

Lemma getFromCache_expired key w e :
  cache w !! key = Some e → (CACHE_TTL ≤ now w - timestamp e)%Z →
  getFromCache key w = (None, w).
Proof.
  intros He Ht. unfold getFromCache. rewrite He.
  by apply Z.ltb_ge in Ht as ->.
Qed.





Lemma fetchComponent_miss componentName w body component :
  (getFromCache ("component-" +:+ componentName) w).1 = None →
  response (network (requests w)
              (REGISTRY_BASE_URL env +:+ "/" +:+ componentName +:+ ".json"))
  = Resolved body →
  ComponentSchema body = Returned component →
  fetchComponent env network componentName w
  = (Returned (ComponentData component),
     Spec.stored network ("component-" +:+ componentName)
       (REGISTRY_BASE_URL env +:+ "/" +:+ componentName +:+ ".json")
       (ComponentData component) w).
Proof.
  intros Hmiss Hreply Hparse. unfold fetchComponent.
  rewrite (getFromCache_miss _ _ Hmiss). unfold axios_get.
  rewrite Hreply, Hparse. reflexivity.
Qed.



End Client.



(** *** Failures of [fetchComponent] *)
Section FetchComponent.
Import Api.

Ltac outcome_cases :=
  repeat match goal with
    | |- context [mbind _ ?m] =>
        destruct m; cbn [mbind Outcome_bind Js.bind]; eauto
    end.

Lemma z_items_Returned {A} (elem : option Json → Outcome A) items xs :
  Schema.z_items elem items = Returned xs →
  ∀ j, j ∈ items → ∃ x, elem (Some j) = Returned x.
Proof.
  revert xs. induction items as [|i items IH]; intros xs H j Hj.
  - by apply elem_of_nil in Hj.
  - simpl in H. cbn [mbind Outcome_bind Js.bind] in H.
    destruct (elem (Some i)) as [x|] eqn:Ei; [|done].
    destruct (Schema.z_items elem items) as [xs'|] eqn:Er; [|done].
    apply elem_of_cons in Hj as [->|Hj]; eauto.
Qed.

Lemma ComponentFileSchema_nameless f :
  field f "path" = None → field f "name" = None →
  ∃ e, ComponentFileSchema (Some (JObject f)) = Thrown e.
Proof.
  intros Hp Hn. unfold ComponentFileSchema. rewrite Hp, Hn.
  cbn [Schema.z_string_optional mbind Outcome_bind Js.bind].
  outcome_cases.
Qed.

Lemma z_array_files_nameless data items f :
  field data "files" = Some (JArray items) →
  JObject f ∈ items →
  field f "path" = None → field f "name" = None →
  ∃ e, Schema.z_array "files" ComponentFileSchema (field data "files")
       = Thrown e.
Proof.
  intros Hfiles Hin Hp Hn. rewrite Hfiles. unfold Schema.z_array.
  destruct (Schema.z_items ComponentFileSchema items) as [xs|e] eqn:E;
    [|eauto].
  destruct (z_items_Returned _ _ _ E _ Hin) as [x Hx].
  destruct (ComponentFileSchema_nameless f Hp Hn) as [e He]. congruence.
Qed.

Lemma ComponentSchema_nameless data items f :
  field data "files" = Some (JArray items) →
  JObject f ∈ items →
  field f "path" = None → field f "name" = None →
  ∃ e, ComponentSchema (JObject data) = Thrown e.
Proof.
  intros Hfiles Hin Hp Hn.
  destruct (z_array_files_nameless data items f Hfiles Hin Hp Hn) as [e He].
  unfold ComponentSchema. rewrite He. outcome_cases.
Qed.

End FetchComponent.

(** C5.  When [fetchComponent] misses the cache, its failures are
    classified by the message of the error it throws: a 404 response
    gives "Component '<name>' not found in registry", which names the
    component (the spec's NotFoundError); any other rejected request gives
    "Failed to fetch component '<name>': <transport message>"
    (FetchError); a body that the schema rejects gives "Failed to parse
    component '<name>': <validator diagnostic>" (ParseError), and a body
    with a [files] entry that has neither [path] nor [name] is rejected by
    the schema; when the body is accepted, the parsed component is
    returned. *)
Theorem fetchComponent_failure_kinds env network componentName w :
  (Api.getFromCache ("component-" +:+ componentName) w).1 = None →
  let reply :=
    Api.response
      (network (Api.requests w)
         (Api.REGISTRY_BASE_URL env +:+ "/" +:+ componentName +:+ ".json")) in
  let outcome := (Api.fetchComponent env network componentName w).1 in
  (∀ m, reply = Api.Rejected (Some 404%Z) m →
     outcome
     = Thrown (Js.mkError "Error"
         ("Component '" +:+ componentName +:+ "' not found in registry"))
     ∧ Js.includes
         ("Component '" +:+ componentName +:+ "' not found in registry")
         componentName = true)
  ∧ (∀ status m, reply = Api.Rejected status m → status ≠ Some 404%Z →
     outcome
     = Thrown (Js.mkError "Error"
         ("Failed to fetch component '" +:+ componentName +:+ "': " +:+ m)))
  ∧ (∀ body e, reply = Api.Resolved body → ComponentSchema body = Thrown e →
     outcome
     = Thrown (Js.mkError "Error"
         ("Failed to parse component '" +:+ componentName +:+ "': "
          +:+ Js.error_to_string e)))
  ∧ (∀ data items f,
     reply = Api.Resolved (JObject data) →
     field data "files" = Some (JArray items) → JObject f ∈ items →
     field f "path" = None → field f "name" = None →
     ∃ e, ComponentSchema (JObject data) = Thrown e
          ∧ outcome
            = Thrown (Js.mkError "Error"
                ("Failed to parse component '" +:+ componentName +:+ "': "
                 +:+ Js.error_to_string e)))
  ∧ (∀ body component,
     reply = Api.Resolved body → ComponentSchema body = Returned component →
     outcome = Returned (Api.ComponentData component)).
Proof.
  intros Hmiss reply outcome. subst reply outcome.
  unfold Api.fetchComponent. rewrite (getFromCache_miss _ _ Hmiss).
  unfold Api.axios_get.
  split; [|split; [|split; [|split]]].
  - intros m ->. split; [by rewrite bool_decide_eq_true_2|].
    apply includes_app.
  - intros status m -> Hs. by rewrite bool_decide_eq_false_2.
  - intros body e -> ->. done.
  - intros data items f -> Hfiles Hin Hp Hn.
    destruct (ComponentSchema_nameless data items f Hfiles Hin Hp Hn)
      as [e He].
    exists e. split; [done|]. by rewrite He.
  - intros body component -> ->. done.
Qed.

Lemma fetchComponent_failure_kinds_witness :
  (Api.fetchComponent ∅ Fixture.server "missing" Fixture.coldStart).1
  = Thrown (Js.mkError "Error" "Component 'missing' not found in registry")
  ∧ (Api.fetchComponent ∅ Fixture.server "offline" Fixture.coldStart).1
    = Thrown (Js.mkError "Error"
        "Failed to fetch component 'offline': connect ECONNREFUSED")
  ∧ (∃ e, ComponentSchema Fixture.nameless_json = Thrown e
          ∧ (Api.fetchComponent ∅ Fixture.server "nameless"
               Fixture.coldStart).1
            = Thrown (Js.mkError "Error"
                ("Failed to parse component 'nameless': "
                 +:+ Js.error_to_string e)))
  ∧ (Api.fetchComponent ∅ Fixture.server "button" Fixture.coldStart).1
    = Returned (Api.ComponentData Fixture.button_detail).
Proof.
  split; [|split; [|split]].
  - destruct (fetchComponent_failure_kinds ∅ Fixture.server "missing"
                Fixture.coldStart eq_refl) as (H & _).
    by destruct (H "Request failed with status code 404" eq_refl).
  - destruct (fetchComponent_failure_kinds ∅ Fixture.server "offline"
                Fixture.coldStart eq_refl) as (_ & H & _).
    apply (H None "connect ECONNREFUSED" eq_refl). discriminate.
  - destruct (fetchComponent_failure_kinds ∅ Fixture.server "nameless"
                Fixture.coldStart eq_refl) as (_ & _ & _ & H & _).
    eapply (H _ _ [("content", JString "export {}")] eq_refl eq_refl);
      [repeat constructor|reflexivity|reflexivity].
  - destruct (fetchComponent_failure_kinds ∅ Fixture.server "button"
                Fixture.coldStart eq_refl) as (_ & _ & _ & _ & H).
    apply (H Fixture.button_json Fixture.button_detail eq_refl eq_refl).
Defined.

(** *** Query layer: categories *)
Section Categories.
Import Api.

Lemma proto_is_prototype_key : "__proto__" ∈ Js.objectPrototypeKeys.
Proof. unfold Js.objectPrototypeKeys. set_solver. Qed.

Lemma js_set_lookup_ne {V} (o : gmap string V) k k' v :
  k ≠ k' → Js.js_set o k v !! k' = o !! k'.
Proof.
  intros Hne. unfold Js.js_set. case_bool_decide; [done|].
  by rewrite lookup_insert_ne.
Qed.

Lemma js_set_lookup_eq {V} (o : gmap string V) k v :
  k ≠ "__proto__" → Js.js_set o k v !! k = Some v.
Proof.
  intros Hne. unfold Js.js_set. rewrite bool_decide_eq_false_2 by done.
  apply lookup_insert_eq.
Qed.

Lemma js_set_lookup_proto {V} (o : gmap string V) k v :
  o !! "__proto__" = None → Js.js_set o k v !! "__proto__" = None.
Proof.
  intros Ho. unfold Js.js_set. case_bool_decide as Hk; [done|].
  by rewrite lookup_insert_ne.
Qed.

Lemma foldl_bind {A B C} (f : A → C → A) (g : B → list C) a l :
  foldl (λ acc x, foldl f acc (g x)) a l = foldl f a (l ≫= g).
Proof.
  revert a. induction l as [|x l IH]; intros a; simpl; [done|].
  by rewrite foldl_app, IH.
Qed.

(** What the counting loop leaves under a key that is not a property of
    [Object.prototype]: the number of times the key was met. *)
Lemma count_category_lookup key cs counts n :
  key ∉ Js.objectPrototypeKeys →
  counts !! key = (if decide (n = 0) then None else Some (Num n)) →
  foldl count_category counts cs !! key
  = (let n' := n + length (filter (λ c, c = key) cs) in
     if decide (n' = 0) then None else Some (Num n')).
Proof.
  intros Hkey. revert counts n.
  induction cs as [|c cs IH]; intros counts n Hn; simpl.
  - by rewrite Nat.add_0_r.
  - rewrite filter_cons. destruct (decide (c = key)) as [->|Hc].
    + rewrite (IH _ (S n)).
      * simpl. by rewrite Nat.add_succ_r.
      * unfold count_category. rewrite js_set_lookup_eq.
        2:{ intros ->. apply Hkey, proto_is_prototype_key. }
        unfold Js.js_get. rewrite Hn.
        destruct (decide (n = 0)) as [->|Hz]; simpl.
        -- by rewrite bool_decide_eq_false_2.
        -- by rewrite Nat.add_1_r.
    + apply IH. unfold count_category. by rewrite js_set_lookup_ne.
Qed.

Lemma categoryCounts_lookup registryIndex key :
  key ∉ Js.objectPrototypeKeys →
  or_zero (Js.js_get (categoryCounts registryIndex) key)
  = Num (Spec.occurrences key (components registryIndex)).
Proof.
  intros Hkey. unfold categoryCounts, Spec.occurrences, Js.js_get.
  rewrite foldl_bind.
  rewrite (count_category_lookup key _ ∅ 0 Hkey) by done. simpl.
  case_decide as Hz; [|done].
  rewrite bool_decide_eq_false_2 by done. simpl. by rewrite Hz.
Qed.

Lemma filter_eq_NoDup (key : string) (l : list string) :
  NoDup l →
  length (filter (λ c, c = key) l) = if decide (key ∈ l) then 1 else 0.
Proof.
  induction 1 as [|c l Hc Hl IH]; simpl; [done|].
  rewrite filter_cons. destruct (decide (c = key)) as [->|Hk].
  - simpl. rewrite IH. rewrite decide_False by done.
    by rewrite decide_True by left.
  - rewrite IH. destruct (decide (key ∈ l)) as [Hin|Hin].
    + by rewrite decide_True by (by right).
    + rewrite decide_False; [done|].
      intros [?|?]%elem_of_cons; congruence.
Qed.

Lemma occurrences_components_in key (l : list RegistryComponent) :
  (∀ c, c ∈ l → NoDup (categories c)) →
  Spec.occurrences key l = length (Spec.components_in key l).
Proof.
  unfold Spec.occurrences, Spec.components_in.
  induction l as [|c l IH]; intros Hnd; [done|].
  rewrite bind_cons, filter_app, length_app, filter_cons.
  rewrite IH by (intros ??; apply Hnd; by right).
  rewrite filter_eq_NoDup by (apply Hnd; by left).
  by destruct (decide (key ∈ categories c)).
Qed.

(** The map built by the second loop of [getCategories]. *)
Lemma getCategories_lookup registryIndex key :
  cats (getCategories registryIndex) !! key
  = if decide (key = "__proto__") then None
    else (λ info,
            mkCategoryCount (category_title info) (category_description info)
              (or_zero (Js.js_get (categoryCounts registryIndex) key)))
         <$> index_categories registryIndex !! key.
Proof.
  unfold getCategories. cbn [cats].
  destruct (decide (key = "__proto__")) as [->|Hk].
  - apply (map_fold_weak_ind (λ (r : gmap string CategoryCount) m,
      r !! "__proto__" = None)); [done|].
    intros i x m r _ IH. by apply js_set_lookup_proto.
  - apply (map_fold_weak_ind (λ (r : gmap string CategoryCount) m,
      r !! key
      = (λ info,
           mkCategoryCount (category_title info) (category_description info)
             (or_zero (Js.js_get (categoryCounts registryIndex) key)))
        <$> m !! key)); [by rewrite !lookup_empty|].
    intros i x m r Hi IH.
    destruct (decide (i = key)) as [->|Hne].
    + rewrite js_set_lookup_eq by done. by rewrite lookup_insert_eq.
    + rewrite js_set_lookup_ne by done. by rewrite IH, lookup_insert_ne.
Qed.

Lemma getCategories_dom registryIndex :
  dom (cats (getCategories registryIndex))
  = dom (index_categories registryIndex) ∖ {["__proto__"]}.
Proof.
  apply set_eq. intros key.
  rewrite elem_of_difference, !elem_of_dom, getCategories_lookup.
  rewrite elem_of_singleton. case_decide.
  - split; [by intros []|naive_solver].
  - rewrite fmap_is_Some. naive_solver.
Qed.

(** A decoded record has no own property named [__proto__]. *)
Lemma z_entries_no_proto {A} (elem : option Json → Outcome A) fields acc m :
  Schema.z_entries elem fields acc = Returned m →
  acc !! "__proto__" = None → m !! "__proto__" = None.
Proof.
  revert acc. induction fields as [|[k j] fields IH]; intros acc H Hacc.
  - simpl in H. by simplify_eq.
  - simpl in H. cbn [mbind Outcome_bind Js.bind] in H.
    destruct (elem (Some j)) as [x|]; [|done].
    eapply IH; [exact H|]. by apply js_set_lookup_proto.
Qed.

Lemma RegistryIndexSchema_no_proto body registryIndex :
  RegistryIndexSchema body = Returned registryIndex →
  "__proto__" ∉ dom (index_categories registryIndex).
Proof.
  unfold RegistryIndexSchema. intros H.
  destruct body as [| | | | |data]; try done.
  unfold mbind, Outcome_bind in H.
  repeat match type of H with
    | Js.bind ?m _ = _ =>
        let E := fresh "E" in
        destruct m eqn:E; cbn [Js.bind] in H; [|done]
    end.
  simplify_eq. cbn [index_categories]. apply not_elem_of_dom.
  match goal with
  | E : Schema.z_record _ _ _ = Returned _ |- _ =>
      unfold Schema.z_record in E;
      destruct (field data "categories") as [[| | | | |fields]|];
      try done; by eapply z_entries_no_proto
  end.
Qed.

End Categories.

(** For a category key that is an entry of the index's map and not a
    property name of [Object.prototype], and an index in which no
    component writes a category twice, the count is the number of
    components that list the key, zero included. *)
Lemma getCategories_count registryIndex key info :
  index_categories registryIndex !! key = Some info →
  key ∉ Js.objectPrototypeKeys →
  (∀ c, c ∈ components registryIndex → NoDup (categories c)) →
  Api.cats (Api.getCategories registryIndex) !! key
  = Some (Api.mkCategoryCount (category_title info)
            (category_description info)
            (Api.Num (length (Spec.components_in key
                                (components registryIndex))))).
Proof.
  intros Hkey Hproto Hnd. rewrite getCategories_lookup, Hkey.
  rewrite decide_False.
  2:{ intros ->. apply Hproto, proto_is_prototype_key. }
  simpl. by rewrite categoryCounts_lookup, occurrences_components_in.
Qed.

(** C6 (the code departs from it).  [getCategories] counts how many times
    a category key is written in the category lists, not how many
    components list it: for an index whose only component lists "forms"
    twice, the count of "forms" is 2 although one component lists it. *)
Theorem getCategories_counts_occurrences :
  ∃ c, Api.cats (Api.getCategories Fixture.repeated_index) !! "forms" = Some c
       ∧ Api.count c = Api.Num 2
       ∧ length (Spec.components_in "forms"
                   (components Fixture.repeated_index)) = 1.
Proof. eexists. split; [reflexivity|]. split; reflexivity. Qed.

(** The same loop reads [categoryCounts[cat]] through the prototype chain:
    for a category named like a property of [Object.prototype], the count
    is not a number. *)
Lemma getCategories_count_prototype_key :
  let registryIndex :=
    mkRegistryIndex None "r" "d" "1" "react" "u"
      [mkRegistryComponent "a" "A" "d" "component" ["constructor"] false "u"]
      {[ "constructor" := mkCategory "C" "d" ]} None in
  ∃ c, Api.cats (Api.getCategories registryIndex) !! "constructor" = Some c
       ∧ Api.count c = Api.Concat (Api.PrototypeValue "constructor").
Proof. eexists. split; reflexivity. Qed.

(** The components and the total of [getComponentsByCategory] are those
    of the components that list the category; for a category that is
    neither an entry of the map nor a property name of [Object.prototype]
    the category info is [null]. *)
Lemma getComponentsByCategory_components registryIndex category :
  let r := Api.getComponentsByCategory registryIndex category in
  Api.cc_components r = Spec.components_in category (components registryIndex)
  ∧ Api.cc_total r = length (Api.cc_components r)
  ∧ (category ∉ Js.objectPrototypeKeys →
     index_categories registryIndex !! category = None →
     Api.categoryInfo r = Api.null)
  ∧ (∀ info, index_categories registryIndex !! category = Some info →
     Api.categoryInfo r = Api.Info info).
Proof.
  unfold Api.getComponentsByCategory, Spec.components_in. cbn.
  split; [|split; [done|split]].
  - apply list_filter_iff. intros x. apply array_includes_spec.
  - intros Hp Hc. unfold Js.js_get. rewrite Hc.
    by rewrite bool_decide_eq_false_2.
  - intros info Hc. unfold Js.js_get. by rewrite Hc.
Qed.

Lemma getComponentsByCategory_nonexistent :
  let r := Api.getComponentsByCategory Fixture.index "nonexistent" in
  Api.categoryInfo r = Api.null ∧ Api.cc_components r = [].
Proof. split; reflexivity. Qed.

(** C7 (the code departs from it).  The category info is read with
    [registryIndex.categories[category] || null], which reaches the
    prototype of the map: for the category "constructor", which is not a
    key of the fixture's category map and which no component lists, the
    result carries the built-in [Object.prototype.constructor] instead of
    [null]. *)
Theorem getComponentsByCategory_prototype_key :
  index_categories Fixture.index !! "constructor" = None
  ∧ Api.cc_components (Api.getComponentsByCategory Fixture.index "constructor")
    = []
  ∧ Api.categoryInfo (Api.getComponentsByCategory Fixture.index "constructor")
    = Api.PrototypeMember "constructor".
Proof. split; [reflexivity|]. split; reflexivity. Qed.

(** C8.  [getRegistryInfo] reports the number of components, the number
    of components with [featured] true, the number of keys of the category
    map, and [null] as [lastUpdated] when the meta block is absent;
    [getFeaturedComponents] returns the featured components in index
    order.  On the two-component fixture the featured components are the
    button alone, with total 1, and the stats are 2, 1 and 2. *)
Theorem getRegistryInfo_stats registryIndex :
  let s := Api.stats (Api.getRegistryInfo registryIndex) in
  let f := Api.getFeaturedComponents registryIndex in
  Api.stats_totalComponents s = length (components registryIndex)
  ∧ Api.featuredComponents s
    = length (filter (λ c, featured c = true) (components registryIndex))
  ∧ Api.categoriesCount s = size (dom (index_categories registryIndex))
  ∧ (meta registryIndex = None → Api.stats_lastUpdated s = None)
  ∧ Api.featured_components f
    = filter (λ c, featured c = true) (components registryIndex)
  ∧ Api.featured_components f `sublist_of` components registryIndex
  ∧ Api.featured_total f = length (Api.featured_components f)
  ∧ Api.getFeaturedComponents Fixture.index
    = Api.mkFeatured [Fixture.button] 1
  ∧ Api.stats_totalComponents (Api.stats (Api.getRegistryInfo Fixture.index))
    = 2
  ∧ Api.featuredComponents (Api.stats (Api.getRegistryInfo Fixture.index))
    = 1
  ∧ Api.categoriesCount (Api.stats (Api.getRegistryInfo Fixture.index)) = 2.
Proof.
  cbv zeta. unfold Api.getRegistryInfo, Api.getFeaturedComponents.
  cbn [Api.stats Api.stats_totalComponents Api.featuredComponents
       Api.categoriesCount Api.stats_lastUpdated Api.featured_components
       Api.featured_total].
  split; [done|]. split; [done|]. split; [by rewrite size_dom|].
  split; [by intros ->|]. split; [done|]. split; [apply sublist_filter|].
  split; [done|]. split; [reflexivity|]. split; [reflexivity|].
  split; reflexivity.
Qed.

Lemma getRegistryInfo_stats_witness :
  Api.stats_lastUpdated (Api.stats (Api.getRegistryInfo Fixture.index)) = None.
Proof.
  destruct (getRegistryInfo_stats Fixture.index) as (_ & _ & _ & H & _).
  apply H. reflexivity.
Defined.

(** C10.  For every fetched index, that is, every index accepted by the
    schema, the map returned by [getCategories] has exactly the keys of
    the index's category map, and [total] is their number.  A key that
    only occurs in the category list of a component is not in the result:
    its count is computed and dropped. *)
Theorem getCategories_keys body registryIndex :
  RegistryIndexSchema body = Returned registryIndex →
  let r := Api.getCategories registryIndex in
  dom (Api.cats r) = dom (index_categories registryIndex)
  ∧ Api.cats_total r = size (dom (index_categories registryIndex))
  ∧ (∀ key, key ∉ dom (index_categories registryIndex) →
       Api.cats r !! key = None).
Proof.
  intros Hparse r.
  assert (Hdom : dom (Api.cats r) = dom (index_categories registryIndex)).
  { subst r. rewrite getCategories_dom.
    apply RegistryIndexSchema_no_proto in Hparse. set_solver. }
  split; [exact Hdom|]. split.
  - rewrite <- Hdom, size_dom. done.
  - intros key Hkey. apply not_elem_of_dom. by rewrite Hdom.
Qed.

Lemma getCategories_keys_witness :
  dom (Api.cats (Api.getCategories Fixture.index))
  = dom (index_categories Fixture.index)
  ∧ Api.cats_total (Api.getCategories Fixture.index) = 2.
Proof.
  destruct (getCategories_keys Fixture.index_json Fixture.index eq_refl)
    as (Hdom & Htotal & _).
  split; [exact Hdom|]. rewrite Htotal. reflexivity.
Defined.

(* ===================================================================== *)
(** ** Further properties of the cache and the registry client            *)
(* ===================================================================== *)

Section ClientFacts.
Import Api.
Variable env : gmap string string.
Variable network : list string → string → Reply.

Lemma component_key_not_index componentName :
  "component-" +:+ componentName ≠ "registry-index".
Proof. discriminate. Qed.

Lemma component_key_inj a b :
  "component-" +:+ a = "component-" +:+ b → a = b.
Proof. intros H. by simplify_eq. Qed.

(** The cache after a fetch: untouched, or the old one with one entry
    written under the key of the fetch. *)
Lemma fetchRegistryIndex_cache w :
  cache (fetchRegistryIndex env network w).2 = cache w
  ∨ ∃ e, cache (fetchRegistryIndex env network w).2
         = <["registry-index" := e]> (cache w)
         ∧ (∃ registryIndex, data e = IndexData registryIndex)
         ∧ (fetchRegistryIndex env network w).1 = Returned (data e).
Proof.
  unfold fetchRegistryIndex.
  pose proof (getFromCache_pure "registry-index" w) as Hw.
  destruct (getFromCache "registry-index" w) as [[cached|] w']; simpl in Hw;
    subst w'; [by left|].
  unfold axios_get.
  destruct (response (network (requests w) _)) as [body|status m];
    [|by left].
  destruct (RegistryIndexSchema body) as [registryIndex|e]; [|by left].
  right. eexists. split; [reflexivity|]. split; [by eexists|done].
Qed.

Lemma fetchComponent_cache componentName w :
  cache (fetchComponent env network componentName w).2 = cache w
  ∨ ∃ e, cache (fetchComponent env network componentName w).2
         = <["component-" +:+ componentName := e]> (cache w)
         ∧ (∃ component, data e = ComponentData component)
         ∧ (fetchComponent env network componentName w).1 = Returned (data e).
Proof.
  unfold fetchComponent.
  pose proof (getFromCache_pure ("component-" +:+ componentName) w) as Hw.
  destruct (getFromCache ("component-" +:+ componentName) w)
    as [[cached|] w']; simpl in Hw; subst w'; [by left|].
  unfold axios_get.
  destruct (response (network (requests w) _)) as [body|status m].
  - destruct (ComponentSchema body) as [component|e]; [|by left].
    right. eexists. split; [reflexivity|]. split; [by eexists|done].
  - case_bool_decide; by left.
Qed.

End ClientFacts.

(** X1.  [fetchRegistryIndex] after a cache miss: every rejected request,
    a 404 included, fails with "Failed to fetch registry index: <transport
    message>"; a body the schema rejects fails with "Failed to parse
    registry index: <diagnostic>"; and whenever the call fails, the cache
    is left as it was and exactly one request has been sent. *)
Theorem fetchRegistryIndex_failures env network w :
  let url := Api.REGISTRY_BASE_URL env +:+ "/index.json" in
  let reply := Api.response (network (Api.requests w) url) in
  let r := Api.fetchRegistryIndex env network w in
  ((Api.getFromCache "registry-index" w).1 = None →
   (∀ status m, reply = Api.Rejected status m →
      r.1 = Thrown (Js.mkError "Error"
                      ("Failed to fetch registry index: " +:+ m)))
   ∧ (∀ body e, reply = Api.Resolved body →
      RegistryIndexSchema body = Thrown e →
      r.1 = Thrown (Js.mkError "Error"
                      ("Failed to parse registry index: "
                       +:+ Js.error_to_string e))))
  ∧ (∀ e, r.1 = Thrown e →
       Api.cache r.2 = Api.cache w
       ∧ Api.requests r.2 = (Api.requests w ++ [url])%list).
Proof.
  cbv zeta. unfold Api.fetchRegistryIndex. split.
  - intros Hmiss. rewrite (getFromCache_miss _ _ Hmiss). unfold Api.axios_get.
    split.
    + by intros status m ->.
    + by intros body e -> ->.
  - intros e.
    pose proof (getFromCache_pure "registry-index" w) as Hw.
    destruct (Api.getFromCache "registry-index" w) as [[cached|] w'];
      simpl in Hw; subst w'; [done|].
    unfold Api.axios_get.
    destruct (Api.response (network (Api.requests w) _)) as [body|status m];
      [|done].
    by destruct (RegistryIndexSchema body).
Qed.

Lemma fetchRegistryIndex_failures_witness :
  let r := Api.fetchRegistryIndex (<["NODE_ENV" := "production"]> ∅)
             Fixture.server Fixture.coldStart in
  r.1 = Thrown (Js.mkError "Error"
                  "Failed to fetch registry index: connect ECONNREFUSED")
  ∧ Api.cache r.2 = ∅
  ∧ Api.requests r.2
    = ["https://brutalist.precast.dev/registry/react/index.json"].
Proof.
  destruct (fetchRegistryIndex_failures (<["NODE_ENV" := "production"]> ∅)
              Fixture.server Fixture.coldStart) as [Hkinds Hclean].
  destruct (Hkinds eq_refl) as [Hrej _].
  pose proof (Hrej None "connect ECONNREFUSED" eq_refl) as Hr.
  split; [exact Hr|]. exact (Hclean _ Hr).
Defined.

(** X2.  A failed [fetchComponent] stores nothing: whatever the failure
    (not found, transport, parse), the cache is unchanged and exactly one
    request has been sent, so the failure is not remembered. *)
Theorem fetchComponent_failure_not_cached env network componentName w e :
  (Api.fetchComponent env network componentName w).1 = Thrown e →
  let w1 := (Api.fetchComponent env network componentName w).2 in
  Api.cache w1 = Api.cache w
  ∧ Api.requests w1
    = (Api.requests w
       ++ [Api.REGISTRY_BASE_URL env +:+ "/" +:+ componentName
           +:+ ".json"])%list.
Proof.
  cbv zeta. unfold Api.fetchComponent.
  pose proof (getFromCache_pure ("component-" +:+ componentName) w) as Hw.
  destruct (Api.getFromCache ("component-" +:+ componentName) w)
    as [[cached|] w']; simpl in Hw; subst w'; [done|].
  unfold Api.axios_get.
  destruct (Api.response (network (Api.requests w) _)) as [body|status m].
  - by destruct (ComponentSchema body).
  - by case_bool_decide.
Qed.

Lemma fetchComponent_failure_not_cached_witness :
  let w1 := (Api.fetchComponent ∅ Fixture.server "missing"
               Fixture.coldStart).2 in
  Api.cache w1 = ∅
  ∧ Api.requests w1 = ["http://localhost:3000/registry/react/missing.json"].
Proof.
  exact (fetchComponent_failure_not_cached ∅ Fixture.server "missing"
           Fixture.coldStart _ eq_refl).
Defined.

(** X3.  The entries of the cache do not interfere: fetching a component
    leaves the entry of the index and the entries of all other components
    as they were, and fetching the index leaves every component entry as
    it was. *)
Theorem fetch_cache_isolation env network w :
  (∀ componentName,
     Api.cache (Api.fetchComponent env network componentName w).2
       !! "registry-index"
     = Api.cache w !! "registry-index")
  ∧ (∀ componentName other, other ≠ componentName →
     Api.cache (Api.fetchComponent env network componentName w).2
       !! ("component-" +:+ other)
     = Api.cache w !! ("component-" +:+ other))
  ∧ (∀ componentName,
     Api.cache (Api.fetchRegistryIndex env network w).2
       !! ("component-" +:+ componentName)
     = Api.cache w !! ("component-" +:+ componentName)).
Proof.
  split; [|split].
  - intros componentName.
    destruct (fetchComponent_cache env network componentName w)
      as [->|(e & -> & _)]; [done|].
    apply lookup_insert_ne, component_key_not_index.
  - intros componentName other Hne.
    destruct (fetchComponent_cache env network componentName w)
      as [->|(e & -> & _)]; [done|].
    apply lookup_insert_ne. intros H. by apply component_key_inj in H.
  - intros componentName.
    destruct (fetchRegistryIndex_cache env network w)
      as [->|(e & -> & _)]; [done|].
    apply lookup_insert_ne. discriminate.
Qed.

Lemma fetch_cache_isolation_witness :
  Api.cache (Api.fetchComponent ∅ Fixture.server "button"
               Fixture.coldStart).2 !! "component-card"
  = None.
Proof.
  destruct (fetch_cache_isolation ∅ Fixture.server Fixture.coldStart)
    as (_ & H & _).
  etrans; [apply (H "button" "card"); discriminate|reflexivity].
Defined.

(** X4.  The cache keeps its typing discipline: if the index key holds an
    index and every component key holds a component, the same is true
    after [fetchRegistryIndex] and after [fetchComponent]; under that
    discipline [fetchRegistryIndex] only ever returns an index and
    [fetchComponent] only ever returns a component, so the unchecked casts
    of [getFromCache] are safe.  The empty cache satisfies the
    discipline. *)
Theorem cache_well_typed env network w :
  Invariant.well_typed ∅
  ∧ (Invariant.well_typed (Api.cache w) →
     Invariant.well_typed (Api.cache (Api.fetchRegistryIndex env network w).2)
     ∧ (∀ d, (Api.fetchRegistryIndex env network w).1 = Returned d →
          ∃ registryIndex, d = Api.IndexData registryIndex)
     ∧ ∀ componentName,
         Invariant.well_typed
           (Api.cache (Api.fetchComponent env network componentName w).2)
         ∧ (∀ d, (Api.fetchComponent env network componentName w).1
                 = Returned d →
              ∃ component, d = Api.ComponentData component)).
Proof.
  split.
  { split; [intros e H|intros componentName e H];
      by rewrite lookup_empty in H. }
  intros [Hindex Hcomponent]. split; [|split; [|intros componentName; split]].
  - destruct (fetchRegistryIndex_cache env network w)
      as [->|(e & -> & He & _)]; [by split|].
    split.
    + intros e'. rewrite lookup_insert_eq. by intros [= <-].
    + intros componentName e'. rewrite lookup_insert_ne.
      * apply Hcomponent.
      * discriminate.
  - intros d. unfold Api.fetchRegistryIndex, Api.getFromCache.
    destruct (Api.cache w !! "registry-index") as [cached|] eqn:Hc.
    + destruct (Api.now w - Api.timestamp cached <? Api.CACHE_TTL)%Z.
      * intros [= <-]. by apply Hindex.
      * unfold Api.axios_get.
        destruct (Api.response _) as [body|]; [|done].
        destruct (RegistryIndexSchema body); [|done].
        intros [= <-]. by eexists.
    + unfold Api.axios_get.
      destruct (Api.response _) as [body|]; [|done].
      destruct (RegistryIndexSchema body); [|done].
      intros [= <-]. by eexists.
  - destruct (fetchComponent_cache env network componentName w)
      as [->|(e & -> & He & _)]; [by split|].
    split.
    + intros e'. rewrite lookup_insert_ne by apply component_key_not_index.
      apply Hindex.
    + intros other e'.
      destruct (decide (other = componentName)) as [->|Hne].
      * rewrite lookup_insert_eq. by intros [= <-].
      * rewrite lookup_insert_ne; [apply Hcomponent|].
        intros H. by apply component_key_inj in H.
  - intros d. unfold Api.fetchComponent, Api.getFromCache.
    destruct (Api.cache w !! ("component-" +:+ componentName))
      as [cached|] eqn:Hc.
    + destruct (Api.now w - Api.timestamp cached <? Api.CACHE_TTL)%Z.
      * intros [= <-]. by eapply Hcomponent.
      * unfold Api.axios_get.
        destruct (Api.response _) as [body|].
        -- destruct (ComponentSchema body); [|done].
           intros [= <-]. by eexists.
        -- by case_bool_decide.
    + unfold Api.axios_get.
      destruct (Api.response _) as [body|].
      * destruct (ComponentSchema body); [|done].
        intros [= <-]. by eexists.
      * by case_bool_decide.
Qed.

Lemma cache_well_typed_witness :
  Invariant.well_typed
    (Api.cache (Api.fetchRegistryIndex ∅ Fixture.server Fixture.coldStart).2).
Proof.
  destruct (cache_well_typed ∅ Fixture.server Fixture.coldStart)
    as [Hempty Hstep].
  exact (proj1 (Hstep Hempty)).
Defined.

(** X5.  An expired entry is replaced by what the registry answers now:
    when the entry of a component is older than the TTL and the request
    succeeds, [fetchComponent] sends one request, returns the freshly
    parsed component (not the cached one), and stores it with the time of
    the answer. *)
Theorem fetchComponent_refresh env network componentName w old body component :
  Api.cache w !! ("component-" +:+ componentName) = Some old →
  (Api.CACHE_TTL ≤ Api.now w - Api.timestamp old)%Z →
  let url := Api.REGISTRY_BASE_URL env +:+ "/" +:+ componentName +:+ ".json" in
  let reply := network (Api.requests w) url in
  Api.response reply = Api.Resolved body →
  ComponentSchema body = Returned component →
  let r := Api.fetchComponent env network componentName w in
  r.1 = Returned (Api.ComponentData component)
  ∧ Api.cache r.2 !! ("component-" +:+ componentName)
    = Some (Api.mkCacheEntry (Api.ComponentData component)
              (Api.now w + Api.elapsed reply))
  ∧ Api.requests r.2 = (Api.requests w ++ [url])%list.
Proof.
  intros Hold Hexpired url reply Hreply Hparse r. subst r.
  rewrite (fetchComponent_miss env network componentName w body component);
    [|by rewrite (getFromCache_expired _ _ _ Hold Hexpired)|done|done].
  split; [done|]. split; [|done]. apply lookup_insert_eq.
Qed.

Lemma fetchComponent_refresh_witness :
  let w :=
    Api.mkWorld
      {[ "component-button" :=
           Api.mkCacheEntry (Api.ComponentData Fixture.button_detail) 0 ]}
      300000 [] in
  Api.requests (Api.fetchComponent ∅ Fixture.server "button" w).2
  = ["http://localhost:3000/registry/react/button.json"].
Proof.
  cbv zeta.
  refine (proj2 (proj2
    (fetchComponent_refresh ∅ Fixture.server "button" _
       (Api.mkCacheEntry (Api.ComponentData Fixture.button_detail) 0)
       Fixture.button_json Fixture.button_detail _ _ _ _)));
    [reflexivity|vm_compute; discriminate|reflexivity|reflexivity].
Defined.

(* ===================================================================== *)
(** ** Further properties of the query layer                              *)
(* ===================================================================== *)

Section QueryFacts.
Import Api.

Lemma lower_upper_char c : Js.lower_char (Js.upper_char c) = Js.lower_char c.
Proof. by destruct c as [[] [] [] [] [] [] [] []]. Qed.

Lemma lower_lower_char c : Js.lower_char (Js.lower_char c) = Js.lower_char c.
Proof. by destruct c as [[] [] [] [] [] [] [] []]. Qed.

Lemma whitespace_upper_char c :
  Js.is_whitespace (Js.upper_char c) = Js.is_whitespace c.
Proof. by destruct c as [[] [] [] [] [] [] [] []]. Qed.

Lemma whitespace_lower_char c :
  Js.is_whitespace (Js.lower_char c) = Js.is_whitespace c.
Proof. by destruct c as [[] [] [] [] [] [] [] []]. Qed.

Lemma toLowerCase_toUpperCase s :
  Js.toLowerCase (Js.toUpperCase s) = Js.toLowerCase s.
Proof. induction s; simpl; [done|]. by rewrite lower_upper_char, IHs. Qed.

Lemma toLowerCase_idemp s :
  Js.toLowerCase (Js.toLowerCase s) = Js.toLowerCase s.
Proof. induction s; simpl; [done|]. by rewrite lower_lower_char, IHs. Qed.

Lemma all_whitespace_toUpperCase s :
  Spec.all_whitespace (Js.toUpperCase s) = Spec.all_whitespace s.
Proof. induction s; simpl; [done|]. by rewrite whitespace_upper_char, IHs. Qed.

Lemma all_whitespace_toLowerCase s :
  Spec.all_whitespace (Js.toLowerCase s) = Spec.all_whitespace s.
Proof. induction s; simpl; [done|]. by rewrite whitespace_lower_char, IHs. Qed.

Lemma text_stage_same_case q q' l :
  Js.toLowerCase q' = Js.toLowerCase q →
  Spec.all_whitespace q' = Spec.all_whitespace q →
  Spec.text_stage q' l = Spec.text_stage q l.
Proof.
  intros Hl Hw. unfold Spec.text_stage, Spec.text_match. by rewrite Hl, Hw.
Qed.

Lemma sublist_filter_mono {A} (P : A → Prop) `{!∀ x, Decision (P x)}
  (l1 l2 : list A) :
  l1 `sublist_of` l2 → filter P l1 `sublist_of` filter P l2.
Proof.
  induction 1 as [|x l1 l2 _ IH|x l1 l2 _ IH]; [done| |].
  - rewrite !filter_cons. case_decide; [by constructor|done].
  - rewrite filter_cons. case_decide; [by constructor|done].
Qed.

Lemma text_stage_mono q l1 l2 :
  l1 `sublist_of` l2 → Spec.text_stage q l1 `sublist_of` Spec.text_stage q l2.
Proof.
  intros H. unfold Spec.text_stage. destruct (Spec.all_whitespace q); [done|].
  by apply sublist_filter_mono.
Qed.

Lemma featured_stage_mono f l1 l2 :
  l1 `sublist_of` l2 →
  Spec.featured_stage f l1 `sublist_of` Spec.featured_stage f l2.
Proof.
  intros H. destruct f; simpl; [|done]. by apply sublist_filter_mono.
Qed.

End QueryFacts.

(** X6.  Search does not depend on the letter case of a query of 7-bit
    characters: the upper-cased and the lower-cased query select the same
    components as the query itself, for every index and every choice of
    filters. *)
Theorem searchComponents_query_case registryIndex query category featured :
  Js.plain query = true →
  Api.results (Api.searchComponents registryIndex (Js.toUpperCase query)
                 category featured)
  = Api.results (Api.searchComponents registryIndex query category featured)
  ∧ Api.results (Api.searchComponents registryIndex (Js.toLowerCase query)
                   category featured)
    = Api.results (Api.searchComponents registryIndex query category featured).
Proof.
  intros _.
  rewrite !searchComponents_stages. split; apply text_stage_same_case;
    auto using toLowerCase_toUpperCase, toLowerCase_idemp,
      all_whitespace_toUpperCase, all_whitespace_toLowerCase.
Qed.

Lemma searchComponents_query_case_witness :
  Api.results (Api.searchComponents Fixture.index "A CONT" None None)
  = Api.results (Api.searchComponents Fixture.index "a cont" None None)
  ∧ Api.results (Api.searchComponents Fixture.index "a cont" None None)
    = [Fixture.card].
Proof.
  split; [|reflexivity].
  exact (proj1 (searchComponents_query_case Fixture.index "a cont" None None
                  eq_refl)).
Defined.

(** X7.  Filters only narrow a search: the results with a category and a
    featured flag are a subsequence of the results of the same query
    without them, and of the results of the same filters with an empty
    query; so [total] never grows when a filter is added. *)
Theorem searchComponents_narrowing registryIndex query category featured :
  let r := Api.searchComponents registryIndex query category featured in
  Api.results r
    `sublist_of` Api.results (Api.searchComponents registryIndex query
                                None None)
  ∧ Api.results r
      `sublist_of` Api.results (Api.searchComponents registryIndex ""
                                  category featured)
  ∧ (Api.search_total r
     ≤ Api.search_total (Api.searchComponents registryIndex query None None))%nat
  ∧ (Api.search_total r
     ≤ Api.search_total (Api.searchComponents registryIndex ""
                           category featured))%nat.
Proof.
  cbv zeta.
  assert (H1 : Api.results (Api.searchComponents registryIndex query category
                              featured)
    `sublist_of` Api.results (Api.searchComponents registryIndex query
                                None None)).
  { rewrite !searchComponents_stages. apply text_stage_mono. simpl.
    etrans; [apply featured_stage_sublist|apply category_stage_sublist]. }
  assert (H2 : Api.results (Api.searchComponents registryIndex query category
                              featured)
    `sublist_of` Api.results (Api.searchComponents registryIndex ""
                                category featured)).
  { rewrite !searchComponents_stages. apply text_stage_sublist. }
  split; [exact H1|]. split; [exact H2|].
  split; by apply sublist_length.
Qed.

(** X8.  The listing operations are searches: [getFeaturedComponents]
    returns the results and total of [search("", undefined, true)], and
    [getComponentsByCategory(c)], for a non-empty [c], returns the results
    and total of [search("", c, undefined)]. *)
Theorem listings_are_searches registryIndex :
  Api.featured_components (Api.getFeaturedComponents registryIndex)
  = Api.results (Api.searchComponents registryIndex "" None (Some true))
  ∧ Api.featured_total (Api.getFeaturedComponents registryIndex)
    = Api.search_total (Api.searchComponents registryIndex "" None (Some true))
  ∧ ∀ category, category ≠ "" →
      Api.cc_components (Api.getComponentsByCategory registryIndex category)
      = Api.results (Api.searchComponents registryIndex "" (Some category)
                       None)
      ∧ Api.cc_total (Api.getComponentsByCategory registryIndex category)
        = Api.search_total (Api.searchComponents registryIndex ""
                              (Some category) None).
Proof.
  split; [done|]. split; [done|].
  intros category Hc. apply truthy_spec in Hc.
  unfold Api.getComponentsByCategory, Api.searchComponents.
  cbn [Api.cc_components Api.cc_total Api.results Api.search_total Js.trim
       Js.trimStart Js.trimEnd Js.truthy].
  by rewrite Hc.
Qed.

Lemma listings_are_searches_witness :
  Api.cc_components (Api.getComponentsByCategory Fixture.index "action")
  = Api.results (Api.searchComponents Fixture.index "" (Some "action") None).
Proof.
  destruct (listings_are_searches Fixture.index) as (_ & _ & H).
  apply (H "action"). discriminate.
Defined.

(** X9.  What [getCategories] counts: for a key of the category map that
    is not a property name of [Object.prototype], [count] is the number of
    times the key is written in the components' category lists (zero when
    it is written nowhere); when no component writes a category twice,
    that is the [total] of [getComponentsByCategory] for the key. *)
Theorem getCategories_count_meaning registryIndex key info :
  index_categories registryIndex !! key = Some info →
  key ∉ Js.objectPrototypeKeys →
  (∃ c, Api.cats (Api.getCategories registryIndex) !! key = Some c
        ∧ Api.cat_title c = category_title info
        ∧ Api.cat_description c = category_description info
        ∧ Api.count c
          = Api.Num (Spec.occurrences key (components registryIndex)))
  ∧ ((∀ c, c ∈ components registryIndex → NoDup (categories c)) →
     ∃ c, Api.cats (Api.getCategories registryIndex) !! key = Some c
          ∧ Api.count c
            = Api.Num (Api.cc_total
                         (Api.getComponentsByCategory registryIndex key))).
Proof.
  intros Hkey Hproto.
  assert (Hne : key ≠ "__proto__").
  { intros ->. apply Hproto, proto_is_prototype_key. }
  split.
  - eexists. rewrite getCategories_lookup, Hkey, decide_False by done.
    split; [reflexivity|]. cbn. by rewrite categoryCounts_lookup.
  - intros Hnd. eexists. split; [by apply getCategories_count|].
    cbn. f_equal. f_equal. apply list_filter_iff. intros x.
    symmetry. apply array_includes_spec.
Qed.

Lemma getCategories_count_meaning_witness :
  ∃ c, Api.cats (Api.getCategories Fixture.index) !! "display" = Some c
       ∧ Api.count c = Api.Num 1.
Proof.
  destruct (getCategories_count_meaning Fixture.index "display"
              (mkCategory "Display" "Things to look at") eq_refl) as [H _].
  { vm_compute. intros H. by repeat (apply elem_of_cons in H as [H|H];
      [discriminate|]; try apply elem_of_nil in H). }
  destruct H as (c & Hc & _ & _ & Hn). exists c. split; [exact Hc|].
  rewrite Hn. reflexivity.
Defined.

(** X10.  The statistics of [getRegistryInfo] agree with the other
    operations on the same index: [featuredComponents] is the total of
    [getFeaturedComponents] and never exceeds [totalComponents], which is
    the total of the unfiltered search; for a fetched index
    [categoriesCount] is the total of [getCategories]; the whole index is
    returned under [registry]; and [lastUpdated] is the meta block's value
    unless that is the empty string, which is reported as [null]. *)
Theorem getRegistryInfo_consistent body registryIndex :
  RegistryIndexSchema body = Returned registryIndex →
  let info := Api.getRegistryInfo registryIndex in
  let s := Api.stats info in
  Api.registry info = registryIndex
  ∧ Api.featuredComponents s
    = Api.featured_total (Api.getFeaturedComponents registryIndex)
  ∧ (Api.featuredComponents s ≤ Api.stats_totalComponents s)%nat
  ∧ Api.stats_totalComponents s
    = Api.search_total (Api.searchComponents registryIndex "" None None)
  ∧ Api.categoriesCount s = Api.cats_total (Api.getCategories registryIndex)
  ∧ (∀ m, meta registryIndex = Some m →
       Api.stats_lastUpdated s
       = if decide (lastUpdated m = "") then None else Some (lastUpdated m)).
Proof.
  intros Hparse info s. subst info s.
  split; [done|]. split; [done|]. split; [apply length_filter|].
  split; [done|]. split.
  - change (Api.cats_total (Api.getCategories registryIndex))
      with (size (Api.cats (Api.getCategories registryIndex))).
    change (Api.categoriesCount (Api.stats (Api.getRegistryInfo registryIndex)))
      with (size (index_categories registryIndex)).
    rewrite <- (size_dom (Api.cats _)), getCategories_dom, <- size_dom.
    apply RegistryIndexSchema_no_proto in Hparse. f_equal. set_solver.
  - intros m Hm. cbn. rewrite Hm.
    destruct (lastUpdated m); by case_decide.
Qed.

Lemma getRegistryInfo_consistent_witness :
  Api.categoriesCount (Api.stats (Api.getRegistryInfo Fixture.index))
  = Api.cats_total (Api.getCategories Fixture.index).
Proof.
  destruct (getRegistryInfo_consistent Fixture.index_json Fixture.index
              eq_refl) as (_ & _ & _ & _ & H & _).
  exact H.
Defined.

(* ===================================================================== *)
(** ** Further properties of the schemas                                  *)
(* ===================================================================== *)

Section SchemaFacts.

Lemma z_items_Forall2 {A} (elem : option Json → Outcome A) items xs :
  Schema.z_items elem items = Returned xs →
  Forall2 (λ j x, elem (Some j) = Returned x) items xs.
Proof.
  revert xs. induction items as [|j items IH]; intros xs H; simpl in H.
  - by simplify_eq.
  - unfold mbind, Outcome_bind in H.
    destruct (elem (Some j)) as [x|] eqn:Ej; [|done]. cbn [Js.bind] in H.
    destruct (Schema.z_items elem items) as [xs'|]; [|done].
    cbn [Js.bind] in H. simplify_eq. constructor; auto.
Qed.

Lemma ComponentFileSchema_addressable v f :
  ComponentFileSchema v = Returned f → SchemaSpec.addressable f.
Proof.
  unfold ComponentFileSchema. destruct v as [[| | | | |data]|]; try done.
  unfold mbind, Outcome_bind. intros H.
  repeat match type of H with
    | Js.bind ?m _ = _ =>
        let E := fresh "E" in
        destruct m eqn:E; cbn [Js.bind] in H; [|done]
    end.
  match type of H with
  | (if ?b then _ else _) = _ => destruct b eqn:Hb; [|done]
  end.
  simplify_eq. unfold SchemaSpec.addressable. cbn [file_path file_name].
  unfold Schema.path_or_name in Hb.
  match goal with
  | |- (∃ p, ?a = Some p ∧ _) ∨ (∃ n, ?b = Some n ∧ _) =>
      destruct a as [p|]; [destruct p as [|c p]; [|left; by eexists]|];
      (destruct b as [[|c' n]|]; simpl in Hb; [done|right; by eexists|done])
  end.
Qed.

Lemma field_cons_ne k j data k' :
  k ≠ k' → field ((k, j) :: data) k' = field data k'.
Proof.
  intros Hne. simpl. by rewrite (proj2 (String.eqb_neq k k') Hne).
Qed.

End SchemaFacts.

(** X11.  Every file of a component accepted by [ComponentSchema] can be
    addressed: its [path] or its [name] is a non-empty string (an empty
    [path] with no [name] is rejected like a missing one), and the files
    are the entries of the [files] array, in order, each accepted by
    [ComponentFileSchema]. *)
Theorem ComponentSchema_files body component :
  ComponentSchema body = Returned component →
  (∀ f, f ∈ component_files component → SchemaSpec.addressable f)
  ∧ ∃ data items,
      body = JObject data
      ∧ field data "files" = Some (JArray items)
      ∧ Forall2 (λ j f, ComponentFileSchema (Some j) = Returned f)
          items (component_files component).
Proof.
  unfold ComponentSchema. destruct body as [| | | | |data]; try done.
  unfold mbind, Outcome_bind. intros H.
  repeat match type of H with
    | Js.bind ?m _ = _ =>
        let E := fresh "E" in
        destruct m eqn:E; cbn [Js.bind] in H; [|done]
    end.
  simplify_eq. cbn [component_files].
  match goal with
  | E : Schema.z_array "files" _ _ = Returned ?files |- _ =>
      unfold Schema.z_array in E;
      destruct (field data "files") as [[| | | |items|]|] eqn:Hf; try done;
      apply z_items_Forall2 in E; rename E into Hall
  end.
  split.
  - intros f Hin.
    destruct (proj1 (list_elem_of_lookup _ _) Hin) as [i Hi].
    destruct (Forall2_lookup_r _ _ _ _ _ Hall Hi) as (j & _ & Hj).
    by eapply ComponentFileSchema_addressable.
  - by exists data, items.
Qed.

Lemma ComponentSchema_files_witness :
  SchemaSpec.addressable Fixture.button_file.
Proof.
  apply (proj1 (ComponentSchema_files Fixture.button_json
                  Fixture.button_detail eq_refl)).
  by left.
Defined.

(** X12.  [RegistryIndexSchema] is all or nothing: an accepted index has
    exactly the entries of the [components] array, in the same order,
    each accepted by [RegistryComponentSchema]; so a single entry that the
    component schema rejects makes the whole index fail to parse. *)
Theorem RegistryIndexSchema_components data :
  (∀ registryIndex,
     RegistryIndexSchema (JObject data) = Returned registryIndex →
     ∃ items, field data "components" = Some (JArray items)
       ∧ Forall2 (λ j c, RegistryComponentSchema (Some j) = Returned c)
           items (components registryIndex)
       ∧ length (components registryIndex) = length items)
  ∧ (∀ items j e,
       field data "components" = Some (JArray items) → j ∈ items →
       RegistryComponentSchema (Some j) = Thrown e →
       ∃ e', RegistryIndexSchema (JObject data) = Thrown e').
Proof.
  assert (Hok : ∀ registryIndex,
     RegistryIndexSchema (JObject data) = Returned registryIndex →
     ∃ items, field data "components" = Some (JArray items)
       ∧ Forall2 (λ j c, RegistryComponentSchema (Some j) = Returned c)
           items (components registryIndex)).
  { intros registryIndex. unfold RegistryIndexSchema.
    unfold mbind, Outcome_bind. intros H.
    repeat match type of H with
      | Js.bind ?m _ = _ =>
          let E := fresh "E" in
          destruct m eqn:E; cbn [Js.bind] in H; [|done]
      end.
    simplify_eq. cbn [components].
    match goal with
    | E : Schema.z_array "components" _ _ = Returned _ |- _ =>
        unfold Schema.z_array in E;
        destruct (field data "components") as [[| | | |items|]|]; try done;
        apply z_items_Forall2 in E; by exists items
    end. }
  split.
  - intros registryIndex H. destruct (Hok _ H) as (items & Hf & Hall).
    exists items. split; [done|]. split; [done|].
    symmetry. by eapply Forall2_length.
  - intros items j e Hf Hin Hj.
    destruct (RegistryIndexSchema (JObject data)) as [registryIndex|e'] eqn:E;
      [|by eexists].
    destruct (Hok _ eq_refl) as (items' & Hf' & Hall).
    rewrite Hf in Hf'. simplify_eq.
    destruct (proj1 (list_elem_of_lookup _ _) Hin) as [i Hi].
    destruct (Forall2_lookup_l _ _ _ _ _ Hall Hi) as (c & _ & Hc).
    congruence.
Qed.

Lemma RegistryIndexSchema_components_witness :
  length (components Fixture.index) = 2.
Proof.
  destruct (RegistryIndexSchema_components
              (match Fixture.index_json with
               | JObject data => data
               | _ => []
               end)) as [H _].
  destruct (H Fixture.index eq_refl) as (items & Hf & _ & Hlen).
  rewrite Hlen. vm_compute in Hf. by simplify_eq.
Defined.

(** X13.  The schemas ignore keys they do not know: putting an extra
    property in front of a component document or of an index document
    changes neither whether it is accepted nor the parsed value. *)
Theorem schemas_ignore_unknown_keys key j data :
  (key ∉ SchemaSpec.component_keys →
   ComponentSchema (JObject ((key, j) :: data)) = ComponentSchema (JObject data))
  ∧ (key ∉ SchemaSpec.index_keys →
     RegistryIndexSchema (JObject ((key, j) :: data))
     = RegistryIndexSchema (JObject data)).
Proof.
  split; intros Hkey; unfold ComponentSchema, RegistryIndexSchema;
    rewrite !field_cons_ne; try done;
    intros ->; apply Hkey;
    unfold SchemaSpec.component_keys, SchemaSpec.index_keys; set_solver.
Qed.

Lemma schemas_ignore_unknown_keys_witness :
  ComponentSchema
    (JObject [ ("registryDependencies", JArray []);
               ("name", JString "button");
               ("description", JString "A bold button");
               ("version", JString "1.0.0");
               ("files",
                JArray
                  [ JObject
                      [ ("path", JString "components/button/Button.tsx");
                        ("content",
                         JString "export const Button = () => null") ] ]) ])
  = Returned Fixture.button_detail.
Proof.
  etrans; [apply (schemas_ignore_unknown_keys "registryDependencies")|
           reflexivity].
  vm_compute. intros H. by repeat (apply elem_of_cons in H as [H|H];
    [discriminate|]; try apply elem_of_nil in H).
Defined.

(* ===================================================================== *)
(** ** Further properties of the command line                             *)
(* ===================================================================== *)

Section CommandLine.

Lemma arg_after_spec args flag u :
  Index.arg_after args flag = Some u
  ↔ ∃ pre post, args = (pre ++ flag :: u :: post)%list ∧ flag ∉ pre.
Proof.
  induction args as [|a args IH]; simpl.
  - split; [done|]. intros (pre & post & H & _). by destruct pre.
  - destruct (String.eqb a flag) eqn:Ea.
    + apply String.eqb_eq in Ea as ->. split.
      * destruct args as [|u' post]; [done|]. intros [= ->].
        exists [], post. split; [done|]. apply not_elem_of_nil.
      * intros (pre & post & H & Hpre). destruct pre as [|p pre].
        -- by simplify_eq/=.
        -- simplify_eq/=. exfalso. apply Hpre. by left.
    + apply String.eqb_neq in Ea. rewrite IH. split.
      * intros (pre & post & -> & Hpre). exists (a :: pre), post.
        split; [done|]. intros [?|?]%elem_of_cons; congruence.
      * intros (pre & post & H & Hpre). destruct pre as [|p pre].
        -- simplify_eq/=.
        -- simplify_eq/=. exists pre, post. split; [done|].
           intros ?. apply Hpre. by right.
Qed.

Lemma includes_arg_spec args a : Index.includes_arg args a = true ↔ a ∈ args.
Proof. unfold Index.includes_arg. by rewrite bool_decide_eq_true. Qed.

Lemma wants_exit_spec argv :
  Index.includes_arg (drop 2 argv) "--help"
  || Index.includes_arg (drop 2 argv) "-h"
  || (Index.includes_arg (drop 2 argv) "--version"
      || Index.includes_arg (drop 2 argv) "-v") = true
  ↔ IndexSpec.wants_exit argv.
Proof.
  unfold IndexSpec.wants_exit, IndexSpec.exit_flags.
  rewrite !orb_true_iff, !includes_arg_spec. split.
  - intros [[?|?]|[?|?]]; eexists; (split; [|eassumption]); set_solver.
  - intros (flag & Hf & Hin).
    repeat (apply elem_of_cons in Hf as [->|Hf]; [tauto|]).
    by apply elem_of_nil in Hf.
Qed.

Lemma parseArgs_exit argv :
  Index.parseArgs argv = Index.Exit ↔ IndexSpec.wants_exit argv.
Proof.
  rewrite <- wants_exit_spec. unfold Index.parseArgs.
  destruct (Index.includes_arg (drop 2 argv) "--help"
            || Index.includes_arg (drop 2 argv) "-h"); [done|].
  destruct (Index.includes_arg (drop 2 argv) "--version"
            || Index.includes_arg (drop 2 argv) "-v"); [done|].
  simpl. destruct (Index.arg_after _ _) as [u|]; [|done].
  by destruct (Js.truthy u).
Qed.

Lemma parseArgs_override argv u :
  Index.parseArgs argv = Index.Args (Some u)
  ↔ ¬ IndexSpec.wants_exit argv ∧ u ≠ ""
    ∧ ∃ pre post,
        drop 2 argv = (pre ++ "--registry-url" :: u :: post)%list
        ∧ "--registry-url" ∉ pre.
Proof.
  rewrite <- arg_after_spec, <- truthy_spec.
  pose proof (wants_exit_spec argv) as Hw.
  destruct (Index.includes_arg (drop 2 argv) "--help"
            || Index.includes_arg (drop 2 argv) "-h"
            || (Index.includes_arg (drop 2 argv) "--version"
                || Index.includes_arg (drop 2 argv) "-v")) eqn:Hb.
  - assert (He : IndexSpec.wants_exit argv) by by apply Hw.
    rewrite (proj2 (parseArgs_exit argv) He). naive_solver.
  - assert (He : ¬ IndexSpec.wants_exit argv).
    { intros He. apply Hw in He. discriminate. }
    apply orb_false_iff in Hb as [H1 H2].
    unfold Index.parseArgs. rewrite H1, H2.
    destruct (Index.arg_after (drop 2 argv) "--registry-url") as [u'|];
      [|naive_solver].
    destruct (Js.truthy u') eqn:Hu; naive_solver.
Qed.

End CommandLine.

(** X14.  What [parseArgs] makes of a command line: it leaves the process
    exactly when [--help], [-h], [--version] or [-v] occurs among the
    arguments (even as the value of another option); otherwise it returns
    the override [u] exactly when the first [--registry-url] is directly
    followed by the non-empty argument [u].  A [--registry-url] that comes
    last or is followed by an empty argument gives no override. *)
Theorem parseArgs_meaning argv :
  (Index.parseArgs argv = Index.Exit ↔ IndexSpec.wants_exit argv)
  ∧ (∀ u, Index.parseArgs argv = Index.Args (Some u)
          ↔ ¬ IndexSpec.wants_exit argv ∧ u ≠ ""
            ∧ ∃ pre post,
                drop 2 argv = (pre ++ "--registry-url" :: u :: post)%list
                ∧ "--registry-url" ∉ pre).
Proof. split; [apply parseArgs_exit|apply parseArgs_override]. Qed.

(** X15.  What [main] leaves in the environment: it stops without a
    result exactly when [parseArgs] leaves the process; otherwise
    [REGISTRY_BASE_URL] is set to a non-empty value, every other variable
    is left as it was, and an override, when there is one, is the value
    stored, whatever [NODE_ENV] and [--dev] say. *)
Theorem main_environment env argv :
  (Index.main env argv = None ↔ IndexSpec.wants_exit argv)
  ∧ ∀ env', Index.main env argv = Some env' →
      (∃ u, env' !! "REGISTRY_BASE_URL" = Some u ∧ u ≠ "")
      ∧ (∀ k, k ≠ "REGISTRY_BASE_URL" → env' !! k = env !! k)
      ∧ (∀ u, Index.parseArgs argv = Index.Args (Some u) →
           env' !! "REGISTRY_BASE_URL" = Some u).
Proof.
  rewrite <- parseArgs_exit. unfold Index.main. split.
  - destruct (Index.parseArgs argv) as [|[u|]]; naive_solver.
  - intros env'.
    destruct (Index.parseArgs argv) as [|[u|]] eqn:Hp; [done| |];
      intros [= <-].
    + split; [|split].
      * exists u. rewrite lookup_insert_eq. split; [done|].
        apply parseArgs_override in Hp. tauto.
      * intros k Hk. by rewrite lookup_insert_ne.
      * intros u' [= <-]. apply lookup_insert_eq.
    + split; [|split].
      * eexists. rewrite lookup_insert_eq. split; [done|].
        by destruct (_ || _).
      * intros k Hk. by rewrite lookup_insert_ne.
      * done.
Qed.

Lemma main_environment_witness :
  ∃ env', Index.main (<["HOME" := "/root"]> ∅)
            ["node"; "build/index.js"; "--registry-url"; "https://r.test"]
          = Some env'
    ∧ env' !! "REGISTRY_BASE_URL" = Some "https://r.test"
    ∧ env' !! "HOME" = Some "/root".
Proof.
  eexists. split; [reflexivity|].
  destruct (main_environment (<["HOME" := "/root"]> ∅)
              ["node"; "build/index.js"; "--registry-url"; "https://r.test"])
    as [_ H].
  destruct (H _ eq_refl) as (_ & Hother & Hover).
  split; [by apply Hover|]. rewrite Hother; [reflexivity|discriminate].
Defined.

(** X16.  When the URL announced by [main] is the one the client uses.
    Without an override, the value [main] stores in [REGISTRY_BASE_URL]
    equals the base URL of the registry client exactly when the two tests
    agree: either [NODE_ENV] is "production" and [--dev] is not given, or
    [NODE_ENV] is not "production" and the development mode is on.  With
    an unset [NODE_ENV] and no [--dev] they differ. *)
Theorem main_agrees_with_client env argv env' :
  Index.parseArgs argv = Index.Args None →
  Index.main env argv = Some env' →
  (env' !! "REGISTRY_BASE_URL" = Some (Api.REGISTRY_BASE_URL env)
   ↔ (env !! "NODE_ENV" = Some "production" ∧ "--dev" ∉ argv)
     ∨ (env !! "NODE_ENV" ≠ Some "production" ∧ IndexSpec.isDev env argv)).
Proof.
  intros Hp. unfold Index.main, Api.REGISTRY_BASE_URL, IndexSpec.isDev.
  rewrite Hp. intros [= <-]. rewrite lookup_insert_eq.
  unfold Index.includes_arg.
  repeat case_bool_decide; simpl; split; intros Hagree; simplify_eq;
    try done; naive_solver.
Qed.

Lemma main_agrees_with_client_witness :
  ∃ env', Index.main ∅ ["node"; "build/index.js"] = Some env'
    ∧ env' !! "REGISTRY_BASE_URL" ≠ Some (Api.REGISTRY_BASE_URL ∅).
Proof.
  eexists. split; [reflexivity|]. intros H.
  apply (main_agrees_with_client ∅ ["node"; "build/index.js"] _ eq_refl
           eq_refl) in H.
  destruct H as [[H' _]|[_ [H'|[H'|H']]]]; try discriminate.
  by repeat (apply elem_of_cons in H' as [H'|H']; [discriminate|];
    try apply elem_of_nil in H').
Defined.

Lemma parseArgs_meaning_witness :
  Index.parseArgs ["node"; "build/index.js"; "--registry-url"; "-v"]
  = Index.Exit.
Proof.
  apply (proj1 (parseArgs_meaning _)). exists "-v".
  split; [unfold IndexSpec.exit_flags|simpl]; set_solver.
Defined.

(* ===================================================================== *)
(** ** Further properties of the documentation extractor                  *)
(* ===================================================================== *)

Section DocsFacts.
Import Docs.

Lemma app_nonempty_l a b : a ≠ "" → a +:+ b ≠ "".
Proof. destruct a; [done|]. intros _. discriminate. Qed.

Lemma or_else_nonempty a b : b ≠ "" → or_else a b ≠ "".
Proof. unfold or_else. destruct a; simpl; [done|]. intros _. discriminate. Qed.

Lemma or_else_truthy a b : a ≠ "" → or_else a b = a.
Proof. unfold or_else. by destruct a. Qed.

Lemma includes_empty s : Js.includes s "" = true.
Proof. by destruct s. Qed.

Lemma specialCases_lookup componentName :
  DocsFallback.specialCases !! componentName
  = if String.eqb componentName "aspect-ratio"
    then Some (DOCS_DIR +:+ "/components/aspect-ratio.tsx")
    else if String.eqb componentName "pagination"
    then Some (DOCS_DIR +:+ "/components/pagination.tsx")
    else if String.eqb componentName "bar-chart"
    then Some (DOCS_DIR +:+ "/components/BarChartPage.tsx")
    else if String.eqb componentName "line-chart"
    then Some (DOCS_DIR +:+ "/components/LineChartPage.tsx")
    else if String.eqb componentName "table-of-contents"
    then Some (DOCS_DIR +:+ "/components/TableOfContentsPage.tsx")
    else if String.eqb componentName "shapes"
    then Some (DOCS_DIR +:+ "/ShapesPage.tsx")
    else None.
Proof.
  unfold DocsFallback.specialCases. simpl.
  repeat match goal with
    | |- context [String.eqb componentName ?s] =>
        destruct (String.eqb_spec componentName s) as [->|?]; [done|]
    end.
  rewrite !lookup_insert_ne by done. apply lookup_empty.
Qed.

Lemma docsPath_table componentName :
  DocsThrowing.docsPath componentName
  = default (DocsSpec.conventionPath componentName)
      (DocsFallback.specialCases !! componentName).
Proof.
  rewrite specialCases_lookup. unfold DocsThrowing.docsPath.
  repeat match goal with
    | |- context [String.eqb componentName ?s] =>
        destruct (String.eqb componentName s); [done|]
    end.
  done.
Qed.

Lemma specialCases_truthy componentName path :
  DocsFallback.specialCases !! componentName = Some path →
  Js.truthy path = true.
Proof.
  rewrite specialCases_lookup.
  repeat match goal with
    | |- context [String.eqb componentName ?s] =>
        destruct (String.eqb componentName s); [by intros [= <-]|]
    end.
  done.
Qed.



(** The file that the fall-back revision settles on when the file that
    the other revision reads exists and is not empty. *)
Lemma fallback_finds_docsPath (fs : FileSystem) componentName content :
  fs (DocsThrowing.docsPath componentName) = Some (File content) →
  content ≠ "" →
  (if negb (Js.truthy (DocsFallback.trySpecialCase fs componentName).1)
   then DocsFallback.tryPaths fs (DocsFallback.potentialPaths componentName)
          (DocsFallback.trySpecialCase fs componentName)
   else DocsFallback.trySpecialCase fs componentName)
  = (content, DocsThrowing.docsPath componentName).
Proof.
  intros Hfile Hne. apply truthy_spec in Hne.
  rewrite docsPath_table in *.
  unfold DocsFallback.trySpecialCase, Js.js_get.
  destruct (DocsFallback.specialCases !! componentName) as [path|] eqn:Hs;
    simpl in Hfile |- *.
  - rewrite (specialCases_truthy _ _ Hs). unfold readFileSync.
    rewrite Hfile. simpl. by rewrite Hne.
  - assert (Hfirst : DocsFallback.tryPaths fs
                       (DocsFallback.potentialPaths componentName) ("", "")
                     = (content, DocsSpec.conventionPath componentName)).
    { unfold DocsFallback.potentialPaths.
      change (DOCS_DIR +:+ "/components/" +:+ capitalized componentName
              +:+ "Page.tsx") with (DocsSpec.conventionPath componentName).
      cbn [DocsFallback.tryPaths]. unfold existsSync, readFileSync.
      rewrite Hfile. by rewrite bool_decide_eq_true_2. }
    by case_bool_decide.
Qed.

End DocsFacts.

(** X17.  The record returned by the fall-back revision is always usable:
    for every component name, file system and behaviour of the scraping
    helpers, [examples] and [accessibility] are present, [apiReference] is
    absent, the description and the content are non-empty, and the title
    is non-empty unless the component name is empty. *)
Theorem fallback_record_populated ex fs componentName :
  ∃ r, DocsFallback.extractComponentDocumentation ex fs componentName
       = Returned r
    ∧ Docs.examples r ≠ None
    ∧ Docs.accessibility r ≠ None
    ∧ Docs.apiReference r = None
    ∧ Docs.doc_description r ≠ ""
    ∧ Docs.doc_content r ≠ ""
    ∧ (componentName ≠ "" → Docs.doc_title r ≠ "").
Proof.
  unfold DocsFallback.extractComponentDocumentation, DocsFallback.extract_body.
  match goal with
  | |- context [let '(content, foundPath) := ?f in _] =>
      destruct f as [content foundPath]
  end.
  destruct (negb (Js.truthy content)).
  { eexists. split; [reflexivity|]. cbn.
    repeat split; try done. apply capitalized_nonempty. }
  unfold mbind, Outcome_bind.
  destruct (Docs.extractTitle ex content) as [t|e]; cbn [Js.bind];
    [|eexists; split; [reflexivity|]; cbn; repeat split; try done;
      apply capitalized_nonempty].
  destruct (Docs.extractDescription ex content) as [d|e]; cbn [Js.bind];
    [|eexists; split; [reflexivity|]; cbn; repeat split; try done;
      apply capitalized_nonempty].
  destruct (Docs.extractMainContent ex content) as [m|e]; cbn [Js.bind];
    [|eexists; split; [reflexivity|]; cbn; repeat split; try done;
      apply capitalized_nonempty].
  destruct (Docs.extractExamples ex content) as [x|e]; cbn [Js.bind];
    [|eexists; split; [reflexivity|]; cbn; repeat split; try done;
      apply capitalized_nonempty].
  destruct (Docs.extractAccessibility ex content) as [a|e]; cbn [Js.bind];
    [|eexists; split; [reflexivity|]; cbn; repeat split; try done;
      apply capitalized_nonempty].
  eexists. split; [reflexivity|].
  cbn [Docs.examples Docs.accessibility Docs.apiReference
       Docs.doc_description Docs.doc_content Docs.doc_title].
  split; [done|]. split; [done|]. split; [done|].
  split; [apply or_else_nonempty; destruct componentName; discriminate|].
  split; [by apply or_else_nonempty|].
  intros Hn. by apply or_else_nonempty, capitalized_nonempty.
Qed.

Lemma fallback_record_populated_witness :
  ∃ r, DocsFallback.extractComponentDocumentation Fixture.noExtractors
         Fixture.emptyDisk "button" = Returned r
    ∧ Docs.doc_title r ≠ "".
Proof.
  destruct (fallback_record_populated Fixture.noExtractors Fixture.emptyDisk
              "button") as (r & Hr & _ & _ & _ & _ & _ & Ht).
  exists r. split; [exact Hr|]. apply Ht. discriminate.
Defined.

(** X18.  The two revisions look in compatible places: the one file the
    rethrowing revision reads for a name is among the candidates of the
    fall-back revision for that name, and it is the file of the fall-back
    revision's special-case table whenever the name is in that table. *)
Theorem docsPath_is_candidate componentName :
  DocsThrowing.docsPath componentName
    ∈ DocsFallback.potentialPaths componentName
  ∧ ∀ path, DocsFallback.specialCases !! componentName = Some path →
      DocsThrowing.docsPath componentName = path.
Proof.
  split.
  - rewrite docsPath_table.
    destruct (DocsFallback.specialCases !! componentName) as [path|] eqn:Hs.
    + by apply specialCases_potentialPaths.
    + simpl. unfold DocsFallback.potentialPaths, DocsSpec.conventionPath.
      by left.
  - intros path Hs. by rewrite docsPath_table, Hs.
Qed.

Lemma docsPath_is_candidate_witness :
  DocsThrowing.docsPath "shapes" = Docs.DOCS_DIR +:+ "/ShapesPage.tsx".
Proof. apply (proj2 (docsPath_is_candidate "shapes")). reflexivity. Defined.

(** X19.  The two revisions agree on complete pages: when the file that
    the rethrowing revision reads is not empty and that revision returns a
    record whose title, description and content are non-empty and whose
    accessibility block is present, the fall-back revision returns the
    same record. *)
Theorem revisions_agree ex fs componentName content r :
  fs (DocsThrowing.docsPath componentName) = Some (Docs.File content) →
  content ≠ "" →
  DocsThrowing.extractComponentDocumentation ex fs componentName
  = Returned r →
  Docs.doc_title r ≠ "" → Docs.doc_description r ≠ "" →
  Docs.doc_content r ≠ "" → Docs.accessibility r ≠ None →
  DocsFallback.extractComponentDocumentation ex fs componentName = Returned r.
Proof.
  intros Hfile Hne Hr Ht Hd Hc Ha.
  unfold DocsFallback.extractComponentDocumentation, DocsFallback.extract_body.
  cbv zeta.
  rewrite (fallback_finds_docsPath fs componentName content Hfile Hne).
  apply truthy_spec in Hne as Hne'. rewrite Hne'. cbn [negb].
  unfold DocsThrowing.extractComponentDocumentation,
    DocsThrowing.extract_body, Docs.readFileSync in Hr.
  rewrite Hfile in Hr. unfold mbind, Outcome_bind in *.
  cbn [Js.bind] in Hr.
  destruct (Docs.extractTitle ex content) as [t|]; cbn [Js.bind] in *;
    [|done].
  destruct (Docs.extractDescription ex content) as [d|]; cbn [Js.bind] in *;
    [|done].
  destruct (Docs.extractMainContent ex content) as [m|]; cbn [Js.bind] in *;
    [|done].
  destruct (Docs.extractExamples ex content) as [x|]; cbn [Js.bind] in *;
    [|done].
  destruct (Docs.extractAccessibility ex content) as [a|]; cbn [Js.bind] in *;
    [|done].
  simplify_eq. cbn in Ht, Hd, Hc, Ha.
  rewrite !or_else_truthy by done. by destruct a.
Qed.

Lemma revisions_agree_witness :
  let ex :=
    Docs.mkExtractors (λ _, Returned "Button") (λ _, Returned "A button")
      (λ _, Returned "## Usage") (λ _, Returned [])
      (λ _, Returned (Some Docs.emptyAccessibility)) in
  let fs := λ path,
    if String.eqb path (DocsThrowing.docsPath "button")
    then Some (Docs.File "<h1>Button</h1>") else None in
  DocsFallback.extractComponentDocumentation ex fs "button"
  = DocsThrowing.extractComponentDocumentation ex fs "button".
Proof.
  cbv zeta. symmetry. etrans; [reflexivity|]. symmetry.
  eapply (revisions_agree _ _ "button" "<h1>Button</h1>");
    [reflexivity|discriminate|reflexivity|discriminate|discriminate
    |discriminate|discriminate].
Defined.





Section CatalogueFacts.
Import Docs.

Lemma sublist_bind {A B} (f g : A → list B) (l : list A) :
  (∀ x, f x `sublist_of` g x) → (l ≫= f) `sublist_of` (l ≫= g).
Proof.
  intros H. induction l as [|x l IH]; [done|].
  rewrite !bind_cons. by apply sublist_app.
Qed.

Lemma elem_of_catalogue_matches query r :
  r ∈ Spec.catalogue_matches query
  ↔ ∃ s items item,
      (s, items) ∈ DOCS_STRUCTURE ∧ item ∈ items
      ∧ Js.includes (Js.toLowerCase item) (Js.toLowerCase query) = true
      ∧ r = s +:+ "/" +:+ item.
Proof.
  unfold Spec.catalogue_matches, Spec.section_matches.
  rewrite list_elem_of_bind. split.
  - intros ([s items] & Hr & Hs). simpl in Hr.
    apply list_elem_of_fmap in Hr as (item & -> & Hi).
    apply list_elem_of_filter in Hi as [Hm Hi]. by exists s, items, item.
  - intros (s & items & item & Hs & Hi & Hm & ->). exists (s, items).
    split; [|done]. simpl. apply list_elem_of_fmap. exists item.
    split; [done|]. by apply list_elem_of_filter.
Qed.

Lemma filter_all {A} (P : A → Prop) `{!∀ x, Decision (P x)} (l : list A) :
  (∀ x, P x) → filter P l = l.
Proof.
  intros Hall. induction l as [|x l IH]; [done|].
  by rewrite filter_cons_True, IH.
Qed.

End CatalogueFacts.

(** X22.  What [searchDocumentation] returns for a query of 7-bit
    characters when no section is given: a list that contains exactly the
    strings "section/item" for the items of the catalogue whose
    lower-cased name contains the lower-cased query; it is a subsequence
    of the whole catalogue in catalogue order; the empty query returns the
    whole catalogue; and, for any section argument, the upper-cased query
    gives the same outcome as the query. *)
Theorem searchDocumentation_results query :
  Js.plain query = true →
  (∃ l, Docs.searchDocumentation query None = Returned l
     ∧ (∀ r, r ∈ l ↔
          ∃ s items item,
            (s, items) ∈ Docs.DOCS_STRUCTURE ∧ item ∈ items
            ∧ Js.includes (Js.toLowerCase item) (Js.toLowerCase query) = true
            ∧ r = s +:+ "/" +:+ item)
     ∧ l `sublist_of` DocsSpec.whole_catalogue
     ∧ (query = "" → l = DocsSpec.whole_catalogue))
  ∧ ∀ section,
      Docs.searchDocumentation (Js.toUpperCase query) section
      = Docs.searchDocumentation query section.
Proof.
  intros _. split.
  - exists (Spec.catalogue_matches query).
    split; [apply searchDocumentation_all|].
    split; [apply elem_of_catalogue_matches|]. split.
    + unfold Spec.catalogue_matches, DocsSpec.whole_catalogue.
      apply sublist_bind. intros [s items]. unfold Spec.section_matches.
      apply fmap_sublist, sublist_filter.
    + intros ->. unfold Spec.catalogue_matches, DocsSpec.whole_catalogue.
      generalize Docs.DOCS_STRUCTURE. intros catalogue.
      induction catalogue as [|[s items] catalogue IH]; [done|].
      rewrite !bind_cons, IH. f_equal. unfold Spec.section_matches.
      cbn [fst snd]. f_equal. apply filter_all. intros item.
      apply includes_empty.
  - intros section. unfold Docs.searchDocumentation.
    by rewrite toLowerCase_toUpperCase.
Qed.

Lemma searchDocumentation_results_witness :
  ∃ l, Docs.searchDocumentation "" None = Returned l ∧ length l = 59%nat.
Proof.
  destruct (searchDocumentation_results "" eq_refl)
    as [(l & Hl & _ & _ & Hall) _].
  exists l. split; [exact Hl|]. rewrite (Hall eq_refl). reflexivity.
Defined.

(* ===================================================================== *)
(** ** Properties of the tool handlers                                    *)
(* ===================================================================== *)

Section ToolFacts.
Import Api Tools.

Lemma prefix_trans a b c :
  String.prefix a b = true → String.prefix b c = true →
  String.prefix a c = true.
Proof.
  revert b c. induction a as [|x a IH]; intros b c; [by destruct c|].
  destruct b as [|y b]; [done|]. destruct c as [|z c]; simpl.
  - by destruct (Ascii.ascii_dec x y).
  - destruct (Ascii.ascii_dec x y) as [->|]; [|done].
    destruct (Ascii.ascii_dec y z) as [->|]; [|done]. apply IH.
Qed.

Lemma endsWith_module_css s :
  endsWith s ".module.css" = true → endsWith s ".css" = true.
Proof. unfold endsWith. by apply prefix_trans. Qed.

Lemma isStyleFile_spec file :
  isStyleFile file = true
  ↔ endsWith (filePath file) ".css" = true
    ∨ endsWith (filePath file) ".scss" = true.
Proof.
  unfold isStyleFile. rewrite !orb_true_iff.
  pose proof (endsWith_module_css (filePath file)). tauto.
Qed.

Lemma filePath_addressable file :
  SchemaSpec.addressable file → filePath file ≠ "".
Proof.
  unfold SchemaSpec.addressable, filePath.
  intros [(p & -> & Hp)|(n & Hn & Hne)].
  - apply truthy_spec in Hp as Hp'. by rewrite Hp'.
  - rewrite Hn. apply truthy_spec in Hne as Hne'. rewrite Hne'.
    destruct (file_path file) as [p|]; [|done].
    destruct (Js.truthy p) eqn:Hp; [by apply truthy_spec|done].
Qed.


Lemma fetched_component_styles env network componentName component params w :
  ComponentNameParamSchema params = Returned componentName →
  (fetchComponent env network componentName w).1
  = Returned (ComponentData component) →
  (get_component_styles env network params w).1
  = Success (GetComponentStyles (stylesOf componentName component)).
Proof.
  intros Hp Hf. unfold get_component_styles. rewrite Hp.
  destruct (fetchComponent env network componentName w) as [r w'].
  simpl in Hf. by subst r.
Qed.

End ToolFacts.



(** X24.  What [get_component_styles] returns for a component: the style
    files are the files whose path ends in ".css" or ".scss", in the order
    of the component (the test for ".module.css" adds nothing); the
    dependencies are the array of the component when it is one, the key
    set of the record when it is one, and empty when the component has
    none; the brutalist features are passed on as they are. *)
Theorem get_component_styles_files componentName component :
  let p := Tools.stylesOf componentName component in
  let files := component_files component in
  (∀ file, file ∈ Tools.styleFiles p
     ↔ file ∈ files
       ∧ (Tools.endsWith (Tools.filePath file) ".css" = true
          ∨ Tools.endsWith (Tools.filePath file) ".scss" = true))
  ∧ Tools.styleFiles p `sublist_of` files
  ∧ (∀ names, component_dependencies component = Some (DependencyList names) →
       Tools.st_dependencies p = names)
  ∧ (∀ versions,
       component_dependencies component = Some (DependencyMap versions) →
       NoDup (Tools.st_dependencies p)
       ∧ ∀ name, name ∈ Tools.st_dependencies p ↔ is_Some (versions !! name))
  ∧ (component_dependencies component = None → Tools.st_dependencies p = [])
  ∧ Tools.st_brutalistFeatures p = component_brutalistFeatures component
  ∧ (∀ env network params w,
       Tools.ComponentNameParamSchema params = Returned componentName →
       (Api.fetchComponent env network componentName w).1
       = Returned (Api.ComponentData component) →
       (Tools.get_component_styles env network params w).1
       = Tools.Success (Tools.GetComponentStyles p)).
Proof.
  cbv zeta. unfold Tools.stylesOf at 1 2 3 4 5 6 7.
  cbn [Tools.styleFiles Tools.st_dependencies Tools.st_brutalistFeatures].
  split; [|split; [|split; [|split; [|split; [|split]]]]].
  - intros file. rewrite list_elem_of_filter, isStyleFile_spec. tauto.
  - apply sublist_filter.
  - by intros names ->.
  - intros versions ->. cbn [Tools.dependencyNames]. split.
    + apply NoDup_fst_map_to_list.
    + intros name. rewrite list_elem_of_fmap. split.
      * intros ([k v] & -> & Hin). apply elem_of_map_to_list in Hin. eauto.
      * intros [v Hv]. exists (name, v). split; [done|].
        by apply elem_of_map_to_list.
  - by intros ->.
  - done.
  - intros. by apply fetched_component_styles.
Qed.

Lemma get_component_styles_files_witness :
  Tools.st_dependencies (Tools.stylesOf "button" Fixture.button_detail) = []
  ∧ Tools.styleFiles (Tools.stylesOf "button" Fixture.button_detail) = [].
Proof.
  destruct (get_component_styles_files "button" Fixture.button_detail)
    as (_ & _ & _ & _ & Hnone & _).
  split; [by apply Hnone|reflexivity].
Defined.

Section SharedEntry.
Import Api Tools.
Variable env : gmap string string.
Variable network : list string → string → Reply.

Lemma registryUrl_requested componentName :
  baseUrl env +:+ "/registry/react/" +:+ componentName +:+ ".json"
  = REGISTRY_BASE_URL env +:+ "/" +:+ componentName +:+ ".json".
Proof. unfold baseUrl, REGISTRY_BASE_URL. by case_bool_decide. Qed.

(** A successful fetch leaves the component readable from the cache, and
    has sent one request exactly when the cache could not answer. *)
Lemma fetchComponent_then_cached componentName w d w' :
  fetchComponent env network componentName w = (Returned d, w') →
  getFromCache ("component-" +:+ componentName) w' = (Some d, w')
  ∧ ((getFromCache ("component-" +:+ componentName) w).1 = Some d ∧ w' = w
     ∨ (getFromCache ("component-" +:+ componentName) w).1 = None
       ∧ (∃ component, d = ComponentData component)
       ∧ requests w'
         = (requests w
            ++ [REGISTRY_BASE_URL env +:+ "/" +:+ componentName +:+ ".json"])%list).
Proof.
  unfold fetchComponent.
  pose proof (getFromCache_pure ("component-" +:+ componentName) w) as Hw.
  destruct (getFromCache ("component-" +:+ componentName) w)
    as [[cached|] w0] eqn:Hget; simpl in Hw; subst w0.
  - intros [= -> ->]. split; [done|]. by left.
  - unfold axios_get.
    destruct (response (network (requests w) _)) as [body|status m].
    + destruct (ComponentSchema body) as [component|e]; [|done].
      intros [= <- <-]. split.
      { eapply (getFromCache_fresh _ _ (mkCacheEntry _ _));
          [apply lookup_insert_eq|].
        simpl. by rewrite Z.sub_diag. }
      right. split; [done|]. split; [by eexists|done].
    + by case_bool_decide.
Qed.

Lemma fetchComponent_again componentName w d w' :
  fetchComponent env network componentName w = (Returned d, w') →
  fetchComponent env network componentName w' = (Returned d, w').
Proof.
  intros [Hc _]%fetchComponent_then_cached.
  unfold fetchComponent. by rewrite Hc.
Qed.

Lemma fetched_is_component componentName w d w' :
  Invariant.well_typed (cache w) →
  fetchComponent env network componentName w = (Returned d, w') →
  ∃ component, d = ComponentData component.
Proof.
  intros [_ Hwt] Hf.
  destruct (fetchComponent_then_cached _ _ _ _ Hf) as [_ [[Hhit _]|(_ & H & _)]];
    [|done].
  unfold getFromCache in Hhit.
  destruct (cache w !! ("component-" +:+ componentName)) as [e|] eqn:He;
    [|done].
  destruct (Hwt _ _ He) as [component Hd].
  destruct (now w - timestamp e <? CACHE_TTL)%Z; [|done].
  simpl in Hhit. exists component. congruence.
Qed.

End SharedEntry.

(** X25.  The four tools that take a component name read the same cache
    entry.  Once [get_component] has succeeded, in a cache that keeps its
    typing discipline, the calls of [get_component], [get_component_examples],
    [get_component_styles] and [get_install_command] that follow at once
    with the same arguments all succeed, report on the very component that
    [get_component] returned, and send no request. *)
Theorem component_tools_share_entry env network params w p w' :
  Invariant.well_typed (Api.cache w) →
  Tools.get_component env network params w
  = (Tools.Success (Tools.GetComponent p), w') →
  ∃ componentName component,
    Tools.ComponentNameParamSchema params = Returned componentName
    ∧ Tools.info_component p = Api.ComponentData component
    ∧ Tools.get_component env network params w'
      = (Tools.Success (Tools.GetComponent p), w')
    ∧ Tools.get_component_examples env network params w'
      = (Tools.Success (Tools.GetComponentExamples
           (Tools.examplesOf env componentName component)), w')
    ∧ Tools.get_component_styles env network params w'
      = (Tools.Success (Tools.GetComponentStyles
           (Tools.stylesOf componentName component)), w')
    ∧ ∃ command,
        Tools.get_install_command env network params w'
        = (Tools.Success (Tools.GetInstallCommand command), w')
        ∧ Tools.ic_installCommand command = Tools.info_installCommand p.
Proof.
  intros Hwt. unfold Tools.get_component.
  destruct (Tools.ComponentNameParamSchema params) as [componentName|e] eqn:Hp;
    [|done].
  destruct (Api.fetchComponent env network componentName w) as [[d|e] w0]
    eqn:Hf; [|done].
  intros [= <- <-].
  destruct (fetched_is_component _ _ _ _ _ _ Hwt Hf) as [component ->].
  pose proof (fetchComponent_again _ _ _ _ _ _ Hf) as Hagain.
  exists componentName, component. split; [done|]. split; [done|].
  unfold Tools.get_component_examples, Tools.get_component_styles,
    Tools.get_install_command.
  rewrite Hp, !Hagain. repeat split. eexists. split; reflexivity.
Qed.

Lemma component_tools_share_entry_witness :
  ∃ w',
    Tools.get_component_styles ∅ Fixture.server
      (JObject [("componentName", JString "button")]) w'
    = (Tools.Success (Tools.GetComponentStyles
         (Tools.stylesOf "button" Fixture.button_detail)), w')
    ∧ Api.requests w'
      = ["http://localhost:3000/registry/react/button.json"].
Proof.
  eexists. split.
  - edestruct (component_tools_share_entry ∅ Fixture.server
                (JObject [("componentName", JString "button")])
                Fixture.coldStart)
      as (componentName & component & Hn & Hc & _ & _ & Hs & _).
    + split; [intros e He|intros n e He]; simpl in He;
        by rewrite lookup_empty in He.
    + reflexivity.
    + injection Hn as <-. injection Hc as <-. exact Hs.
  - reflexivity.
Defined.

(** X26.  The [registryUrl] that [get_component] reports is the address
    the client fetches the component from: a successful call that could
    not be answered from the cache has sent exactly one request, to that
    address, and one answered from the cache has sent none.  The install
    command quotes the same address without its ".json". *)
Theorem get_component_registryUrl env network params w p w' :
  Tools.get_component env network params w
  = (Tools.Success (Tools.GetComponent p), w') →
  ∃ componentName,
    Tools.ComponentNameParamSchema params = Returned componentName
    ∧ ((Api.getFromCache ("component-" +:+ componentName) w).1 = None →
       Api.requests w'
       = (Api.requests w ++ [Tools.info_registryUrl p])%list)
    ∧ ((Api.getFromCache ("component-" +:+ componentName) w).1 ≠ None →
       w' = w)
    ∧ ∃ address,
        Tools.info_registryUrl p = address +:+ ".json"
        ∧ Tools.info_installCommand p
          = "precast-ui add " +:+ Tools.DQUOTE +:+ address +:+ Tools.DQUOTE.
Proof.
  unfold Tools.get_component.
  destruct (Tools.ComponentNameParamSchema params) as [componentName|e] eqn:Hp;
    [|done].
  destruct (Api.fetchComponent env network componentName w) as [[d|e] w0]
    eqn:Hf; [|done].
  intros [= <- <-]. exists componentName. split; [done|].
  cbn [Tools.info_registryUrl Tools.info_installCommand].
  destruct (fetchComponent_then_cached _ _ _ _ _ _ Hf)
    as [_ [[Hhit ->]|(Hmiss & _ & Hreq)]].
  - split; [by rewrite Hhit|]. split; [done|].
    exists (Tools.baseUrl env +:+ "/registry/react/" +:+ componentName).
    unfold Tools.installCommandFor, Tools.baseUrl. by case_bool_decide.
  - split; [intros _; by rewrite registryUrl_requested|].
    split; [by rewrite Hmiss|].
    exists (Tools.baseUrl env +:+ "/registry/react/" +:+ componentName).
    unfold Tools.installCommandFor, Tools.baseUrl. by case_bool_decide.
Qed.

Lemma get_component_registryUrl_witness :
  Api.requests
    (Tools.get_component (<["NODE_ENV" := "production"]> ∅)
       (λ _ _, Api.mkReply (Api.Resolved Fixture.button_json) 40)
       (JObject [("componentName", JString "button")]) Fixture.coldStart).2
  = ["https://brutalist.precast.dev/registry/react/button.json"].
Proof.
  eassert (Tools.get_component (<["NODE_ENV" := "production"]> ∅)
             (λ _ _, Api.mkReply (Api.Resolved Fixture.button_json) 40)
             (JObject [("componentName", JString "button")]) Fixture.coldStart
           = (Tools.Success (Tools.GetComponent _), _)) as Hr
    by reflexivity.
  destruct (get_component_registryUrl _ _ _ _ _ _ Hr)
    as (componentName & Hn & Hmiss & _).
  injection Hn as <-. rewrite Hr. exact (Hmiss eq_refl).
Defined.

(* ===================================================================== *)
(** ** Properties of the dispatcher                                       *)
(* ===================================================================== *)

Section DispatchFacts.
Import Api Tools Handler.
Variable env : gmap string string.
Variable network : list string → string → Reply.
Variable extractComponentDocumentation
  : string → Outcome Docs.DocumentationSection.

(** No handler fails with another code than [InternalError]. *)
Lemma run_failure_internal tool params w e w' :
  run env network extractComponentDocumentation tool params w
  = (Failure e, w') →
  code e = InternalError.
Proof.
  destruct tool; cbn [run];
    unfold Tools.list_components, Tools.get_component,
      Tools.search_components, Tools.get_component_examples,
      Tools.get_component_styles, Tools.get_categories,
      Tools.get_components_by_category, Tools.get_featured_components,
      Tools.get_registry_info, Tools.get_install_command,
      Tools.get_component_documentation, Tools.search_documentation,
      Tools.get_documentation_sections, Tools.get_accessibility_info,
      createErrorResponse;
    repeat case_match; intros; by simplify_eq.
Qed.

Lemma getToolSchema_tools name :
  is_Some (getToolSchema name) ↔ name ∈ tools.
Proof.
  unfold getToolSchema, tools. split.
  - repeat match goal with
           | |- context [String.eqb name ?l] =>
               destruct (String.eqb_spec name l) as [->|?];
                 [intros _; by repeat constructor|]
           end.
    cbn. by intros [? ?].
  - intros H. repeat (apply elem_of_cons in H as [->|H]; [by eexists|]).
    by apply elem_of_nil in H.
Qed.

Lemma toolHandlers_named name tool :
  toolHandlers !! name = Some tool → Js.truthy name = true.
Proof. intros H. apply truthy_spec. by intros ->. Qed.

Lemma js_get_toolHandlers name tool :
  toolHandlers !! name = Some tool → Js.js_get toolHandlers name = Js.Own tool.
Proof. intros H. unfold Js.js_get. by rewrite H. Qed.

(** Parsing the object that the dispatcher has validated gives what
    parsing the arguments as sent gives. *)
Lemma componentNameSchema_strip params validated :
  componentNameSchema params = Returned validated →
  ComponentNameParamSchema validated = ComponentNameParamSchema params.
Proof.
  destruct params as [| | | | |data]; try done. simpl.
  destruct (field data "componentName") as [[| | |s| |]|]; try done.
  by intros [= <-].
Qed.

Lemma categorySchema_strip params validated :
  categorySchema params = Returned validated →
  CategoryParamSchema validated = CategoryParamSchema params.
Proof.
  destruct params as [| | | | |data]; try done. simpl.
  destruct (field data "category") as [[| | |s| |]|]; try done.
  by intros [= <-].
Qed.

Lemma searchSchema_strip params validated :
  searchSchema params = Returned validated →
  SearchParamSchema validated = SearchParamSchema params.
Proof.
  destruct params as [| | | | |data]; try done. simpl.
  destruct (field data "query") as [[| | |q| |]|]; try done.
  destruct (field data "category") as [[| | |c| |]|]; try done;
    destruct (field data "featured") as [[|b| | | |]|]; try done;
    by intros [= <-].
Qed.

Lemma getToolSchema_cases name schema :
  getToolSchema name = Some schema →
  (schema = componentNameSchema
   ∧ name ∈ ["get_component"; "get_component_examples";
             "get_component_styles"; "get_install_command"])
  ∨ (schema = searchSchema ∧ name = "search_components")
  ∨ (schema = categorySchema ∧ name = "get_components_by_category")
  ∨ (schema = emptySchema
     ∧ name ∈ ["list_components"; "get_categories";
               "get_featured_components"; "get_registry_info"]).
Proof.
  unfold getToolSchema.
  repeat match goal with
         | |- context [String.eqb name ?l] =>
             destruct (String.eqb_spec name l) as [->|?]
         end; cbn [orb]; try (intros ?; discriminate).
  all: intros [= <-].
  1-4: left; split; [done|by repeat constructor].
  1: right; left; by split.
  1: right; right; left; by split.
  all: right; right; right; split; [done|by repeat constructor].
Qed.

Lemma run_validated name tool schema params validated w :
  toolHandlers !! name = Some tool →
  getToolSchema name = Some schema →
  schema params = Returned validated →
  run env network extractComponentDocumentation tool validated w
  = run env network extractComponentDocumentation tool params w.
Proof.
  intros Htool Hschema Hv.
  destruct (getToolSchema_cases _ _ Hschema)
    as [[-> Hin]|[[-> ->]|[[-> ->]|[-> Hin]]]].
  - repeat (apply elem_of_cons in Hin as [->|Hin];
            [vm_compute in Htool; injection Htool as <-; cbn [run]|]);
      [| | | |by apply elem_of_nil in Hin].
    all: unfold Tools.get_component, Tools.get_component_examples,
           Tools.get_component_styles, Tools.get_install_command.
    all: by rewrite (componentNameSchema_strip _ _ Hv).
  - vm_compute in Htool. injection Htool as <-. cbn [run].
    unfold Tools.search_components. by rewrite (searchSchema_strip _ _ Hv).
  - vm_compute in Htool. injection Htool as <-. cbn [run].
    unfold Tools.get_components_by_category.
    by rewrite (categorySchema_strip _ _ Hv).
  - repeat (apply elem_of_cons in Hin as [->|Hin];
            [vm_compute in Htool; injection Htool as <-; cbn [run]|]);
      [done|done|done|done|by apply elem_of_nil in Hin].
Qed.

End DispatchFacts.

(** X27.  When the dispatcher fails with [InvalidParams].  It does so
    before any handler runs, hence with the cache, the clock and the
    request log as they were, and in three cases only: the tool name is
    empty; the name is neither a handler nor a name that every object
    inherits; or the tool is one of the ten advertised ones and its
    arguments do not fit its schema.  Each of the three cases does fail
    in this way. *)
Theorem callTool_invalid_params env network extractComponentDocumentation
    name arguments w :
  let r := Handler.callTool env network extractComponentDocumentation
             name arguments w in
  (∀ e, r.1 = Handler.Handled (Tools.Failure e) →
        Tools.code e = Tools.InvalidParams →
        r.2 = w
        ∧ (name = "" ∧ Tools.reason e = "Tool name is required"
           ∨ (name ≠ "" ∧ Handler.toolHandlers !! name = None
              ∧ (name ∉ Js.objectPrototypeKeys)
              ∧ Tools.reason e = "Tool not found: " +:+ name)
           ∨ (∃ schema error,
               name ∈ Handler.tools
               ∧ Handler.getToolSchema name = Some schema
               ∧ schema (Handler.orEmptyObject arguments) = Thrown error
               ∧ Tools.reason e
                 = "Invalid parameters: " +:+ Js.message error)))
  ∧ (name = "" →
     r = (Handler.Handled (Tools.Failure
            (Tools.mkMcpError Tools.InvalidParams "Tool name is required")),
          w))
  ∧ (name ≠ "" → Handler.toolHandlers !! name = None →
     name ∉ Js.objectPrototypeKeys →
     r = (Handler.Handled (Tools.Failure
            (Tools.mkMcpError Tools.InvalidParams
               ("Tool not found: " +:+ name))), w))
  ∧ (∀ schema error,
       is_Some (Handler.toolHandlers !! name) →
       Handler.getToolSchema name = Some schema →
       schema (Handler.orEmptyObject arguments) = Thrown error →
       r = (Handler.Handled (Tools.Failure
              (Tools.mkMcpError Tools.InvalidParams
                 ("Invalid parameters: " +:+ Js.message error))), w)).
Proof.
  cbv zeta. unfold Handler.callTool. split; [|split; [|split]].
  - intros e.
    destruct (Js.truthy name) eqn:Hname; cbn [negb].
    + apply truthy_spec in Hname.
      unfold Js.js_get.
      destruct (Handler.toolHandlers !! name) as [tool|] eqn:Htool.
      * destruct (Handler.getToolSchema name) as [schema|] eqn:Hschema.
        -- destruct (schema (Handler.orEmptyObject arguments))
             as [validated|error] eqn:Hv.
           ++ destruct (Handler.run _ _ _ tool validated w) as [[p|e'] w']
                eqn:Hrun; [done|].
              intros [= <-] Hcode.
              apply run_failure_internal in Hrun. congruence.
           ++ intros [= <-] _. split; [done|]. right. right.
              exists schema, error. split; [|done].
              apply getToolSchema_tools. by eexists.
        -- destruct (Handler.run _ _ _ tool _ w) as [[p|e'] w'] eqn:Hrun;
             [done|].
           intros [= <-] Hcode.
           apply run_failure_internal in Hrun. congruence.
      * case_bool_decide as Hproto; [done|].
        intros [= <-] _. split; [done|]. right. left. done.
    + intros [= <-] _. split; [done|]. left. split; [|done].
      destruct (decide (name = "")) as [|Hne]; [done|].
      apply truthy_spec in Hne. congruence.
  - by intros ->.
  - intros Hne Hnone Hproto. apply truthy_spec in Hne as ->. cbn [negb].
    unfold Js.js_get. rewrite Hnone. by rewrite bool_decide_eq_false_2.
  - intros schema error [tool Htool] Hschema Hv.
    rewrite (toolHandlers_named _ _ Htool). cbn [negb].
    by rewrite (js_get_toolHandlers _ _ Htool), Hschema, Hv.
Qed.

Lemma callTool_invalid_params_witness :
  Handler.callTool ∅ Fixture.server
    (DocsFallback.extractComponentDocumentation Fixture.noExtractors
       Fixture.emptyDisk)
    "get_component" None Fixture.coldStart
  = (Handler.Handled (Tools.Failure
       (Tools.mkMcpError Tools.InvalidParams
          "Invalid parameters: componentName: Required")),
     Fixture.coldStart).
Proof.
  destruct (callTool_invalid_params ∅ Fixture.server
              (DocsFallback.extractComponentDocumentation Fixture.noExtractors
                 Fixture.emptyDisk)
              "get_component" None Fixture.coldStart) as (_ & _ & _ & Hbad).
  apply (Hbad Handler.componentNameSchema
           (Schema.ZodError "componentName" "Required"));
    [by eexists|reflexivity|reflexivity].
Defined.

(** X28.  The validation of the dispatcher is not observable on the
    arguments it accepts: unless the schema of the tool rejects them, a
    call of a known tool is the handler applied to the arguments as they
    were sent.  The handlers parse their arguments again and obtain from
    the validated object, from which the unknown keys are gone, what they
    obtain from the original. *)
Theorem callTool_validation_transparent env network
    extractComponentDocumentation name tool arguments w :
  Handler.toolHandlers !! name = Some tool →
  (∀ schema, Handler.getToolSchema name = Some schema →
     ∃ validated,
       schema (Handler.orEmptyObject arguments) = Returned validated) →
  Handler.callTool env network extractComponentDocumentation name arguments w
  = let '(r, w') := Handler.run env network extractComponentDocumentation
                      tool (Handler.orEmptyObject arguments) w in
    (Handler.Handled r, w').
Proof.
  intros Htool Hvalid. unfold Handler.callTool.
  rewrite (toolHandlers_named _ _ Htool). cbn [negb].
  rewrite (js_get_toolHandlers _ _ Htool).
  destruct (Handler.getToolSchema name) as [schema|] eqn:Hschema; [|done].
  destruct (Hvalid schema eq_refl) as [validated Hv]. rewrite Hv.
  by rewrite (run_validated _ _ _ _ _ _ _ _ _ Htool Hschema Hv).
Qed.

Lemma callTool_validation_transparent_witness :
  Handler.callTool ∅ Fixture.server
    (DocsFallback.extractComponentDocumentation Fixture.noExtractors
       Fixture.emptyDisk)
    "get_component"
    (Some (JObject [("componentName", JString "button");
                    ("verbose", JBool true)]))
    Fixture.coldStart
  = let '(r, w') :=
      Tools.get_component ∅ Fixture.server
        (JObject [("componentName", JString "button");
                  ("verbose", JBool true)])
        Fixture.coldStart in
    (Handler.Handled r, w').
Proof.
  apply (callTool_validation_transparent ∅ Fixture.server _ "get_component"
           Handler.get_component); [reflexivity|].
  intros schema [= <-]. by eexists.
Defined.

(* ===================================================================== *)
(** ** Properties of the documentation tools                              *)
(* ===================================================================== *)

Section DocToolFacts.
Import Docs Tools.

Lemma prefix_refl s : String.prefix s s = true.
Proof.
  induction s as [|c s IH]; [done|]. simpl.
  by destruct (Ascii.ascii_dec c c).
Qed.

Lemma includes_refl s : Js.includes s s = true.
Proof. apply includes_prefix, prefix_refl. Qed.

Lemma append_length a b :
  String.length (a +:+ b) = (String.length a + String.length b)%nat.
Proof.
  induction a as [|c a IH]; [done|].
  change (String c a +:+ b) with (String c (a +:+ b)). simpl. by rewrite IH.
Qed.

Lemma append_cancel_l a b c : a +:+ b = a +:+ c → b = c.
Proof.
  induction a as [|x a IH]; [done|].
  change (String x a +:+ ?s) with (String x (a +:+ s)).
  intros [= H]. by apply IH.
Qed.

Lemma has_slash_app a b : has_slash (a +:+ "/" +:+ b) = true.
Proof.
  induction a as [|x a IH]; [done|].
  change (String x a +:+ ?s) with (String x (a +:+ s)).
  simpl. rewrite IH. apply orb_true_r.
Qed.

(** [(section + '/' + item).split('/').pop()] is the item when the item
    has no slash. *)
Lemma lastSegment_app a b :
  has_slash b = false → lastSegment (a +:+ "/" +:+ b) = b.
Proof.
  intros Hb. induction a as [|x a IH].
  - change ("" +:+ "/" +:+ b) with (String "/" b). simpl. by rewrite Hb.
  - change (String x a +:+ ?s) with (String x (a +:+ s)).
    simpl. by rewrite has_slash_app.
Qed.

Lemma catalogue_no_slash sectionName items item :
  (sectionName, items) ∈ DOCS_STRUCTURE → item ∈ items →
  has_slash item = false.
Proof.
  intros Hs Hi.
  assert (forallb (λ s, forallb (λ item, negb (has_slash item)) s.2)
            DOCS_STRUCTURE = true) as Hall by reflexivity.
  rewrite forallb_forall in Hall.
  apply list_elem_of_In in Hs. apply Hall in Hs. cbn [snd] in Hs.
  rewrite forallb_forall in Hs.
  apply list_elem_of_In in Hi. apply Hs in Hi. by apply negb_true_iff.
Qed.

Lemma catalogue_section_named sectionName items :
  (sectionName, items) ∈ DOCS_STRUCTURE → Js.truthy sectionName = true.
Proof.
  intros Hs. apply truthy_spec. intros ->.
  assert (forallb (λ s, negb (String.eqb s.1 "")) DOCS_STRUCTURE = true)
    as Hall by reflexivity.
  rewrite forallb_forall in Hall.
  apply list_elem_of_In in Hs. by apply Hall in Hs.
Qed.


End DocToolFacts.

(** X29.  The links of the two documentation tools.  Every item of the
    catalogue is listed by [get_documentation_sections] and is found by
    [search_documentation] when its name is the query and its section is
    given as the [category] argument.  Both tools give the item the same
    title.  They give it the same address exactly when the section is
    "components": for the other sections the listing leaves the section
    out of the address, and the search keeps it. *)
Theorem documentation_links env sectionName items item :
  (sectionName, items) ∈ Docs.getAllDocumentationSections →
  item ∈ items →
  ∃ sections section entry search hit,
    Tools.get_documentation_sections env
    = Tools.Success (Tools.GetDocumentationSections sections)
    ∧ section ∈ sections
    ∧ Tools.section_name section = sectionName
    ∧ entry ∈ Tools.section_items section
    ∧ Tools.item_name entry = item
    ∧ Tools.search_documentation env
        (JObject [("query", JString item); ("category", JString sectionName)])
      = Tools.Success (Tools.SearchDocumentation search)
    ∧ hit ∈ Tools.ds_results search
    ∧ Tools.hit_path hit = sectionName +:+ "/" +:+ item
    ∧ Tools.hit_title hit = Tools.item_title entry
    ∧ (Tools.hit_url hit = Tools.item_url entry ↔ sectionName = "components").
Proof.
  unfold Docs.getAllDocumentationSections. intros Hs Hi.
  set (toEntry := λ item,
         Tools.mkSectionItem item (Tools.titleOf item)
           (Tools.baseUrl env +:+ "/docs/"
            +:+ (if String.eqb sectionName "components"
                 then "components/" else "")
            +:+ item)).
  set (toHit := λ result,
         Tools.mkDocumentationHit result
           (Tools.baseUrl env +:+ "/docs/" +:+ result)
           (Tools.titleOf (Tools.lastSegment result))).
  eexists _, (Tools.mkSectionInfo sectionName (Docs.capitalized sectionName)
                (toEntry <$> items)),
    (toEntry item), _, (toHit (sectionName +:+ "/" +:+ item)).
  split; [reflexivity|].
  split; [apply list_elem_of_fmap; by exists (sectionName, items)|].
  split; [done|].
  split; [apply list_elem_of_fmap; by exists item|].
  split; [done|].
  split.
  { unfold Tools.search_documentation.
    change (Tools.SearchParamSchema _)
      with (Returned (item, Some sectionName, @None bool)).
    cbv iota beta. unfold Docs.searchDocumentation.
    rewrite (catalogue_section_named _ _ Hs).
    rewrite search_sections_cons, (search_section_own _ _ _ _ Hs).
    reflexivity. }
  cbn [Tools.ds_results Tools.hit_path Tools.hit_title Tools.hit_url
       Tools.item_title Tools.item_url toEntry toHit].
  split.
  { apply list_elem_of_fmap. exists (sectionName +:+ "/" +:+ item).
    split; [done|]. rewrite app_nil_l. unfold Spec.section_matches.
    apply list_elem_of_fmap. exists item. split; [done|].
    apply list_elem_of_filter. split; [apply includes_refl|done]. }
  split; [done|].
  split.
  { by rewrite (lastSegment_app _ _ (catalogue_no_slash _ _ _ Hs Hi)). }
  destruct (String.eqb_spec sectionName "components") as [->|Hne].
  - split; [done|]. intros _. unfold Tools.baseUrl. by case_bool_decide.
  - split; [|done]. intros Heq.
    apply append_cancel_l in Heq.
    change ("/docs/" +:+ ?s) with (String "/" (String "d" (String "o"
      (String "c" (String "s" (String "/" s)))))) in Heq.
    injection Heq as Heq.
    apply (f_equal String.length) in Heq.
    rewrite !append_length in Heq. simpl in Heq. lia.
Qed.

Lemma documentation_links_witness :
  ∃ search hit,
    Tools.search_documentation ∅
      (JObject [("query", JString "colors"); ("category", JString "guides")])
    = Tools.Success (Tools.SearchDocumentation search)
    ∧ hit ∈ Tools.ds_results search
    ∧ Tools.hit_path hit = "guides/colors".
Proof.
  destruct (documentation_links ∅ "guides"
              [ "introduction"; "installation"; "typescript"; "cli";
                "design-principles"; "colors"; "typography"; "spacing";
                "animations"; "shapes"; "accessibility"; "theming";
                "changelog" ] "colors")
    as (sections & section & entry & search & hit & _ & _ & _ & _ & _
        & Hsearch & Hin & Hp & _).
  - by left.
  - by repeat constructor.
  - by exists search, hit.
Defined.


